(** * Website analyzer: crawl frontier, fetch retry policy, link
    classification and map-link selection

    A shallow embedding of the parts of [complete_website_analyzer.py]
    that carry the crawl's ordering, deduplication and failure-handling
    logic, with the properties of its specification stated over it.

    Conventions.
    - Python [str] is modelled by [string] (8-bit characters); [lower]
      and [strip] are the ASCII restrictions of the Python methods.
    - Python [int] status codes are [Z]; counters, depths and lengths
      are [nat].
    - The network, the HTML parser and [urllib.parse.urljoin] are
      collaborators outside the repository: the network is an oracle of
      per-attempt outcomes, a parsed page is the list of its anchor
      elements, and [urljoin] is a parameter of the extraction code. *)

From Stdlib Require Import ZArith Ascii String DecimalNat DecimalString Lia.
From stdpp Require Import gmap strings list sorting.

Local Open Scope nat_scope.

(* [set_solver] clears hypotheses that are already gone. *)
#[local] Set Warnings "-clear-no-such-hyp".

(** ** Python string primitives *)

Module Py.

(** [str.lower] on ASCII letters. *)
Definition lower_char (c : ascii) : ascii :=
  let n := N_of_ascii c in
  if (65 <=? n)%N && (n <=? 90)%N then ascii_of_N (n + 32) else c.

Fixpoint lower (s : string) : string :=
  match s with
  | EmptyString => EmptyString
  | String c s' => String (lower_char c) (lower s')
  end.

(** [s.startswith(p)]. *)
Definition startswith (p s : string) : bool := String.prefix p s.

(** [sub in s]: substring containment. *)
Fixpoint contains (sub s : string) : bool :=
  if String.prefix sub s then true
  else match s with
       | EmptyString => false
       | String _ s' => contains sub s'
       end.

(** [s.endswith(suf)]. *)
Fixpoint endswith (suf s : string) : bool :=
  if String.eqb s suf then true
  else match s with
       | EmptyString => false
       | String _ s' => endswith suf s'
       end.

(** [s.split(sep)[0]]: the part of [s] before the first [sep]. *)
Fixpoint split_head (sep : ascii) (s : string) : string :=
  match s with
  | EmptyString => EmptyString
  | String c s' =>
      if Ascii.eqb c sep then EmptyString else String c (split_head sep s')
  end.

(** [s.replace(old, new)] for a non-empty [old]: occurrences are
    replaced left to right, without overlap.  [skip] counts the
    characters of a matched occurrence still to be dropped. *)
Fixpoint replace_from (old new : string) (skip : nat) (s : string) : string :=
  match s with
  | EmptyString => EmptyString
  | String c s' =>
      match skip with
      | S k => replace_from old new k s'
      | O =>
          if String.prefix old s
          then new +:+ replace_from old new (String.length old - 1) s'
          else String c (replace_from old new 0 s')
      end
  end.

Definition replace (old new s : string) : string := replace_from old new 0 s.

(** Characters removed by [str.strip()] (ASCII range). *)
Definition is_space (c : ascii) : bool :=
  let n := N_of_ascii c in
  ((9 <=? n)%N && (n <=? 13)%N) || ((28 <=? n)%N && (n <=? 32)%N).

Fixpoint lstrip (s : string) : string :=
  match s with
  | EmptyString => EmptyString
  | String c s' => if is_space c then lstrip s' else s
  end.

Fixpoint rstrip (s : string) : string :=
  match s with
  | EmptyString => EmptyString
  | String c s' =>
      match rstrip s' with
      | EmptyString => if is_space c then EmptyString else String c EmptyString
      | r => String c r
      end
  end.

Definition strip (s : string) : string := rstrip (lstrip s).

(** Truthiness of a string: [not s] holds for the empty string. *)
Definition truthy (s : string) : bool :=
  match s with EmptyString => false | _ => true end.

(** [sep.join(parts)]. *)
Fixpoint join (sep : string) (parts : list string) : string :=
  match parts with
  | [] => EmptyString
  | [p] => p
  | p :: rest => p +:+ sep +:+ join sep rest
  end.

(** [s[:n]]. *)
Definition take (n : nat) (s : string) : string := String.substring 0 n s.

End Py.

(** ** The fragment of [re] used by the analyzer

    The patterns of the source use literal characters, [.], a
    bracketed character set, the postfix [?] and top-level [|].
    [compile] reads a pattern of that shape; [search] decides whether
    [re.search] finds a match. *)

Module Re.

Inductive atom : Type :=
| Lit (c : ascii)
| Dot
| CharSet (cs : list ascii).

(** An atom with its [?] flag. *)
Definition item : Type := (atom * bool)%type.

(** Alternatives, each a sequence of items. *)
Definition regex : Type := list (list item).

Definition make_optional (cur : list item) : list item :=
  match cur with
  | (a, _) :: rest => (a, true) :: rest
  | [] => []
  end.

(** [cls] holds the characters of an open [[...]]; [cur] is the
    current alternative, reversed; [alts] the finished ones, reversed. *)
Fixpoint parse (s : string) (cls : option (list ascii))
    (cur : list item) (alts : list (list item)) : regex :=
  match s with
  | EmptyString => rev (rev cur :: alts)
  | String c s' =>
      match cls with
      | Some cs =>
          if Ascii.eqb c "]"
          then parse s' None ((CharSet (rev cs), false) :: cur) alts
          else parse s' (Some (c :: cs)) cur alts
      | None =>
          if Ascii.eqb c "|" then parse s' None [] (rev cur :: alts)
          else if Ascii.eqb c "?" then parse s' None (make_optional cur) alts
          else if Ascii.eqb c "[" then parse s' (Some []) cur alts
          else if Ascii.eqb c "." then parse s' None ((Dot, false) :: cur) alts
          else parse s' None ((Lit c, false) :: cur) alts
      end
  end.

Definition compile (pattern : string) : regex := parse pattern None [] [].

(** One character against one atom; [icase] is the [re.I] flag. *)
Definition atom_matches (icase : bool) (a : atom) (c : ascii) : bool :=
  let norm := if icase then Py.lower_char else (fun x => x) in
  match a with
  | Lit l => Ascii.eqb (norm l) (norm c)
  | Dot => negb (Ascii.eqb c "010")
  | CharSet cs => existsb (fun l => Ascii.eqb (norm l) (norm c)) cs
  end.

(** Does the item sequence match a prefix of [s]? *)
Fixpoint match_here (icase : bool) (items : list item) (s : string) : bool :=
  match items with
  | [] => true
  | (a, opt) :: rest =>
      let consumed :=
        match s with
        | String c s' =>
            if atom_matches icase a c then match_here icase rest s' else false
        | EmptyString => false
        end in
      if consumed then true
      else if opt then match_here icase rest s else false
  end.

Definition match_alt (icase : bool) (r : regex) (s : string) : bool :=
  existsb (fun items => match_here icase items s) r.

Fixpoint search_regex (icase : bool) (r : regex) (s : string) : bool :=
  if match_alt icase r s then true
  else match s with
       | EmptyString => false
       | String _ s' => search_regex icase r s'
       end.

(** [re.search(pattern, s)] is not [None]; [icase] stands for [re.I]. *)
Definition search (icase : bool) (pattern s : string) : bool :=
  search_regex icase (compile pattern) s.

End Re.

(** ** Configuration *)

Record EnhancedAnalyzerConfig : Type := {
  MAX_WORKERS : nat;
  REQUEST_TIMEOUT : nat;
  SELENIUM_TIMEOUT : nat;
  MAX_PAGES_PER_SITE : nat;
  MAX_CRAWL_DEPTH : nat;
  MIN_HTML_LENGTH : nat;
  MAX_RETRIES : nat;
  DELAY_BETWEEN_REQUESTS : nat
}.

Definition config : EnhancedAnalyzerConfig := {|
  MAX_WORKERS := 20;
  REQUEST_TIMEOUT := 50;
  SELENIUM_TIMEOUT := 55;
  MAX_PAGES_PER_SITE := 1000;
  MAX_CRAWL_DEPTH := 45;
  MIN_HTML_LENGTH := 1000;
  MAX_RETRIES := 3;
  DELAY_BETWEEN_REQUESTS := 20
|}.

(** ** Error signatures and the retry classification *)

Definition ERROR_PATTERNS : list string := [
  "520: Web server is returning an unknown error";
  "Just a moment...";
  "Not Found";
  "Access Denied";
  "Service Unavailable";
  "Cloudflare";
  "captcha";
  "security check";
  "Page Not Found";
  "404 Error";
  "503 Service Unavailable"
].

Definition detect_page_errors (html : string) : bool :=
  let html_lower := Py.lower html in
  existsb (fun pattern => Re.search false pattern html_lower) ERROR_PATTERNS.

Definition should_retry_fetch (status_code : Z) (html : string) : bool :=
  if existsb (Z.eqb status_code) [429; 500; 502; 503; 504]%Z then true
  else if detect_page_errors html then true
  else false.


(** ** The fetch port and the two retry loops *)

(** Outcome of one HTTP request: a response with its status code and
    body, or a [requests.exceptions.RequestException] (timeout,
    connection failure, ...). *)
Inductive Outcome : Type :=
| Response (status_code : Z) (text : string)
| RequestException.

(** The network as seen by one retry loop: the outcome of each attempt. *)
Definition Responses : Type := nat -> Outcome.

(** Observable effects of a retry loop.  The [jitter] flag of [EvSleep]
    records that [random.uniform(0, 1)] seconds are added to the wait. *)
Inductive Event : Type :=
| EvRequest (attempt : nat)
| EvSleep (seconds : nat) (jitter : bool)
| EvRetryable (error_type : string) (attempt : nat)
| EvPermanent (error_type : string) (attempt : nat).

(** Result of a fetch: [(html, status_code)], each possibly [None]. *)
Definition FetchResult : Type := (option string * option Z)%type.

Definition error_type_of (html : string) : string :=
  if Py.contains "520: Web server is returning an unknown error" html
  then "520 Unknown Server Error"
  else if Py.contains "Just a moment..." html then "Cloudflare Challenge"
  else if Py.contains "Access Denied" html then "Access Denied"
  else if Py.contains "Service Unavailable" html then "Service Unavailable"
  else if Py.contains "Cloudflare" html then "Cloudflare Protection"
  else if Py.contains "captcha" (Py.lower html)
          || Py.contains "security check" (Py.lower html)
  then "CAPTCHA Challenge"
  else if Py.contains "Not Found" html || Py.contains "Page Not Found" html
          || Py.contains "404 Error" html
  then "404 Not Found"
  else if Py.contains "503 Service Unavailable" html
  then "503 Service Unavailable"
  else "UNKNOWN".

Definition handle_fetch_error (status_code : Z) (html : string)
    (attempt max_retries : nat) : list Event :=
  let error_type := error_type_of html in
  if should_retry_fetch status_code html && (attempt <? max_retries)
  then [EvRetryable error_type attempt; EvSleep (2 ^ attempt) true]
  else [EvPermanent error_type attempt].

(** The body of [for attempt in range(max_retries)] of
    [fetch_with_error_handling], over the attempts still to run. *)
Fixpoint fetch_attempts (responses : Responses) (max_retries : nat)
    (attempts : list nat) : FetchResult * list Event :=
  match attempts with
  | [] => ((None, None), [])
  | attempt :: rest =>
      match responses attempt with
      | Response status_code html =>
          if detect_page_errors html
          then
            let '(r, evs) := fetch_attempts responses max_retries rest in
            (r, EvRequest attempt
                  :: handle_fetch_error status_code html attempt max_retries
                  ++ evs)
          else ((Some html, Some status_code), [EvRequest attempt])
      | RequestException =>
          let '(r, evs) := fetch_attempts responses max_retries rest in
          (r, EvRequest attempt
                :: (if attempt <? max_retries - 1
                    then [EvSleep (2 ^ attempt) true] else [])
                ++ evs)
      end
  end.

Definition fetch_with_error_handling (responses : Responses)
    (max_retries : nat) : FetchResult * list Event :=
  fetch_attempts responses max_retries (seq 0 max_retries).

(** Number of HTTP requests in an event trace. *)
Definition is_request (e : Event) : bool :=
  match e with EvRequest _ => true | _ => false end.

Definition requests_made (evs : list Event) : nat :=
  length (List.filter is_request evs).

Section HTTPClient.

Variable cfg : EnhancedAnalyzerConfig.

(** The body of [for attempt in range(retries)] of
    [EnhancedHTTPClient.get_with_retry]. *)
Fixpoint get_attempts (responses : Responses) (retries : nat)
    (attempts : list nat) : FetchResult * list Event :=
  match attempts with
  | [] => ((None, None), [])
  | attempt :: rest =>
      match responses attempt with
      | Response status_code text =>
          if (status_code =? 200)%Z && (MIN_HTML_LENGTH cfg <? String.length text)
          then ((Some text, Some status_code), [EvRequest attempt])
          else if existsb (Z.eqb status_code) [403; 404; 500; 503]%Z
          then ((None, Some status_code), [EvRequest attempt])
          else
            let '(r, evs) := get_attempts responses retries rest in
            (r, EvRequest attempt :: evs)
      | RequestException =>
          let '(r, evs) := get_attempts responses retries rest in
          (r, EvRequest attempt
                :: (if attempt <? retries - 1
                    then [EvSleep (DELAY_BETWEEN_REQUESTS cfg * (attempt + 1)) false]
                    else [])
                ++ evs)
      end
  end.

Definition get_with_retry (responses : Responses) (retries : nat)
    : FetchResult * list Event :=
  get_attempts responses retries (seq 0 retries).

End HTTPClient.

(** ** Exceptions *)

Inductive exn : Type :=
| TypeError
| ValueError.

Inductive result (A : Type) : Type :=
| Ok (a : A)
| Raise (e : exn).

Arguments Ok {A} a.
Arguments Raise {A} e.

Definition bind {A B : Type} (m : result A) (k : A -> result B) : result B :=
  match m with
  | Ok a => k a
  | Raise e => Raise e
  end.

Notation "'let!' x ':=' m 'in' k" := (bind m (fun x => k))
  (at level 10, x name, m at level 100, k at level 200).

(** [try: body  except Exception: handler]. *)
Definition try_except {A : Type} (body : result A) (handler : exn -> result A)
    : result A :=
  match body with
  | Ok a => Ok a
  | Raise e => handler e
  end.

(** ** [urllib.parse.urlparse]: scheme and network location

    The scheme is the part before the first colon when it starts with
    an ASCII letter and consists of scheme characters; the network
    location follows a leading [//] up to the first [/], [?] or [#]. *)

Module Urlparse.

Definition is_alpha (c : ascii) : bool :=
  let n := N_of_ascii c in
  ((65 <=? n)%N && (n <=? 90)%N) || ((97 <=? n)%N && (n <=? 122)%N).

Definition is_digit (c : ascii) : bool :=
  let n := N_of_ascii c in (48 <=? n)%N && (n <=? 57)%N.

Definition is_scheme_char (c : ascii) : bool :=
  is_alpha c || is_digit c
  || Ascii.eqb c "+" || Ascii.eqb c "-" || Ascii.eqb c ".".

Fixpoint all_chars (p : ascii -> bool) (s : string) : bool :=
  match s with
  | EmptyString => true
  | String c s' => if p c then all_chars p s' else false
  end.

(** The text after the first [sep], when there is one. *)
Fixpoint after_first (sep : ascii) (s : string) : option string :=
  match s with
  | EmptyString => None
  | String c s' => if Ascii.eqb c sep then Some s' else after_first sep s'
  end.

(** [(scheme, rest)]: the scheme, lower-cased, and the text after its
    colon; an empty scheme and the whole text otherwise. *)
Definition split_scheme (url : string) : string * string :=
  match after_first ":" url with
  | Some rest =>
      let head := Py.split_head ":" url in
      match head with
      | String c _ =>
          if is_alpha c && all_chars is_scheme_char head
          then (Py.lower head, rest)
          else (EmptyString, url)
      | EmptyString => (EmptyString, url)
      end
  | None => (EmptyString, url)
  end.

Definition scheme (url : string) : string := fst (split_scheme url).

(** The prefix of [s] before the first of [/], [?], [#]. *)
Fixpoint netloc_part (s : string) : string :=
  match s with
  | EmptyString => EmptyString
  | String c s' =>
      if Ascii.eqb c "/" || Ascii.eqb c "?" || Ascii.eqb c "#"
      then EmptyString
      else String c (netloc_part s')
  end.

Definition netloc (url : string) : string :=
  match snd (split_scheme url) with
  | String "/" (String "/" rest) => netloc_part rest
  | _ => EmptyString
  end.

End Urlparse.

(** ** Parsed pages

    What the HTML parser hands to the analyzer for one [<a href=...>]
    element: its attributes, its text, and its ancestors from the
    parent outwards. *)

Record Element : Type := {
  el_name : string;
  el_class : option (list string);
  el_id : option string;
  (** [get_text(" ", strip=True)] *)
  el_text_spaced : string;
  (** [get_text(strip=True)] *)
  el_text : string
}.

Record Anchor : Type := {
  a_href : string;
  a_class : option (list string);
  a_text_spaced : string;
  a_text : string;
  a_parents : list Element
}.

(** ** Link records *)

Inductive LinkType : Type := internal | external | social | contact | maps.

Inductive MenuType : Type :=
| body | header | footer | dropdown | subdropdown | mobile | quicklinks
| homepage.

Global Instance LinkType_eq_dec : EqDecision LinkType.
Proof. solve_decision. Defined.

Global Instance MenuType_eq_dec : EqDecision MenuType.
Proof. solve_decision. Defined.

Record LinkInfo : Type := {
  url : string;
  anchor_text : string;
  link_type : LinkType;
  source_page : string;
  depth : nat;
  is_navigation : bool;
  is_footer : bool;
  is_contact : bool;
  is_about : bool;
  is_google_maps : bool;
  context : string;
  menu_type : MenuType;
  css_classes : string
}.

(** ** [extract_clickable_links] *)

Definition SOCIAL_DOMAINS : list string := [
  "facebook.com"; "twitter.com"; "instagram.com"; "linkedin.com";
  "youtube.com"; "pinterest.com"; "tumblr.com"; "reddit.com";
  "snapchat.com"; "whatsapp.com"; "t.me"; "weibo.com"; "vk.com"
].

Definition is_maps_link (url : string) : bool :=
  let url_lower := Py.lower url in
  Py.contains "google.com/maps" url_lower
  || Py.contains "goo.gl/maps" url_lower
  || Py.contains "maps.google.com" url_lower
  || Py.contains "maps.app.goo.gl" url_lower.

Definition contact_keywords : list string := [
  "contact"; "call us"; "call"; "reach us"; "reach"; "email"; "phone";
  "tel"; "mail"; "contact us"
].

Definition about_keywords : list string := [
  "about"; "about us"; "about the company"; "about our"; "who we are";
  "our story"; "our team"; "about the team"
].

Definition menu_class_patterns : list (MenuType * string) := [
  (header, "header|top[-_]?menu|main[-_]?nav|primary[-_]?menu|menu[-_]?primary[-_]?navigation|genesis[-_]?nav[-_]?menu|slideout[-_]?menu[-_]?toggle");
  (footer, "footer|bottom[-_]?menu");
  (dropdown, "drop[-_]?down|has[-_]?children|sub[-_]?menu|child[-_]?menu");
  (subdropdown, "sub[-_]?dropdown|grandchild|sub-sub");
  (mobile, "mobile[-_]?menu");
  (quicklinks, "quick[-_]?links")
].

(** [any(kw in url_lower or kw in anchor_lower for kw in keywords)]. *)
Definition keyword_hit (keywords : list string) (url_lower anchor_lower : string)
    : bool :=
  existsb (fun kw => Py.contains kw url_lower || Py.contains kw anchor_lower)
          keywords.

(** Placement of a link: [(menu_type, is_navigation, is_footer)]. *)
Definition Placement : Type := (MenuType * bool * bool)%type.

(** [tag.find_parent(name)] finds an element. *)
Definition has_parent_named (name : string) (tag : Anchor) : bool :=
  existsb (fun e => String.eqb (el_name e) name) (a_parents tag).

(** [tag.find_parent(id=re.compile(r'nav|menu', re.I))] finds an element. *)
Definition has_parent_with_menu_id (tag : Anchor) : bool :=
  existsb (fun e => match el_id e with
                    | Some i => Re.search true "nav|menu" i
                    | None => false
                    end) (a_parents tag).

Definition structural_placement (tag : Anchor) : Placement :=
  if has_parent_named "nav" tag || has_parent_with_menu_id tag
  then (header, true, false)
  else if has_parent_named "footer" tag
  then (footer, false, true)
  else (body, false, false).

(** The loop over [menu_class_patterns].  Its test is
    [re.search(pattern, css_classes, re.I) or
     re.search(pattern, tag.get('class', ''), re.I)]:
    when the first search fails the second one runs on the attribute
    value itself, which is a list whenever the anchor has a [class]
    attribute, and [re.search] raises [TypeError] on a list. *)
Fixpoint classify_menu (patterns : list (MenuType * string))
    (css : string) (class_attr : option (list string)) (p : Placement)
    : result Placement :=
  match patterns with
  | [] => Ok p
  | (mtype, pattern) :: rest =>
      let! hit :=
        if Re.search true pattern css then Ok true
        else match class_attr with
             | Some _ => Raise TypeError
             | None => Ok (Re.search true pattern EmptyString)
             end in
      let '(menu, nav, foot) := p in
      let p' :=
        if hit
        then
          match mtype with
          | header | dropdown | subdropdown => (mtype, true, foot)
          | footer => (mtype, nav, true)
          | _ => (mtype, nav, foot)
          end
        else p in
      classify_menu rest css class_attr p'
  end.

(** [s.rstrip('/')]. *)
Fixpoint rstrip_slash (s : string) : string :=
  match s with
  | EmptyString => EmptyString
  | String c s' =>
      match rstrip_slash s' with
      | EmptyString => if Ascii.eqb c "/" then EmptyString else String c EmptyString
      | r => String c r
      end
  end.

(** The link type given to a link by [extract_clickable_links]. *)
Definition link_type_of (base_domain link_domain full_url anchor_text : string)
    : LinkType :=
  if String.eqb base_domain link_domain then internal
  else if existsb (String.eqb link_domain) SOCIAL_DOMAINS then social
  else if is_maps_link full_url then maps
  else if keyword_hit contact_keywords (Py.lower full_url) (Py.lower anchor_text)
  then contact
  else external.

(** Whitespace runs collapsed to one space: [re.sub(r'\s+', ' ', s)]. *)
Fixpoint collapse_ws (in_ws : bool) (s : string) : string :=
  match s with
  | EmptyString => EmptyString
  | String c s' =>
      if Py.is_space c
      then (if in_ws then collapse_ws true s'
            else String " " (collapse_ws true s'))
      else String c (collapse_ws false s')
  end.

Definition context_tags : list string :=
  ["p"; "div"; "li"; "section"; "article"; "main"; "header"; "footer"].

Definition context_of (tag : Anchor) : string :=
  match List.filter (fun e => existsb (String.eqb (el_name e)) context_tags)
                    (a_parents tag) with
  | parent :: _ =>
      let context := el_text_spaced parent in
      if 500 <? String.length context
      then Py.take 500 (collapse_ws false context) +:+ "..."
      else context
  | [] => EmptyString
  end.

Section Extraction.

(** [urllib.parse.urljoin(base, href)]; [Raise] when it raises. *)
Variable urljoin : string -> string -> result string.

(** One iteration of [for tag in soup.find_all('a', href=True)]:
    [None] when the anchor is skipped by a [continue]. *)
Definition clickable_link (base_url : string) (tag : Anchor)
    : result (option LinkInfo) :=
  let base_domain := Py.replace "www." "" (Urlparse.netloc base_url) in
  let href := Py.strip (a_href tag) in
  if negb (Py.truthy href)
     || Py.startswith "javascript:" href
     || Py.startswith "mailto:" href
     || Py.startswith "tel:" href
  then Ok None
  else
    let! joined := urljoin base_url href in
    let parsed_scheme := Urlparse.scheme joined in
    let parsed_netloc := Urlparse.netloc joined in
    if negb (String.eqb parsed_scheme "http" || String.eqb parsed_scheme "https")
    then Ok None
    else
      let full_url := Py.split_head "#" joined in
      let anchor_text := a_text_spaced tag in
      let css := Py.join " " (default [] (a_class tag)) in
      let! placed :=
        classify_menu menu_class_patterns css (a_class tag)
                      (structural_placement tag) in
      let '(menu0, nav, foot) := placed in
      let menu :=
        if String.eqb full_url base_url
           || String.eqb full_url (rstrip_slash base_url +:+ "/")
        then (if decide (menu0 = body) then homepage else menu0)
        else menu0 in
      let link_domain := Py.replace "www." "" parsed_netloc in
      let url_lower := Py.lower full_url in
      let anchor_lower := Py.lower anchor_text in
      Ok (Some {|
        url := full_url;
        anchor_text := anchor_text;
        link_type := link_type_of base_domain link_domain full_url anchor_text;
        source_page := base_url;
        depth := 0;
        is_navigation := nav;
        is_footer := foot;
        is_contact := keyword_hit contact_keywords url_lower anchor_lower;
        is_about := keyword_hit about_keywords url_lower anchor_lower;
        is_google_maps := is_maps_link full_url;
        context := context_of tag;
        menu_type := menu;
        css_classes := css
      |}).

Fixpoint clickable_links (base_url : string) (tags : list Anchor)
    : result (list LinkInfo) :=
  match tags with
  | [] => Ok []
  | tag :: rest =>
      let! l := clickable_link base_url tag in
      let! ls := clickable_links base_url rest in
      Ok (match l with Some li => li :: ls | None => ls end)
  end.

(** [BeautifulSoup(html, 'html.parser').find_all('a', href=True)]. *)
Variable find_all_a : string -> result (list Anchor).

Definition extract_clickable_links (base_url html : string)
    : result (list LinkInfo) :=
  let! tags := find_all_a html in
  clickable_links base_url tags.

Definition safe_extract_links (base_url html : string)
    : result (list LinkInfo) :=
  if negb (Py.truthy html) || detect_page_errors html then Ok []
  else try_except (extract_clickable_links base_url html)
                  (fun _ => Ok []).

End Extraction.

(** ** Site map *)

Inductive IntegrationStatus : Type := Integrated | NotFound.

Record GoogleMapsInfo : Type := {
  maps_links : list string;
  iframe_embeds : list string;
  javascript_maps : list string;
  structured_data_maps : list string;
  contact_page_maps : list string;
  all_maps_links : list string;
  primary_maps_link : string;
  maps_integration_status : IntegrationStatus;
  total_maps_found : nat
}.

Definition GoogleMapsInfo_default : GoogleMapsInfo := {|
  maps_links := [];
  iframe_embeds := [];
  javascript_maps := [];
  structured_data_maps := [];
  contact_page_maps := [];
  all_maps_links := [];
  primary_maps_link := EmptyString;
  maps_integration_status := NotFound;
  total_maps_found := 0
|}.

Inductive Complexity : Type := Unknown | Basic | Simple | Moderate | Complex.

Record SiteMap : Type := {
  domain : string;
  main_url : string;
  total_pages : nat;
  total_links : nat;
  internal_links : list LinkInfo;
  external_links : list LinkInfo;
  social_links : list LinkInfo;
  contact_links : list LinkInfo;
  google_maps_info : GoogleMapsInfo;
  crawl_depth_reached : nat;
  website_structure_complexity : Complexity
}.

Definition SiteMap_new (domain main_url : string) : SiteMap := {|
  domain := domain;
  main_url := main_url;
  total_pages := 0;
  total_links := 0;
  internal_links := [];
  external_links := [];
  social_links := [];
  contact_links := [];
  google_maps_info := GoogleMapsInfo_default;
  crawl_depth_reached := 0;
  website_structure_complexity := Unknown
|}.

(** ** [ComprehensiveLinkDiscoverer] *)

Module Discoverer.

Definition social_domains : list string := [
  "facebook.com"; "instagram.com"; "twitter.com"; "x.com";
  "linkedin.com"; "youtube.com"; "tiktok.com"; "pinterest.com"
].

Definition contact_keywords : list string := [
  "contact"; "about"; "team"; "staff"; "location"; "office";
  "reach"; "touch"; "support"; "help"; "customer-service"
].

Definition excluded_extensions : list string := [
  ".pdf"; ".doc"; ".docx"; ".xls"; ".xlsx"; ".ppt"; ".pptx";
  ".zip"; ".rar"; ".tar"; ".gz"; ".jpg"; ".jpeg"; ".png";
  ".gif"; ".webp"; ".svg"; ".mp4"; ".avi"; ".mov"; ".mp3"
].

End Discoverer.

(** [any(indicator in text for indicator in indicators)]. *)
Definition any_in (indicators : list string) (text : string) : bool :=
  existsb (fun indicator => Py.contains indicator text) indicators.

Definition element_has_indicator (indicators : list string) (e : Element) : bool :=
  any_in indicators (Py.lower (Py.join " " (default [] (el_class e))))
  || any_in indicators (Py.lower (default EmptyString (el_id e))).

(** The walk over at most five ancestors, from the parent outwards. *)
Definition _is_navigation_link (a_tag : Anchor) : bool :=
  existsb (element_has_indicator ["nav"; "menu"; "header"; "navbar"; "navigation"])
          (firstn 5 (a_parents a_tag)).

Definition _is_footer_link (a_tag : Anchor) : bool :=
  existsb (fun e => String.eqb (el_name e) "footer"
                    || element_has_indicator ["footer"; "bottom"; "copyright"] e)
          (firstn 5 (a_parents a_tag)).

Definition _get_link_context (a_tag : Anchor) : string :=
  match a_parents a_tag with
  | parent :: _ => Py.take 100 (el_text parent)
  | [] => EmptyString
  end.

Definition _assess_website_complexity (sitemap : SiteMap) : Complexity :=
  let total_pages := total_pages sitemap in
  if 50 <=? total_pages then Complex
  else if 20 <=? total_pages then Moderate
  else if 6 <=? total_pages then Simple
  else Basic.

(** Field updates of the mutable records. *)
Definition LinkInfo_update (li : LinkInfo) (lt : LinkType)
    (contact_flag about_flag maps_flag : bool) : LinkInfo := {|
  url := url li; anchor_text := anchor_text li;
  link_type := lt;
  source_page := source_page li; depth := depth li;
  is_navigation := is_navigation li; is_footer := is_footer li;
  is_contact := contact_flag; is_about := about_flag;
  is_google_maps := maps_flag;
  context := context li; menu_type := menu_type li;
  css_classes := css_classes li
|}.

Definition SiteMap_store (sm : SiteMap)
    (internals externals socials contacts : list LinkInfo)
    (direct_maps : list string) : SiteMap := {|
  domain := domain sm; main_url := main_url sm;
  total_pages := total_pages sm; total_links := total_links sm;
  internal_links := internals;
  external_links := externals;
  social_links := socials;
  contact_links := contacts;
  google_maps_info :=
    let g := google_maps_info sm in {|
      maps_links := direct_maps;
      iframe_embeds := iframe_embeds g;
      javascript_maps := javascript_maps g;
      structured_data_maps := structured_data_maps g;
      contact_page_maps := contact_page_maps g;
      all_maps_links := all_maps_links g;
      primary_maps_link := primary_maps_link g;
      maps_integration_status := maps_integration_status g;
      total_maps_found := total_maps_found g |};
  crawl_depth_reached := crawl_depth_reached sm;
  website_structure_complexity := website_structure_complexity sm
|}.

(** [_classify_and_store_link]: the link with its fields as the method
    leaves them, and the site map with the link stored.  The lists of
    the site map hold the very object the method mutates, so they see
    the flags set after the append. *)
Definition _classify_and_store_link (link_info : LinkInfo) (sitemap : SiteMap)
    : LinkInfo * SiteMap :=
  let base_domain := Py.replace "www." "" (Urlparse.netloc (main_url sitemap)) in
  let link_domain := Py.replace "www." "" (Urlparse.netloc (url link_info)) in
  let direct := maps_links (google_maps_info sitemap) in
  if String.eqb link_domain base_domain then
    let url_lower := Py.lower (url link_info) in
    let hit := any_in Discoverer.contact_keywords url_lower in
    let li :=
      LinkInfo_update link_info internal
        (if hit then true else is_contact link_info)
        (if Py.contains "about" url_lower then true else is_about link_info)
        (is_google_maps link_info) in
    (li, SiteMap_store sitemap
           (internal_links sitemap ++ [li]) (external_links sitemap)
           (social_links sitemap)
           (if hit then contact_links sitemap ++ [li] else contact_links sitemap)
           direct)
  else if existsb (fun s => Py.contains s link_domain) Discoverer.social_domains
  then
    let li :=
      LinkInfo_update link_info social (is_contact link_info)
        (is_about link_info) (is_google_maps link_info) in
    (li, SiteMap_store sitemap
           (internal_links sitemap) (external_links sitemap)
           (social_links sitemap ++ [li]) (contact_links sitemap) direct)
  else if Py.contains "maps.google.com" (url link_info)
          || Py.contains "google.com/maps" (url link_info)
  then
    let li :=
      LinkInfo_update link_info maps (is_contact link_info)
        (is_about link_info) true in
    (li, SiteMap_store sitemap
           (internal_links sitemap) (external_links sitemap)
           (social_links sitemap) (contact_links sitemap)
           (direct ++ [url link_info]))
  else
    let li :=
      LinkInfo_update link_info external (is_contact link_info)
        (is_about link_info) (is_google_maps link_info) in
    (li, SiteMap_store sitemap
           (internal_links sitemap) (external_links sitemap ++ [li])
           (social_links sitemap) (contact_links sitemap) direct).

(** A frontier entry [(url, depth)]. *)
Abbreviation CrawlTask := (string * nat)%type.

(** The discoverer's frontier ([discovered_urls], [url_queue]) and the
    site map under construction.  [appended] and [popped] are history
    variables: every task given to [url_queue.append] and every task
    returned by [url_queue.popleft], in order.  No code reads them. *)
Record CrawlState : Type := {
  discovered_urls : gset string;
  url_queue : list CrawlTask;
  sitemap : SiteMap;
  appended : list CrawlTask;
  popped : list CrawlTask
}.


(** The frontier of a discoverer as [__init__] leaves it. *)
Definition fresh_frontier : gset string * list CrawlTask := (∅, []).

Section Crawl.

Variable cfg : EnhancedAnalyzerConfig.
Variable urljoin : string -> string -> result string.
Variable find_all_a : string -> result (list Anchor).
(** The outcomes of the successive requests for each URL. *)
Variable net : string -> Responses.

(** One iteration of the loop of [_extract_all_links_from_page]. *)
Definition page_link (base_url : string) (depth_ : nat) (a : Anchor)
    : result (option LinkInfo) :=
  let href := a_href a in
  let anchor_text := a_text a in
  if negb (Py.truthy href)
     || Py.startswith "#" href
     || Py.startswith "javascript:" href
  then Ok None
  else
    let! full_url := urljoin base_url href in
    let lowered := Py.lower full_url in
    if existsb (fun ext => Py.endswith ext lowered)
               Discoverer.excluded_extensions
    then Ok None
    else Ok (Some {|
      url := full_url;
      anchor_text := anchor_text;
      link_type := internal;
      source_page := base_url;
      depth := depth_ + 1;
      is_navigation := _is_navigation_link a;
      is_footer := _is_footer_link a;
      is_contact := false;
      is_about := false;
      is_google_maps := false;
      context := _get_link_context a;
      menu_type := body;
      css_classes := EmptyString
    |})
.

Fixpoint page_links_of (base_url : string) (depth_ : nat) (tags : list Anchor)
    : result (list LinkInfo) :=
  match tags with
  | [] => Ok []
  | a :: rest =>
      let! l := page_link base_url depth_ a in
      let! ls := page_links_of base_url depth_ rest in
      Ok (match l with Some li => li :: ls | None => ls end)
  end.

Definition _extract_all_links_from_page (html base_url : string) (depth_ : nat)
    : result (list LinkInfo) :=
  let! tags := find_all_a html in
  page_links_of base_url depth_ tags.

(** The body of [for link_info in page_links] for one link. *)
Definition process_link (depth_ : nat) (s : CrawlState) (link_info : LinkInfo)
    : CrawlState :=
  let '(li, sm) := _classify_and_store_link link_info (sitemap s) in
  if bool_decide (link_type li = internal)
     && negb (bool_decide (url li ∈ discovered_urls s))
     && (depth_ <? MAX_CRAWL_DEPTH cfg)
  then {|
    discovered_urls := {[ url li ]} ∪ discovered_urls s;
    url_queue := url_queue s ++ [(url li, depth_ + 1)];
    sitemap := sm;
    appended := appended s ++ [(url li, depth_ + 1)];
    popped := popped s
  |}
  else {|
    discovered_urls := discovered_urls s;
    url_queue := url_queue s;
    sitemap := sm;
    appended := appended s;
    popped := popped s
  |}.

Definition process_links (depth_ : nat) (s : CrawlState)
    (page_links : list LinkInfo) : CrawlState :=
  fold_left (process_link depth_) page_links s.

Definition update_statistics (sm : SiteMap) (n depth_ : nat) : SiteMap := {|
  domain := domain sm; main_url := main_url sm;
  total_pages := total_pages sm;
  total_links := total_links sm + n;
  internal_links := internal_links sm;
  external_links := external_links sm;
  social_links := social_links sm;
  contact_links := contact_links sm;
  google_maps_info := google_maps_info sm;
  crawl_depth_reached := Nat.max (crawl_depth_reached sm) depth_;
  website_structure_complexity := website_structure_complexity sm
|}.

(** The test of the [while] loop. *)
Definition loop_test (s : CrawlState) : bool :=
  negb (bool_decide (url_queue s = []))
  && (size (discovered_urls s) <? MAX_PAGES_PER_SITE cfg).

(** The page content the loop body goes on with: the [html] of
    [get_with_retry] unless [not html]. *)
Definition fetched_html (current_url : string) : option string :=
  match fst (fst (get_with_retry cfg (net current_url) (MAX_RETRIES cfg))) with
  | Some html => if Py.truthy html then Some html else None
  | None => None
  end.

(** One iteration of the [while] loop, for a non-empty queue. *)
Definition loop_body (s : CrawlState) : result CrawlState :=
  match url_queue s with
  | [] => Ok s
  | (current_url, depth_) :: queue' =>
      let s1 := {|
        discovered_urls := discovered_urls s;
        url_queue := queue';
        sitemap := sitemap s;
        appended := appended s;
        popped := popped s ++ [(current_url, depth_)]
      |} in
      if MAX_CRAWL_DEPTH cfg <? depth_ then Ok s1
      else
        match fetched_html current_url with
        | None => Ok s1
        | Some html =>
            let! page_links :=
              _extract_all_links_from_page html current_url depth_ in
            let s2 := process_links depth_ s1 page_links in
            Ok {|
              discovered_urls := discovered_urls s2;
              url_queue := url_queue s2;
              sitemap := update_statistics (sitemap s2) (length page_links) depth_;
              appended := appended s2;
              popped := popped s2
            |}
        end
  end.

(** The [while] loop; [None] when [fuel] iterations do not finish it. *)
Fixpoint crawl_loop (fuel : nat) (s : CrawlState) : option (result CrawlState) :=
  if loop_test s then
    match fuel with
    | O => None
    | S fuel' =>
        match loop_body s with
        | Ok s' => crawl_loop fuel' s'
        | Raise e => Some (Raise e)
        end
    end
  else Some (Ok s).

(** The state on entry to the loop: the main URL is appended and
    marked discovered without any test. *)
Definition crawl_start (frontier : gset string * list CrawlTask)
    (main_url_ : string) : CrawlState := {|
  discovered_urls := {[ main_url_ ]} ∪ fst frontier;
  url_queue := snd frontier ++ [(main_url_, 0)];
  sitemap :=
    SiteMap_new (Py.replace "www." "" (Urlparse.netloc main_url_)) main_url_;
  appended := [(main_url_, 0)];
  popped := []
|}.

Definition finalize (s : CrawlState) : SiteMap :=
  let sm := sitemap s in
  let counted := {|
    domain := domain sm; main_url := main_url sm;
    total_pages := size (discovered_urls s);
    total_links := total_links sm;
    internal_links := internal_links sm;
    external_links := external_links sm;
    social_links := social_links sm;
    contact_links := contact_links sm;
    google_maps_info := google_maps_info sm;
    crawl_depth_reached := crawl_depth_reached sm;
    website_structure_complexity := website_structure_complexity sm |} in
  {|
    domain := domain sm; main_url := main_url sm;
    total_pages := size (discovered_urls s);
    total_links := total_links sm;
    internal_links := internal_links sm;
    external_links := external_links sm;
    social_links := social_links sm;
    contact_links := contact_links sm;
    google_maps_info := google_maps_info sm;
    crawl_depth_reached := crawl_depth_reached sm;
    website_structure_complexity := _assess_website_complexity counted |}.

(** [discover_all_links] on a discoverer whose frontier is
    [frontier]: the frontier it leaves and the site map it returns. *)
Definition discover_all_links (fuel : nat)
    (frontier : gset string * list CrawlTask) (main_url_ : string)
    : option (result (CrawlState * SiteMap)) :=
  match crawl_loop fuel (crawl_start frontier main_url_) with
  | Some (Ok s) => Some (Ok (s, finalize s))
  | Some (Raise e) => Some (Raise e)
  | None => None
  end.

(** States at the head of the loop: the entry state and what
    iterations of the loop make of it. *)
Inductive reachable (frontier : gset string * list CrawlTask)
    (main_url_ : string) : CrawlState -> Prop :=
| reach_start : reachable frontier main_url_ (crawl_start frontier main_url_)
| reach_step s s' :
    reachable frontier main_url_ s ->
    loop_test s = true ->
    loop_body s = Ok s' ->
    reachable frontier main_url_ s'.

End Crawl.

(** ** [EnhancedGoogleMapsDetector]: the primary map link *)

Definition priority_patterns : list string := [
  "maps.google.com/place/";
  "google.com/maps/place/";
  "maps.google.com/dir/";
  "google.com/maps/dir/";
  "maps.google.com";
  "google.com/maps"
].

(** [pattern in link.lower()]. *)
Definition pattern_in_link (pattern link : string) : bool :=
  Py.contains pattern (Py.lower link).

(** The inner loop: the first link that contains [pattern]. *)
Fixpoint first_link_with (pattern : string) (maps_links : list string)
    : option string :=
  match maps_links with
  | [] => None
  | link :: rest =>
      if pattern_in_link pattern link then Some link
      else first_link_with pattern rest
  end.

(** The outer loop over the patterns, in priority order. *)
Fixpoint first_priority_match (patterns : list string) (maps_links : list string)
    : option string :=
  match patterns with
  | [] => None
  | pattern :: rest =>
      match first_link_with pattern maps_links with
      | Some link => Some link
      | None => first_priority_match rest maps_links
      end
  end.

Definition _select_primary_maps_link (maps_links : list string) : string :=
  match maps_links with
  | [] => EmptyString
  | first :: _ =>
      match first_priority_match priority_patterns maps_links with
      | Some link => link
      | None => first
      end
  end.

(** The end of [detect_all_google_maps].  [listed] is
    [list(all_maps_found)]: the members of the aggregate set in the
    order in which the set is iterated. *)
Definition compile_maps_info (maps_info : GoogleMapsInfo) (listed : list string)
    : GoogleMapsInfo := {|
  maps_links := maps_links maps_info;
  iframe_embeds := iframe_embeds maps_info;
  javascript_maps := javascript_maps maps_info;
  structured_data_maps := structured_data_maps maps_info;
  contact_page_maps := contact_page_maps maps_info;
  all_maps_links := listed;
  primary_maps_link :=
    match listed with
    | [] => primary_maps_link maps_info
    | _ => _select_primary_maps_link listed
    end;
  maps_integration_status :=
    match listed with [] => NotFound | _ => Integrated end;
  total_maps_found := length listed
|}.

(** ** Sample collaborators for the worked examples *)

Module Sample.

(** [urljoin] on the references the examples use: a reference with a
    scheme and a network location, or with a scheme other than the
    base's, is returned as it is; a root-relative path without dot
    segments is put after the base's scheme and network location.
    Other references are outside this sample. *)
Definition urljoin (base href : string) : result string :=
  if Py.truthy (Urlparse.scheme href)
     && (Py.truthy (Urlparse.netloc href)
         || negb (String.eqb (Urlparse.scheme href) (Urlparse.scheme base)))
  then Ok href
  else if negb (Py.truthy (Urlparse.scheme href))
          && Py.startswith "/" href && negb (Py.startswith "//" href)
  then Ok (Urlparse.scheme base +:+ "://" +:+ Urlparse.netloc base +:+ href)
  else Raise ValueError.

Definition plain_anchor (href text : string) : Anchor := {|
  a_href := href;
  a_class := None;
  a_text_spaced := text;
  a_text := text;
  a_parents := []
|}.

(** [n] copies of a character. *)
Fixpoint filler (n : nat) : string :=
  match n with
  | O => EmptyString
  | S k => String "x" (filler k)
  end.


(** A page body longer than [MIN_HTML_LENGTH config]. *)
Definition long_body : string := "<html>" +:+ filler 1000 +:+ "</html>".

(** A site whose every URL answers 200 with [long_body]. *)
Definition always_200 : string -> Responses :=
  fun _ _ => Response 200 long_body.

End Sample.

(** ** Vocabulary of the properties *)

(** *** Error signatures *)

Definition is_upper (c : ascii) : bool :=
  let n := N_of_ascii c in (65 <=? n)%N && (n <=? 90)%N.

(** An item sequence is [blocked] when, before any optional item, it
    requires an upper-case letter. *)
Fixpoint blocked (items : list Re.item) : bool :=
  match items with
  | [] => false
  | (Re.Lit u, false) :: rest => if is_upper u then true else blocked rest
  | (_, false) :: rest => blocked rest
  | (_, true) :: _ => false
  end.

(** *** Link classification *)

(** The four forms of map URL tested by [is_maps_link]. *)
Definition map_url_patterns : list string :=
  ["google.com/maps"; "goo.gl/maps"; "maps.google.com"; "maps.app.goo.gl"].

(** The classification written after the specification: the leading
    "www." of each network location is dropped before the comparison. *)
Definition strip_leading_www (netloc : string) : string :=
  if Py.startswith "www." netloc
  then String.substring 4 (String.length netloc - 4) netloc
  else netloc.

Definition link_type_by_spec (root_url link_url anchor : string) : LinkType :=
  let root_domain := strip_leading_www (Urlparse.netloc root_url) in
  let link_domain := strip_leading_www (Urlparse.netloc link_url) in
  if String.eqb root_domain link_domain then internal
  else if existsb (String.eqb link_domain) SOCIAL_DOMAINS then social
  else if existsb (fun p => Py.contains p (Py.lower link_url)) map_url_patterns
  then maps
  else if keyword_hit contact_keywords (Py.lower link_url) (Py.lower anchor)
  then contact
  else external.

(** The link is on the site of [main_url_], as the crawl loop's
    classifier compares domains. *)
Definition same_site (main_url_ u : string) : bool :=
  String.eqb (Py.replace "www." "" (Urlparse.netloc u))
             (Py.replace "www." "" (Urlparse.netloc main_url_)).

(** *** Primary map link *)




(** No link of [links] contains [pattern]. *)
Definition unmatched (pattern : string) (links : list string) : Prop :=
  forall link, In link links -> pattern_in_link pattern link = false.

(** [link] is the first link of [links] that contains [pattern]. *)
Definition first_with (pattern : string) (links : list string) (link : string)
    : Prop :=
  exists before after,
    links = before ++ link :: after /\
    pattern_in_link pattern link = true /\
    unmatched pattern before.

(** *** The frontier *)

(** Tasks appended while the links of a page at depth [d] are
    processed, starting from the discovered set [before]: their URLs
    are pairwise distinct and new, and their depth is [d + 1]. *)
Definition pushed (d : nat) (before : gset string) (new : list CrawlTask) : Prop :=
  NoDup new.*1 /\
  (forall u, u ∈ new.*1 -> u ∉ before) /\
  Forall (fun t => t.2 = d + 1) new.

(** The frontier of [s'] is that of [s] with [new] appended. *)
Definition extends (s s' : CrawlState) (new : list CrawlTask) : Prop :=
  url_queue s' = url_queue s ++ new /\
  appended s' = appended s ++ new /\
  discovered_urls s' = list_to_set new.*1 ∪ discovered_urls s /\
  popped s' = popped s.



(** ** Sample pages and sites *)

Definition bare_link (url_ anchor : string) : LinkInfo := {|
  url := url_; anchor_text := anchor; link_type := internal;
  source_page := "https://example.com/"; depth := 1;
  is_navigation := false; is_footer := false; is_contact := false;
  is_about := false; is_google_maps := false; context := EmptyString;
  menu_type := body; css_classes := EmptyString
|}.

(** The anchors of a page with a mail link and a link to a section of
    another page. *)
Definition contact_page_anchors : list Anchor := [
  Sample.plain_anchor "mailto:info@example.com" "Mail us";
  Sample.plain_anchor "https://example.com/about#team" "Our team"
].




(** A site whose every page links to [/about] and [/contact]. *)
Definition two_link_site : string -> result (list Anchor) :=
  fun _ => Ok [Sample.plain_anchor "/about" "About";
               Sample.plain_anchor "/contact" "Contact"].

(** ** Vocabulary of the further properties *)

(** Links held by the four category stores of a site map. *)
Definition stored (sm : SiteMap) : nat :=
  length (internal_links sm) + length (external_links sm)
  + length (social_links sm) + length (maps_links (google_maps_info sm)).

(** Each category list holds links of its own type; the contact list
    holds internal links flagged contact that are also in the internal
    list; the direct map links show one of the two tested forms. *)
Definition sitemap_sorted (sm : SiteMap) : Prop :=
  Forall (fun li => link_type li = internal) (internal_links sm) /\
  Forall (fun li => link_type li = external) (external_links sm) /\
  Forall (fun li => link_type li = social) (social_links sm) /\
  Forall (fun li => link_type li = internal /\ is_contact li = true /\
                    li ∈ internal_links sm) (contact_links sm) /\
  Forall (fun u => Py.contains "maps.google.com" u
                   || Py.contains "google.com/maps" u = true)
         (maps_links (google_maps_info sm)).

(** A site that answers no request. *)
Definition unreachable_site : string -> Responses :=
  fun _ _ => RequestException.

(** An outcome after which the loop of [fetch_with_error_handling]
    goes on to the next attempt. *)
Definition failed_attempt (o : Outcome) : bool :=
  match o with
  | Response _ html => detect_page_errors html
  | RequestException => true
  end.

(** An outcome after which the loop of [get_with_retry] goes on to the
    next attempt: a failed request, or a response that is neither a
    long enough 200 nor one of the four statuses that end the loop. *)
Definition inconclusive (cfg : EnhancedAnalyzerConfig) (o : Outcome) : bool :=
  match o with
  | Response status_code text =>
      negb ((status_code =? 200)%Z && (MIN_HTML_LENGTH cfg <? String.length text))
      && negb (existsb (Z.eqb status_code) [403; 404; 500; 503]%Z)
  | RequestException => true
  end.

(** Seconds slept in an event trace, jitter apart. *)
Definition slept (evs : list Event) : nat :=
  fold_right (fun e acc => match e with EvSleep s _ => s + acc | _ => acc end)
             0 evs.

(** The error types [handle_fetch_error] can name for a page in which
    [detect_page_errors] found a signature. *)
Definition detected_error_types : list string := [
  "520 Unknown Server Error"; "Cloudflare Challenge"; "Access Denied";
  "Service Unavailable"; "Cloudflare Protection"; "CAPTCHA Challenge"
].

(** The items of a pattern without special characters. *)
Definition literal (p : string) : list Re.item :=
  (fun c => (Re.Lit c, false)) <$> list_ascii_of_string p.

(** An anchor with a [class] attribute, as a button of a page has. *)
Definition button_anchor : Anchor := {|
  a_href := "https://example.com/pricing";
  a_class := Some ["btn"];
  a_text_spaced := "Pricing"; a_text := "Pricing";
  a_parents := []
|}.

(** ** [EnhancedGoogleMapsDetector]: detection in anchors and frames *)

Section Detection.

Variable urljoin : string -> string -> result string.

(** [_detect_direct_links] over [soup.find_all('a', href=True)]. *)
Fixpoint _detect_direct_links (base_url : string) (anchors : list Anchor)
    : result (list string) :=
  match anchors with
  | [] => Ok []
  | a :: rest =>
      let href := a_href a in
      let! full_url := urljoin base_url href in
      let hit :=
        existsb (fun pattern => Py.contains pattern (Py.lower full_url))
                ["maps.google.com"; "google.com/maps"; "goo.gl/maps";
                 "maps.app.goo.gl"] in
      let! found := _detect_direct_links base_url rest in
      Ok (if hit then full_url :: found else found)
  end.

(** [_detect_iframe_embeds] over the [src] attributes of
    [soup.find_all('iframe', src=True)]. *)
Fixpoint _detect_iframe_embeds (base_url : string) (srcs : list string)
    : result (list string) :=
  match srcs with
  | [] => Ok []
  | src :: rest =>
      let! full_url := urljoin base_url src in
      let hit :=
        existsb (fun pattern => Py.contains pattern (Py.lower full_url))
                ["maps.google.com"; "google.com/maps"] in
      let! found := _detect_iframe_embeds base_url rest in
      Ok (if hit then full_url :: found else found)
  end.

End Detection.

(** The first priority pattern that some link of the list contains. *)
Definition best_pattern (links : list string) : option string :=
  List.find (fun pattern => existsb (pattern_in_link pattern) links)
            priority_patterns.

(** A link to a place on the map, as a page of the site carries it. *)
Definition place_link : LinkInfo :=
  bare_link "https://www.google.com/maps/place/Cafe" "Find us".

(** ** [EnhancedGoogleMapsDetector]: structured data

    A JSON-LD value is any object [json.loads] produces.  The detector
    asks of it whether it is a dict and what a key holds
    ([as_dict]), its [str()] ([py_str], also what an f-string prints)
    and its truth value ([py_truthy]). *)

Section StructuredData.

Variable Value : Type.
Variable as_dict : Value -> option (string -> option Value).
Variable py_str : Value -> string.
Variable py_truthy : Value -> bool.

(** The block under [if 'location' in data]: the URL it returns, or
    [None] when it falls through. *)
Definition location_url (data : string -> option Value) : option string :=
  match data "location" with
  | Some location =>
      match as_dict location with
      | Some location =>
          match location "geo" with
          | Some geo =>
              match as_dict geo with
              | Some geo =>
                  match geo "latitude", geo "longitude" with
                  | Some lat, Some lng =>
                      Some ("https://www.google.com/maps?q="
                            +:+ py_str lat +:+ "," +:+ py_str lng)
                  | _, _ => None
                  end
              | None => None
              end
          | None => None
          end
      | None => None
      end
  | None => None
  end.

(** The block under [if 'address' in data]. *)
Definition address_url (data : string -> option Value) : option string :=
  match data "address" with
  | Some address =>
      match as_dict address with
      | Some address =>
          let address_parts :=
            omap (fun key => py_str <$> address key)
                 ["streetAddress"; "addressLocality"; "addressRegion";
                  "postalCode"] in
          match address_parts with
          | [] => None
          | _ =>
              let address_string := Py.join ", " address_parts in
              let encoded_address := Py.replace " " "+" address_string in
              Some ("https://www.google.com/maps/search/" +:+ encoded_address)
          end
      | None => None
      end
  | None => None
  end.

(** The result is the value of [hasMap] as it is ([inl]), or a URL
    the method builds ([inr]). *)
Definition _extract_maps_from_structured_data (data : Value)
    : option (Value + string) :=
  match as_dict data with
  | None => None
  | Some data =>
      match data "hasMap" with
      | Some has_map => Some (inl has_map)
      | None =>
          match location_url data with
          | Some u => Some (inr u)
          | None =>
              match address_url data with
              | Some u => Some (inr u)
              | None => None
              end
          end
      end
  end.

(** [if maps_url:] *)
Definition maps_url_truthy (maps_url : option (Value + string)) : bool :=
  match maps_url with
  | Some (inl v) => py_truthy v
  | Some (inr u) => Py.truthy u
  | None => false
  end.

Fixpoint _detect_structured_data_maps (json_ld_data : list Value)
    : list (Value + string) :=
  match json_ld_data with
  | [] => []
  | data :: rest =>
      let found := _detect_structured_data_maps rest in
      match as_dict data with
      | Some _ =>
          let maps_url := _extract_maps_from_structured_data data in
          if maps_url_truthy maps_url
          then match maps_url with
               | Some u => u :: found
               | None => found
               end
          else found
      | None => found
      end
  end.

End StructuredData.

#[local] Set Warnings "-register-all".

(** A JSON-LD value made of strings and dicts, for the examples. *)
Inductive SampleJson : Type :=
| SStr (s : string)
| SDict (entries : list (string * SampleJson)).

Definition sample_as_dict (v : SampleJson)
    : option (string -> option SampleJson) :=
  match v with
  | SStr _ => None
  | SDict entries =>
      Some (fun key =>
              snd <$> List.find (fun kv => String.eqb (fst kv) key) entries)
  end.

Definition sample_str (v : SampleJson) : string :=
  match v with SStr s => s | SDict _ => "{...}" end.

Definition sample_truthy (v : SampleJson) : bool :=
  match v with
  | SStr s => Py.truthy s
  | SDict entries => match entries with [] => false | _ => true end
  end.

(** A business with a postal address and no [hasMap]. *)
Definition cafe_json : SampleJson :=
  SDict [("name", SStr "Cafe");
         ("address", SDict [("streetAddress", SStr "1 Main Street");
                            ("addressLocality", SStr "Springfield")])].

(** ** Contact information and business metrics *)

Record ContactInfo : Type := {
  brand_name : option string;
  email : option string;
  mobile_phone : option string;
  corporate_phone : option string;
  support_phone : option string;
  company_phone : option string;
  address : option string;
  company_city : option string;
  company_state : option string;
  google_map : option string;
  all_google_maps_links : list string;
  google_maps_integration : IntegrationStatus;
  (** the items of the dict, platform and profile URL *)
  social_media : list (string * option string)
}.

Record BusinessMetrics : Type := {
  industry : string;
  employees : option string;
  annual_revenue : option string;
  founded_year : option string;
  firmographic_score : nat;
  engagement_score : nat;
  segmentation : string;
  metrics_structure_complexity : Complexity;
  digital_presence_strength : string;
  contact_accessibility : string
}.

(** The fields of [PageMetadata] the scores and the page analysis
    read or write; the meta tags, the JSON-LD blocks, the load time
    and the lists filled in later are left to the parser. *)
Record PageMetadata : Type := {
  page_url : string;
  page_title : option string;
  page_description : option string;
  page_html : option string;
  page_text_content : option string;
  page_status_code : option Z;
  page_word_count : N;
  page_is_contact_page : bool;
  page_type : string
}.

(** Truth value of an [Optional[str]]. *)
Definition opt_truthy (o : option string) : bool :=
  match o with
  | Some s => Py.truthy s
  | None => false
  end.

(** [sum(1 for url in contact_info.social_media.values() if url)]. *)
Definition active_platforms (contact_info : ContactInfo) : nat :=
  length (List.filter (fun item => opt_truthy (snd item))
                      (social_media contact_info)).

Definition _assess_digital_presence (sitemap : SiteMap)
    (contact_info : ContactInfo) : string :=
  let social_count := active_platforms contact_info in
  if 5 <=? social_count then "Strong"
  else if 3 <=? social_count then "Moderate"
  else if 1 <=? social_count then "Basic"
  else "Limited".

Definition _assess_contact_accessibility (contact_info : ContactInfo)
    (sitemap : SiteMap) : string :=
  let contact_methods := 0 in
  let contact_methods :=
    if opt_truthy (email contact_info)
    then contact_methods + 1 else contact_methods in
  let contact_methods :=
    if opt_truthy (company_phone contact_info)
       || opt_truthy (mobile_phone contact_info)
    then contact_methods + 1 else contact_methods in
  let contact_methods :=
    if opt_truthy (address contact_info)
    then contact_methods + 1 else contact_methods in
  let contact_methods :=
    if opt_truthy (google_map contact_info)
    then contact_methods + 1 else contact_methods in
  let contact_methods :=
    if 0 <? length (contact_links sitemap)
    then contact_methods + 1 else contact_methods in
  if 4 <=? contact_methods then "Excellent"
  else if 2 <=? contact_methods then "Good"
  else if 1 <=? contact_methods then "Basic"
  else "Limited".

(** The score of [_calculate_firmographic_score] before [min(100, score)]. *)
Definition firmographic_points (metrics : BusinessMetrics)
    (contact_info : ContactInfo) : nat :=
  let score := 0 in
  let score := if opt_truthy (brand_name contact_info)
               then score + 10 else score in
  let score := if negb (String.eqb (industry metrics) "Unknown")
               then score + 10 else score in
  let score := if opt_truthy (founded_year metrics)
               then score + 10 else score in
  let score := if opt_truthy (address contact_info)
               then score + 10 else score in
  let score := if opt_truthy (email contact_info)
               then score + 10 else score in
  let score := if opt_truthy (company_phone contact_info)
               then score + 10 else score in
  let score :=
    if match social_media contact_info with [] => false | _ => true end
       && existsb (fun item => opt_truthy (snd item)) (social_media contact_info)
    then score + 10 else score in
  let score := if opt_truthy (employees metrics)
               then score + 15 else score in
  let score := if opt_truthy (annual_revenue metrics)
               then score + 15 else score in
  score.

Definition _calculate_firmographic_score (metrics : BusinessMetrics)
    (contact_info : ContactInfo) : nat :=
  Nat.min 100 (firmographic_points metrics contact_info).

(** The score of [_calculate_engagement_score] before [min(100, score)]. *)
Definition engagement_points (pages_data : list PageMetadata)
    (contact_info : ContactInfo) (sitemap : SiteMap) : nat :=
  let score := 0 in
  let score :=
    match social_media contact_info with
    | [] => score
    | _ => score + Nat.min 30 (active_platforms contact_info * 5)
    end in
  let total_words := foldr N.add 0%N (page_word_count <$> pages_data) in
  let score :=
    if (10000 <? total_words)%N then score + 25
    else if (5000 <? total_words)%N then score + 20
    else if (1000 <? total_words)%N then score + 15
    else score in
  let score :=
    if 20 <? total_pages sitemap then score + 25
    else if 10 <? total_pages sitemap then score + 20
    else if 5 <? total_pages sitemap then score + 15
    else score in
  let score :=
    match google_maps_integration contact_info with
    | Integrated => score + 10
    | NotFound => score
    end in
  let score :=
    match pages_data with
    | first :: _ =>
        if Py.startswith "https://" (page_url first) then score + 10 else score
    | [] => score
    end in
  score.

Definition _calculate_engagement_score (pages_data : list PageMetadata)
    (contact_info : ContactInfo) (sitemap : SiteMap) : nat :=
  Nat.min 100 (engagement_points pages_data contact_info sitemap).

(** The Google Maps block of [extract_contact_info]: the three fields
    it sets, from the defaults of a new [ContactInfo]. *)
Definition contact_maps_fields (sitemap : SiteMap)
    : option string * list string * IntegrationStatus :=
  let g := google_maps_info sitemap in
  match all_maps_links g with
  | [] => (None, [], NotFound)
  | _ => (Some (primary_maps_link g), all_maps_links g,
          maps_integration_status g)
  end.

(** Rank of a complexity tier. *)
Definition complexity_rank (c : Complexity) : nat :=
  match c with
  | Unknown => 0 | Basic => 1 | Simple => 2 | Moderate => 3 | Complex => 4
  end.

(** ** Page types *)

Definition _determine_page_type (url_ text_content : string) : string :=
  let url_lower := Py.lower url_ in
  let text_lower := Py.lower text_content in
  if any_in ["about"; "story"; "company"] url_lower then "about"
  else if any_in ["contact"; "reach"; "touch"] url_lower then "contact"
  else if any_in ["product"; "service"; "solution"] url_lower then "product"
  else if any_in ["blog"; "news"; "article"] url_lower then "blog"
  else if any_in ["team"; "staff"; "people"] url_lower then "team"
  else "general".

(** A contact record with nothing found. *)
Definition empty_contact : ContactInfo := {|
  brand_name := None; email := None; mobile_phone := None;
  corporate_phone := None; support_phone := None; company_phone := None;
  address := None; company_city := None; company_state := None;
  google_map := None; all_google_maps_links := [];
  google_maps_integration := NotFound; social_media := []
|}.

(** A site map that counts [n] pages. *)
Definition sitemap_of_pages (n : nat) : SiteMap :=
  let sm := SiteMap_new "example.com" "https://example.com/" in
  {| domain := domain sm; main_url := main_url sm;
     total_pages := n; total_links := total_links sm;
     internal_links := internal_links sm;
     external_links := external_links sm;
     social_links := social_links sm;
     contact_links := contact_links sm;
     google_maps_info := google_maps_info sm;
     crawl_depth_reached := crawl_depth_reached sm;
     website_structure_complexity := website_structure_complexity sm |}.

(** ** [_analyze_single_page_enhanced] *)

(** What the parsing of a page yields: the text, the number of its
    words, the title and the meta description. *)
Record ParsedPage : Type := {
  parsed_text_content : string;
  parsed_word_count : N;
  parsed_title : option string;
  parsed_description : option string
}.

Section PageAnalysis.

Variable cfg : EnhancedAnalyzerConfig.
Variable net : string -> Responses.
(** [driver.get(url)] followed by [driver.page_source]; [Raise] when
    Selenium fails. *)
Variable selenium : string -> result string.
(** The statements from [BeautifulSoup(html, 'html.parser')] to the
    JSON-LD loop; [Raise] when one of them raises. *)
Variable parse : string -> result ParsedPage.

(** The page record, if any, and the module-level set
    [processed_urls] as the call leaves it. *)
Definition _analyze_single_page_enhanced (processed_urls : gset string)
    (url_ : string) : option PageMetadata * gset string :=
  if bool_decide (url_ ∈ processed_urls) then (None, processed_urls)
  else
    let processed_urls := {[ url_ ]} ∪ processed_urls in
    let '(html, status_code) :=
      fst (get_with_retry cfg (net url_) (MAX_RETRIES cfg)) in
    let fetched :=
      if negb (opt_truthy html)
         || (String.length (default EmptyString html) <? MIN_HTML_LENGTH cfg)
      then
        match selenium url_ with
        | Ok page_source => Some (Some page_source, Some 200%Z)
        | Raise _ => None
        end
      else Some (html, status_code) in
    match fetched with
    | None => (None, processed_urls)
    | Some (html, status_code) =>
        if negb (opt_truthy html) then (None, processed_urls)
        else
          match parse (default EmptyString html) with
          | Ok parsed =>
              let text_content := parsed_text_content parsed in
              (Some {|
                 page_url := url_;
                 page_title := parsed_title parsed;
                 page_description := parsed_description parsed;
                 page_html := html;
                 page_text_content := Some text_content;
                 page_status_code := status_code;
                 page_word_count := parsed_word_count parsed;
                 page_is_contact_page :=
                   Py.contains "contact" (Py.lower url_)
                   || Py.contains "contact" (Py.lower text_content);
                 page_type := _determine_page_type url_ text_content
               |}, processed_urls)
          | Raise _ => (None, processed_urls)
          end
    end.

End PageAnalysis.

(** A parser that finds a short welcome text, and a browser that
    cannot be started. *)
Definition welcome_parser : string -> result ParsedPage :=
  fun _ => Ok {| parsed_text_content := "Welcome to our site";
                 parsed_word_count := 4;
                 parsed_title := Some "Home";
                 parsed_description := None |}.

Definition no_browser : string -> result string := fun _ => Raise ValueError.

(** ** Listings and left-over frontiers *)



(** A site map that holds the map information [g]. *)
Definition sitemap_with_maps (g : GoogleMapsInfo) : SiteMap :=
  let sm := SiteMap_new "example.com" "https://example.com/" in
  {| domain := domain sm; main_url := main_url sm;
     total_pages := total_pages sm; total_links := total_links sm;
     internal_links := internal_links sm;
     external_links := external_links sm;
     social_links := social_links sm;
     contact_links := contact_links sm;
     google_maps_info := g;
     crawl_depth_reached := crawl_depth_reached sm;
     website_structure_complexity := website_structure_complexity sm |}.

(** * Properties *)

(** ** The HTTP client *)

Section HTTPClientFacts.

Variable cfg : EnhancedAnalyzerConfig.

Lemma get_attempts_content responses retries attempts html st evs :
  get_attempts cfg responses retries attempts = ((Some html, st), evs) ->
  st = Some 200%Z /\
  MIN_HTML_LENGTH cfg < String.length html /\
  exists attempt, In attempt attempts /\ responses attempt = Response 200 html.
Proof.
  revert evs.
  induction attempts as [|attempt rest IH]; intros evs; cbn [get_attempts];
    [discriminate|].
  destruct (responses attempt) as [status_code text|] eqn:Hresp.
  - destruct ((status_code =? 200)%Z && (MIN_HTML_LENGTH cfg <? String.length text))
      eqn:Hgood.
    + intros [= <- <- <-].
      apply andb_prop in Hgood as [Hs Hl].
      apply Z.eqb_eq in Hs. apply Nat.ltb_lt in Hl. subst status_code.
      repeat split; [exact Hl|]. exists attempt. split; [now left|exact Hresp].
    + destruct (existsb (Z.eqb status_code) [403; 404; 500; 503]%Z);
        [discriminate|].
      destruct (get_attempts cfg responses retries rest) as [[h s] evs'] eqn:Hrest.
      intros [= -> -> <-].
      destruct (IH _ eq_refl) as (Hst & Hlen & attempt' & Hin & Hr).
      repeat split; [exact Hst|exact Hlen|].
      exists attempt'. split; [now right|exact Hr].
  - destruct (get_attempts cfg responses retries rest) as [[h s] evs'] eqn:Hrest.
    intros [= -> -> <-].
    destruct (IH _ eq_refl) as (Hst & Hlen & attempt' & Hin & Hr).
    repeat split; [exact Hst|exact Hlen|].
    exists attempt'. split; [now right|exact Hr].
Qed.

Lemma get_with_retry_content responses retries html st evs :
  get_with_retry cfg responses retries = ((Some html, st), evs) ->
  st = Some 200%Z /\
  MIN_HTML_LENGTH cfg < String.length html /\
  exists attempt, attempt < retries /\ responses attempt = Response 200 html.
Proof.
  unfold get_with_retry. intros H.
  destruct (get_attempts_content _ _ _ _ _ _ H) as (Hst & Hlen & attempt & Hin & Hr).
  repeat split; [exact Hst|exact Hlen|].
  exists attempt. split; [|exact Hr].
  apply in_seq in Hin. lia.
Qed.

(** A first response with status 500 or 503 ends the loop at once. *)
Lemma get_with_retry_gives_up responses retries status_code text :
  0 < retries ->
  responses 0 = Response status_code text ->
  status_code = 500%Z \/ status_code = 503%Z ->
  get_with_retry cfg responses retries = ((None, Some status_code), [EvRequest 0]).
Proof.
  intros Hpos Hresp Hstatus.
  unfold get_with_retry.
  destruct retries as [|n]; [lia|].
  cbn [seq get_attempts]. rewrite Hresp.
  destruct Hstatus as [-> | ->]; reflexivity.
Qed.

End HTTPClientFacts.

Lemma should_retry_fetch_status status_code html :
  In status_code [429; 500; 502; 503; 504]%Z ->
  should_retry_fetch status_code html = true.
Proof.
  intros Hin. unfold should_retry_fetch.
  assert (existsb (Z.eqb status_code) [429; 500; 502; 503; 504]%Z = true) as ->;
    [|reflexivity].
  apply existsb_exists. exists status_code. split; [exact Hin|apply Z.eqb_refl].
Qed.

(** C1: a fetch attempt answered with status 500 or 503 is classified
    retryable by [should_retry_fetch], yet [get_with_retry] makes that
    single request, sleeps for no backoff and returns [(None, status)]:
    the status is an immediately permanent failure on the first attempt. *)
Theorem retryable_status_not_retried cfg responses retries status_code text :
  0 < retries ->
  responses 0 = Response status_code text ->
  status_code = 500%Z \/ status_code = 503%Z ->
  should_retry_fetch status_code text = true /\
  get_with_retry cfg responses retries = ((None, Some status_code), [EvRequest 0]) /\
  requests_made (snd (get_with_retry cfg responses retries)) = 1.
Proof.
  intros Hpos Hresp Hstatus.
  split.
  - apply should_retry_fetch_status.
    destruct Hstatus as [-> | ->]; simpl; tauto.
  - rewrite (get_with_retry_gives_up cfg responses retries status_code text)
      by assumption.
    split; reflexivity.
Qed.

Lemma retryable_status_not_retried_witness :
  should_retry_fetch 500 "Internal Server Error" = true /\
  get_with_retry config (fun _ => Response 500 "Internal Server Error")
                 (MAX_RETRIES config)
  = ((None, Some 500%Z), [EvRequest 0]) /\
  requests_made
    (snd (get_with_retry config (fun _ => Response 500 "Internal Server Error")
                         (MAX_RETRIES config))) = 1.
Proof.
  apply (retryable_status_not_retried config
           (fun _ => Response 500 "Internal Server Error")
           (MAX_RETRIES config) 500%Z "Internal Server Error").
  - simpl. lia.
  - reflexivity.
  - left. reflexivity.
Defined.

(** The statuses 429, 502 and 504 are tried again, without any wait
    between the requests. *)
Example get_with_retry_429 :
  get_with_retry config (fun _ => Response 429 "Too Many Requests") 3
  = ((None, None), [EvRequest 0; EvRequest 1; EvRequest 2]).
Proof. reflexivity. Qed.

(** [fetch_with_error_handling] looks at the status only through
    [handle_fetch_error], so a 500 with a clean body is a success. *)
Example fetch_500_clean_body :
  fetch_with_error_handling (fun _ => Response 500 "Internal Server Error") 3
  = ((Some "Internal Server Error", Some 500%Z), [EvRequest 0]).
Proof. vm_compute. reflexivity. Qed.

(** C9: [get_with_retry] returns page content only for a response with
    status 200 whose body is longer than [MIN_HTML_LENGTH]; the crawl
    loop, which goes on only with such content, therefore processes
    only pages that satisfy both conditions. *)
Theorem content_only_on_200_and_long cfg (net : string -> Responses)
    (current_url html : string) :
  (forall retries st evs,
      get_with_retry cfg (net current_url) retries = ((Some html, st), evs) ->
      st = Some 200%Z /\ MIN_HTML_LENGTH cfg < String.length html /\
      exists attempt, attempt < retries /\
                      net current_url attempt = Response 200 html) /\
  (fetched_html cfg net current_url = Some html ->
   MIN_HTML_LENGTH cfg < String.length html /\
   exists attempt, attempt < MAX_RETRIES cfg /\
                   net current_url attempt = Response 200 html).
Proof.
  split.
  - intros retries st evs H. exact (get_with_retry_content cfg _ _ _ _ _ H).
  - unfold fetched_html.
    destruct (get_with_retry cfg (net current_url) (MAX_RETRIES cfg))
      as [[h st] evs] eqn:Hget.
    simpl. destruct h as [h|]; [|discriminate].
    destruct (Py.truthy h); [|discriminate].
    intros [= ->].
    destruct (get_with_retry_content cfg _ _ _ _ _ Hget) as (_ & Hlen & Hex).
    split; assumption.
Qed.

Lemma content_only_on_200_and_long_witness :
  MIN_HTML_LENGTH config < String.length Sample.long_body /\
  exists attempt, attempt < MAX_RETRIES config /\
    Sample.always_200 "https://example.com/" attempt
    = Response 200 Sample.long_body.
Proof.
  apply (proj2 (content_only_on_200_and_long config Sample.always_200
                  "https://example.com/" Sample.long_body)).
  vm_compute. reflexivity.
Defined.

(** The other outcomes of [get_with_retry] carry no content. *)
Example get_with_retry_short_body :
  get_with_retry config (fun _ => Response 200 "<html></html>") 3
  = ((None, None), [EvRequest 0; EvRequest 1; EvRequest 2]).
Proof. vm_compute. reflexivity. Qed.

Example get_with_retry_exhausted :
  get_with_retry config (fun _ => RequestException) 3
  = ((None, None),
     [EvRequest 0; EvSleep 20 false; EvRequest 1; EvSleep 40 false; EvRequest 2]).
Proof. reflexivity. Qed.

(** ** Error signatures against lower-cased content *)

Lemma lower_char_not_upper c : is_upper (Py.lower_char c) = false.
Proof. destruct c as [[] [] [] [] [] [] [] []]; reflexivity. Qed.

Lemma upper_never_meets_lower u c :
  is_upper u = true -> Ascii.eqb u (Py.lower_char c) = false.
Proof.
  intros Hu. destruct (Ascii.eqb u (Py.lower_char c)) eqn:E; [|reflexivity].
  apply Ascii.eqb_eq in E. subst u.
  rewrite lower_char_not_upper in Hu. discriminate.
Qed.

Lemma blocked_no_match items :
  blocked items = true ->
  forall s, Re.match_here false items (Py.lower s) = false.
Proof.
  induction items as [|[a opt] rest IH]; intros Hb s; [discriminate|].
  destruct opt; [destruct a; discriminate|].
  cbn [Re.match_here].
  destruct s as [|c s']; [reflexivity|].
  cbn [Py.lower].
  destruct a as [u| |cs]; cbn [blocked] in Hb.
  - destruct (is_upper u) eqn:Hu.
    + unfold Re.atom_matches. rewrite (upper_never_meets_lower u c Hu).
      reflexivity.
    + rewrite (IH Hb s'). destruct (Re.atom_matches false (Re.Lit u) _); reflexivity.
  - rewrite (IH Hb s'). destruct (Re.atom_matches false Re.Dot _); reflexivity.
  - rewrite (IH Hb s'). destruct (Re.atom_matches false (Re.CharSet cs) _); reflexivity.
Qed.

Lemma blocked_no_search r :
  forallb blocked r = true ->
  forall s, Re.search_regex false r (Py.lower s) = false.
Proof.
  intros Hr.
  assert (Halt : forall s, Re.match_alt false r (Py.lower s) = false).
  { intros s. unfold Re.match_alt.
    induction r as [|items r IH]; [reflexivity|].
    cbn [forallb] in Hr. apply andb_prop in Hr as [Hi Hr].
    cbn [existsb]. rewrite (blocked_no_match items Hi s), (IH Hr). reflexivity. }
  induction s as [|c s IH].
  - cbn. specialize (Halt EmptyString). cbn in Halt. rewrite Halt. reflexivity.
  - specialize (Halt (String c s)).
    cbn [Py.lower] in *. cbn [Re.search_regex]. rewrite Halt. exact IH.
Qed.

(** A pattern written with an upper-case letter finds nothing in
    lower-cased text. *)
Lemma mixed_case_pattern_never_found pattern html :
  forallb blocked (Re.compile pattern) = true ->
  Re.search false pattern (Py.lower html) = false.
Proof. intros H. unfold Re.search. apply blocked_no_search. exact H. Qed.

(** Of the eleven signatures only the two written in lower case can be
    found by [detect_page_errors]. *)
Lemma detect_page_errors_lower_only html :
  detect_page_errors html
  = Re.search false "captcha" (Py.lower html)
    || Re.search false "security check" (Py.lower html).
Proof.
  unfold detect_page_errors, ERROR_PATTERNS. cbn [existsb].
  rewrite !(mixed_case_pattern_never_found
              "520: Web server is returning an unknown error") by reflexivity.
  rewrite !(mixed_case_pattern_never_found "Just a moment...") by reflexivity.
  rewrite !(mixed_case_pattern_never_found "Not Found") by reflexivity.
  rewrite !(mixed_case_pattern_never_found "Access Denied") by reflexivity.
  rewrite !(mixed_case_pattern_never_found "Service Unavailable") by reflexivity.
  rewrite !(mixed_case_pattern_never_found "Cloudflare") by reflexivity.
  rewrite !(mixed_case_pattern_never_found "Page Not Found") by reflexivity.
  rewrite !(mixed_case_pattern_never_found "404 Error") by reflexivity.
  rewrite !(mixed_case_pattern_never_found "503 Service Unavailable") by reflexivity.
  cbn [orb]. rewrite orb_false_r. reflexivity.
Qed.

(** C2: a page whose lower-cased text holds neither "captcha" nor
    "security check" is not classified as blocked, whatever other
    signature it shows ("Just a moment...", "Access Denied", ...):
    [fetch_with_error_handling] returns it as a success on the first
    attempt, with no retry. *)
Theorem challenge_page_returned_as_success html status_code responses max_retries :
  Re.search false "captcha" (Py.lower html) = false ->
  Re.search false "security check" (Py.lower html) = false ->
  0 < max_retries ->
  responses 0 = Response status_code html ->
  detect_page_errors html = false /\
  fetch_with_error_handling responses max_retries
  = ((Some html, Some status_code), [EvRequest 0]).
Proof.
  intros Hc Hs Hpos Hresp.
  assert (Hd : detect_page_errors html = false).
  { rewrite detect_page_errors_lower_only, Hc, Hs. reflexivity. }
  split; [exact Hd|].
  unfold fetch_with_error_handling.
  destruct max_retries as [|n]; [lia|].
  cbn [seq fetch_attempts]. rewrite Hresp, Hd. reflexivity.
Qed.

Lemma challenge_page_returned_as_success_witness :
  detect_page_errors "<html><title>Just a moment...</title></html>" = false /\
  fetch_with_error_handling
    (fun _ => Response 200 "<html><title>Just a moment...</title></html>") 3
  = ((Some "<html><title>Just a moment...</title></html>", Some 200%Z),
     [EvRequest 0]).
Proof.
  apply (challenge_page_returned_as_success
           "<html><title>Just a moment...</title></html>" 200%Z
           (fun _ => Response 200 "<html><title>Just a moment...</title></html>") 3).
  - vm_compute. reflexivity.
  - vm_compute. reflexivity.
  - lia.
  - reflexivity.
Defined.

Example access_denied_not_detected :
  detect_page_errors "<h1>Access Denied</h1>" = false.
Proof. vm_compute. reflexivity. Qed.

(** For the signatures that are found, the loop behaves as described:
    every attempt is made and the result carries no content. *)
Lemma fetch_attempts_blocked responses max_retries attempts :
  (forall attempt, In attempt attempts ->
     exists status_code html,
       responses attempt = Response status_code html /\
       detect_page_errors html = true) ->
  fst (fetch_attempts responses max_retries attempts) = (None, None) /\
  requests_made (snd (fetch_attempts responses max_retries attempts))
  = length attempts.
Proof.
  induction attempts as [|attempt rest IH]; intros Hall; [split; reflexivity|].
  destruct (Hall attempt (or_introl eq_refl)) as (status_code & html & Hr & Hd).
  cbn [fetch_attempts]. rewrite Hr, Hd.
  destruct (fetch_attempts responses max_retries rest) as [r evs] eqn:Hrest.
  destruct IH as [IH1 IH2]; [intros a Ha; apply Hall; now right|].
  cbn [fst snd] in *. split; [exact IH1|].
  unfold requests_made in *. cbn [List.filter is_request length].
  rewrite List.filter_app, length_app, IH2.
  assert (List.filter is_request
            (handle_fetch_error status_code html attempt max_retries) = []) as ->.
  { unfold handle_fetch_error.
    destruct (should_retry_fetch status_code html && (attempt <? max_retries));
      reflexivity. }
  reflexivity.
Qed.

Lemma captcha_page_retried_then_skipped status_code html max_retries :
  detect_page_errors html = true ->
  fst (fetch_with_error_handling (fun _ => Response status_code html) max_retries)
  = (None, None) /\
  requests_made
    (snd (fetch_with_error_handling (fun _ => Response status_code html) max_retries))
  = max_retries.
Proof.
  intros Hd. unfold fetch_with_error_handling.
  destruct (fetch_attempts_blocked (fun _ => Response status_code html)
              max_retries (seq 0 max_retries)) as [H1 H2].
  - intros attempt _. exists status_code, html. split; [reflexivity|exact Hd].
  - split; [exact H1|]. rewrite H2. apply length_seq.
Qed.

(** ** Link extraction *)

Section ExtractionFacts.

Variable urljoin : string -> string -> result string.
Variable find_all_a : string -> result (list Anchor).


Lemma no_hash_in_split_head s : Py.contains "#" (Py.split_head "#" s) = false.
Proof.
  induction s as [|c s IH]; [reflexivity|].
  cbn [Py.split_head]. destruct (Ascii.eqb c "#") eqn:E; [reflexivity|].
  cbn [Py.contains String.prefix].
  destruct (ascii_dec "#" c) as [Heq|Hne].
  - subst c. rewrite Ascii.eqb_refl in E. discriminate.
  - exact IH.
Qed.

Lemma scheme_char_not_hash c :
  Urlparse.is_scheme_char c = true -> Ascii.eqb c "#" = false.
Proof. destruct c as [[] [] [] [] [] [] [] []]; (reflexivity || discriminate). Qed.

Lemma scheme_char_not_colon c :
  Urlparse.is_scheme_char c = true -> Ascii.eqb c ":" = false.
Proof. destruct c as [[] [] [] [] [] [] [] []]; (reflexivity || discriminate). Qed.

(** Cutting a URL at its first [#] leaves the part up to a colon that
    ends a run of scheme characters untouched. *)
Lemma split_head_hash_keeps_head u :
  Urlparse.all_chars Urlparse.is_scheme_char (Py.split_head ":" u) = true ->
  forall rest, Urlparse.after_first ":" u = Some rest ->
  Py.split_head ":" (Py.split_head "#" u) = Py.split_head ":" u /\
  Urlparse.after_first ":" (Py.split_head "#" u) = Some (Py.split_head "#" rest).
Proof.
  induction u as [|c u IH]; intros Hall rest Hafter; [discriminate|].
  cbn [Py.split_head Urlparse.after_first] in *.
  destruct (Ascii.eqb c ":") eqn:Ec.
  - apply Ascii.eqb_eq in Ec. subst c. injection Hafter as <-.
    cbn. split; reflexivity.
  - cbn [Urlparse.all_chars] in Hall.
    destruct (Urlparse.is_scheme_char c) eqn:Hc; [|discriminate].
    rewrite (scheme_char_not_hash c Hc).
    cbn [Py.split_head Urlparse.after_first]. rewrite Ec.
    destruct (IH Hall rest Hafter) as [H1 H2].
    rewrite H1, H2. split; reflexivity.
Qed.

Lemma scheme_of_split_head_hash u :
  Urlparse.scheme u <> EmptyString ->
  Urlparse.scheme (Py.split_head "#" u) = Urlparse.scheme u.
Proof.
  unfold Urlparse.scheme, Urlparse.split_scheme. intros Hs.
  destruct (Urlparse.after_first ":" u) as [rest|] eqn:Hafter;
    [|exfalso; apply Hs; reflexivity].
  destruct (Py.split_head ":" u) as [|c head] eqn:Hhead;
    [exfalso; apply Hs; reflexivity|].
  destruct (Urlparse.is_alpha c && Urlparse.all_chars Urlparse.is_scheme_char (String c head))
    eqn:Hok; [|exfalso; apply Hs; reflexivity].
  apply andb_prop in Hok as [Ha Hall].
  rewrite <- Hhead in Hall.
  destruct (split_head_hash_keeps_head u Hall rest Hafter) as [H1 H2].
  rewrite H2, H1, Hhead.
  rewrite <- Hhead in *. rewrite Hhead. rewrite Hhead in Hall.
  rewrite Ha, Hall. reflexivity.
Qed.

(** What [extract_clickable_links] stores for an anchor it keeps. *)
Lemma clickable_link_inv base_url tag li :
  clickable_link urljoin base_url tag = Ok (Some li) ->
  exists joined,
    urljoin base_url (Py.strip (a_href tag)) = Ok joined /\
    (Urlparse.scheme joined = "http" \/ Urlparse.scheme joined = "https") /\
    url li = Py.split_head "#" joined /\
    anchor_text li = a_text_spaced tag /\
    link_type li =
      link_type_of (Py.replace "www." "" (Urlparse.netloc base_url))
                   (Py.replace "www." "" (Urlparse.netloc joined))
                   (url li) (anchor_text li).
Proof.
  unfold clickable_link.
  destruct (negb (Py.truthy (Py.strip (a_href tag)))
            || Py.startswith "javascript:" (Py.strip (a_href tag))
            || Py.startswith "mailto:" (Py.strip (a_href tag))
            || Py.startswith "tel:" (Py.strip (a_href tag))); [discriminate|].
  destruct (urljoin base_url (Py.strip (a_href tag))) as [joined|e] eqn:Hj;
    cbn [bind]; [|discriminate].
  destruct (String.eqb (Urlparse.scheme joined) "http"
            || String.eqb (Urlparse.scheme joined) "https") eqn:Hs;
    cbn [negb]; [|discriminate].
  destruct (classify_menu menu_class_patterns _ _ _) as [[[m n] f]|e];
    cbn [bind]; [|discriminate].
  intros [= <-]. cbn.
  exists joined. split; [reflexivity|]. split.
  - apply orb_prop in Hs as [H|H]; apply String.eqb_eq in H; [left|right]; exact H.
  - repeat split; reflexivity.
Qed.

End ExtractionFacts.

(** Every link of [extract_clickable_links] has an http or https URL
    without fragment. *)
Lemma clickable_link_url_normalised urljoin base_url tag li :
  clickable_link urljoin base_url tag = Ok (Some li) ->
  (Urlparse.scheme (url li) = "http" \/ Urlparse.scheme (url li) = "https") /\
  Py.contains "#" (url li) = false.
Proof.
  intros H.
  destruct (clickable_link_inv urljoin base_url tag li H)
    as (joined & _ & Hs & Hu & _).
  rewrite Hu. split; [|apply no_hash_in_split_head].
  rewrite scheme_of_split_head_hash; [exact Hs|].
  destruct Hs as [-> | ->]; discriminate.
Qed.

Lemma clickable_links_member urljoin base_url tags links li :
  clickable_links urljoin base_url tags = Ok links ->
  In li links ->
  exists tag, In tag tags /\ clickable_link urljoin base_url tag = Ok (Some li).
Proof.
  revert links.
  induction tags as [|tag rest IH]; intros links; cbn [clickable_links].
  - intros [= <-] [].
  - destruct (clickable_link urljoin base_url tag) as [l|e] eqn:Hl;
      cbn [bind]; [|discriminate].
    destruct (clickable_links urljoin base_url rest) as [ls|e] eqn:Hls;
      cbn [bind]; [|discriminate].
    intros [= <-] Hin.
    destruct l as [l|].
    + destruct Hin as [<- | Hin].
      * exists tag. split; [now left|exact Hl].
      * destruct (IH ls eq_refl Hin) as (t & Ht & Hc).
        exists t. split; [now right|exact Hc].
    + destruct (IH ls eq_refl Hin) as (t & Ht & Hc).
      exists t. split; [now right|exact Hc].
Qed.

Lemma extract_clickable_links_normalised urljoin find_all_a base_url html links li :
  extract_clickable_links urljoin find_all_a base_url html = Ok links ->
  In li links ->
  (Urlparse.scheme (url li) = "http" \/ Urlparse.scheme (url li) = "https") /\
  Py.contains "#" (url li) = false.
Proof.
  unfold extract_clickable_links.
  destruct (find_all_a html) as [tags|e]; cbn [bind]; [|discriminate].
  intros Hl Hin.
  destruct (clickable_links_member _ _ _ _ _ Hl Hin) as (tag & _ & Hc).
  exact (clickable_link_url_normalised _ _ _ _ Hc).
Qed.

(** C6: the extraction used by the crawl, [_extract_all_links_from_page],
    neither tests the scheme nor removes the fragment: from a page with
    a [mailto:] anchor and an anchor to [/about#team] it produces a
    link whose URL has the scheme mailto and a link whose URL keeps its
    fragment, where [extract_clickable_links] drops the first and
    strips the second. *)
Theorem page_extraction_keeps_mailto_and_fragment :
  (exists mail team,
     _extract_all_links_from_page Sample.urljoin
       (fun _ => Ok contact_page_anchors)
       Sample.long_body "https://example.com/" 0 = Ok [mail; team] /\
     url mail = "mailto:info@example.com" /\
     Urlparse.scheme (url mail) = "mailto" /\
     url team = "https://example.com/about#team" /\
     Py.contains "#" (url team) = true) /\
  (exists team,
     extract_clickable_links Sample.urljoin
       (fun _ => Ok contact_page_anchors)
       "https://example.com/" Sample.long_body = Ok [team] /\
     url team = "https://example.com/about").
Proof.
  split.
  - eexists. eexists. split; [vm_compute; reflexivity|].
    repeat split; vm_compute; reflexivity.
  - eexists. split; vm_compute; reflexivity.
Qed.

(** An anchor with a [class] attribute makes [extract_clickable_links]
    raise, and [safe_extract_links] answer with the empty list. *)
Example class_attribute_raises :
  let button := {|
    a_href := "https://example.com/pricing";
    a_class := Some ["btn"];
    a_text_spaced := "Pricing"; a_text := "Pricing";
    a_parents := [] |} in
  extract_clickable_links Sample.urljoin (fun _ => Ok [button])
    "https://example.com/" "<html>...</html>" = Raise TypeError /\
  safe_extract_links Sample.urljoin (fun _ => Ok [button])
    "https://example.com/" "<html>...</html>" = Ok [].
Proof. split; vm_compute; reflexivity. Qed.

(** ** Link classification *)

Lemma is_maps_link_patterns full_url :
  is_maps_link full_url
  = existsb (fun p => Py.contains p (Py.lower full_url)) map_url_patterns.
Proof.
  unfold is_maps_link, map_url_patterns. cbn [existsb].
  rewrite orb_false_r, !orb_assoc. reflexivity.
Qed.

(** [replace('www.', '')] removes every "www." of a network location,
    so [mywww.example.com] is taken for the domain [myexample.com] and
    the link is internal, where the comparison with only a leading
    "www." dropped makes it external. *)
Lemma inner_www_link_is_internal :
  exists li,
    clickable_link Sample.urljoin "https://myexample.com/"
      (Sample.plain_anchor "https://mywww.example.com/" "Partner")
    = Ok (Some li) /\
    link_type li = internal /\
    link_type_by_spec "https://myexample.com/" (url li) (anchor_text li)
    = external.
Proof. eexists. repeat split; vm_compute; reflexivity. Qed.

(** What [extract_clickable_links] computes for a link it keeps, the
    two domains being compared as [replace('www.', '')] leaves them:
    equal domains give internal; otherwise a domain of the social set
    gives social; otherwise a URL with one of the four map forms gives
    maps; otherwise a contact keyword in the URL or the anchor text
    gives contact; otherwise the link is external. *)
Lemma clickable_link_classification urljoin base_url tag li :
  clickable_link urljoin base_url tag = Ok (Some li) ->
  exists joined,
    urljoin base_url (Py.strip (a_href tag)) = Ok joined /\
    url li = Py.split_head "#" joined /\
    let base_domain := Py.replace "www." "" (Urlparse.netloc base_url) in
    let link_domain := Py.replace "www." "" (Urlparse.netloc joined) in
    let is_social := existsb (String.eqb link_domain) SOCIAL_DOMAINS in
    let is_map :=
      existsb (fun p => Py.contains p (Py.lower (url li))) map_url_patterns in
    let has_keyword :=
      keyword_hit contact_keywords (Py.lower (url li))
                  (Py.lower (anchor_text li)) in
    (base_domain = link_domain -> link_type li = internal) /\
    (base_domain <> link_domain -> is_social = true -> link_type li = social) /\
    (base_domain <> link_domain -> is_social = false -> is_map = true ->
     link_type li = maps) /\
    (base_domain <> link_domain -> is_social = false -> is_map = false ->
     has_keyword = true -> link_type li = contact) /\
    (base_domain <> link_domain -> is_social = false -> is_map = false ->
     has_keyword = false -> link_type li = external).
Proof.
  intros H.
  destruct (clickable_link_inv urljoin base_url tag li H)
    as (joined & Hj & _ & Hu & _ & Ht).
  exists joined. split; [exact Hj|]. split; [exact Hu|].
  cbv zeta. rewrite Ht. unfold link_type_of.
  rewrite is_maps_link_patterns.
  destruct (String.eqb_spec (Py.replace "www." "" (Urlparse.netloc base_url))
                            (Py.replace "www." "" (Urlparse.netloc joined)))
    as [Heq|Hne].
  - repeat split; intros; try reflexivity; contradiction.
  - destruct (existsb _ SOCIAL_DOMAINS);
      destruct (existsb _ map_url_patterns);
      destruct (keyword_hit contact_keywords _ _);
      repeat split; intros; try reflexivity; try discriminate; contradiction.
Qed.

Lemma clickable_link_classification_witness :
  exists li,
    clickable_link Sample.urljoin "https://example.com/"
      (Sample.plain_anchor "https://www.facebook.com/acme" "Follow us")
    = Ok (Some li) /\
    link_type li = social.
Proof.
  eexists. split; [vm_compute; reflexivity|].
  destruct (clickable_link_classification Sample.urljoin "https://example.com/"
              (Sample.plain_anchor "https://www.facebook.com/acme" "Follow us")
              _ eq_refl) as (joined & Hj & _ & _ & Hsocial & _).
  vm_compute in Hj. injection Hj as <-.
  apply Hsocial; vm_compute; [discriminate|reflexivity].
Defined.

(** The classifier of the crawl loop is coarser: it has no contact
    type, and it knows two map forms, compared without lower-casing. *)
Lemma crawl_classifier_types link_info sm :
  let li := fst (_classify_and_store_link link_info sm) in
  link_type li = internal \/ link_type li = social \/
  link_type li = maps \/ link_type li = external.
Proof.
  unfold _classify_and_store_link.
  destruct (String.eqb _ _); [left; reflexivity|].
  destruct (existsb _ Discoverer.social_domains); [right; left; reflexivity|].
  destruct (Py.contains "maps.google.com" (url link_info)
            || Py.contains "google.com/maps" (url link_info));
    [right; right; left; reflexivity|right; right; right; reflexivity].
Qed.

Example crawl_classifier_contact_is_external :
  link_type (fst (_classify_and_store_link
                    (bare_link "https://partner.org/contact" "Contact us")
                    (SiteMap_new "example.com" "https://example.com/")))
  = external.
Proof. vm_compute. reflexivity. Qed.

Example crawl_classifier_short_map_link_is_external :
  link_type (fst (_classify_and_store_link
                    (bare_link "https://goo.gl/maps/abc" "Map")
                    (SiteMap_new "example.com" "https://example.com/")))
  = external.
Proof. vm_compute. reflexivity. Qed.

(** C4: the five-way classification against the root domain, a
    leading "www." dropped on both sides, is not what the two
    classifiers compute.  Both drop every "www." of a network
    location, not only a leading one, so that a link to
    [mywww.example.com] found on [myexample.com] is internal for
    [extract_clickable_links] and for the crawl, where the comparison
    of the domains makes it external.  The classifier of the crawl,
    moreover, has no contact type and knows only two of the four map
    forms, which [extract_clickable_links] has: a contact page and a
    short map link of another domain are external for it. *)
Theorem link_classification_diverges :
  (exists li,
     clickable_link Sample.urljoin "https://myexample.com/"
       (Sample.plain_anchor "https://mywww.example.com/" "Partner")
     = Ok (Some li) /\
     url li = "https://mywww.example.com/" /\
     link_type li = internal) /\
  link_type
    (fst (_classify_and_store_link
            (bare_link "https://mywww.example.com/" "Partner")
            (SiteMap_new "myexample.com" "https://myexample.com/")))
  = internal /\
  link_type_by_spec "https://myexample.com/" "https://mywww.example.com/"
                    "Partner" = external /\
  (exists li,
     clickable_link Sample.urljoin "https://example.com/"
       (Sample.plain_anchor "https://partner.org/contact" "Contact us")
     = Ok (Some li) /\
     link_type li = contact) /\
  link_type
    (fst (_classify_and_store_link
            (bare_link "https://partner.org/contact" "Contact us")
            (SiteMap_new "example.com" "https://example.com/")))
  = external /\
  link_type_by_spec "https://example.com/" "https://partner.org/contact"
                    "Contact us" = contact /\
  (exists li,
     clickable_link Sample.urljoin "https://example.com/"
       (Sample.plain_anchor "https://goo.gl/maps/abc" "Map")
     = Ok (Some li) /\
     link_type li = maps) /\
  link_type
    (fst (_classify_and_store_link
            (bare_link "https://goo.gl/maps/abc" "Map")
            (SiteMap_new "example.com" "https://example.com/")))
  = external /\
  link_type_by_spec "https://example.com/" "https://goo.gl/maps/abc" "Map"
  = maps.
Proof.
  split_and!; try (vm_compute; reflexivity);
    eexists; split_and!; vm_compute; reflexivity.
Qed.

(** ** Primary map link *)

Lemma first_link_with_some pattern links link :
  first_link_with pattern links = Some link -> first_with pattern links link.
Proof.
  induction links as [|l rest IH]; cbn [first_link_with]; [discriminate|].
  destruct (pattern_in_link pattern l) eqn:Hm.
  - intros [= <-]. exists [], rest. repeat split; [exact Hm|intros ? []].
  - intros H. destruct (IH H) as (before & after & -> & Hp & Hun).
    exists (l :: before), after. repeat split; [exact Hp|].
    intros x [<- | Hx]; [exact Hm|exact (Hun x Hx)].
Qed.

Lemma first_link_with_none pattern links :
  first_link_with pattern links = None -> unmatched pattern links.
Proof.
  induction links as [|l rest IH]; cbn [first_link_with]; [intros _ ? []|].
  destruct (pattern_in_link pattern l) eqn:Hm; [discriminate|].
  intros H x [<- | Hx]; [exact Hm|exact (IH H x Hx)].
Qed.

Lemma first_priority_match_some patterns links link :
  first_priority_match patterns links = Some link ->
  exists higher pattern lower,
    patterns = higher ++ pattern :: lower /\
    (forall q, In q higher -> unmatched q links) /\
    first_with pattern links link.
Proof.
  induction patterns as [|p rest IH]; cbn [first_priority_match]; [discriminate|].
  destruct (first_link_with p links) as [l|] eqn:Hf.
  - intros [= <-]. exists [], p, rest.
    repeat split; [intros ? []|exact (first_link_with_some _ _ _ Hf)].
  - intros H. destruct (IH H) as (higher & pattern & lower & -> & Hh & Hfw).
    exists (p :: higher), pattern, lower. repeat split; [|exact Hfw].
    intros q [<- | Hq]; [exact (first_link_with_none _ _ Hf)|exact (Hh q Hq)].
Qed.




(** The place link is chosen over the generic link found with it,
    whichever comes first. *)
Example place_link_over_generic :
  _select_primary_maps_link
    ["https://www.google.com/maps"; "https://maps.google.com/maps/place/Acme"]
  = "https://maps.google.com/maps/place/Acme" /\
  _select_primary_maps_link
    ["https://maps.google.com/maps/place/Acme"; "https://www.google.com/maps"]
  = "https://maps.google.com/maps/place/Acme".
Proof. split; vm_compute; reflexivity. Qed.

(** Without any match the first listed link is returned. *)
Example no_pattern_first_listed :
  _select_primary_maps_link ["https://goo.gl/maps/abc"; "https://maps.app.goo.gl/x"]
  = "https://goo.gl/maps/abc".
Proof. vm_compute. reflexivity. Qed.

(** The primary link of the compiled record is a member of the list. *)
Lemma primary_link_is_member maps_links :
  maps_links <> [] -> In (_select_primary_maps_link maps_links) maps_links.
Proof.
  intros Hne. destruct maps_links as [|first rest]; [contradiction|].
  unfold _select_primary_maps_link.
  destruct (first_priority_match priority_patterns (first :: rest)) as [l|] eqn:Hf.
  - destruct (first_priority_match_some _ _ _ Hf)
      as (_ & _ & _ & _ & _ & (b & a & -> & _)).
    apply in_or_app. right. now left.
  - now left.
Qed.






(** ** The crawl frontier *)

Section CrawlFacts.

Variable cfg : EnhancedAnalyzerConfig.
Variable urljoin : string -> string -> result string.
Variable find_all_a : string -> result (list Anchor).
Variable net : string -> Responses.

Local Abbreviation link_step := (process_link cfg).
Local Abbreviation links_step := (process_links cfg).
Local Abbreviation body_of := (loop_body cfg urljoin find_all_a net).
Local Abbreviation test_of := (loop_test cfg).
Local Abbreviation reach := (reachable cfg urljoin find_all_a net).

Lemma extends_nothing s s' :
  url_queue s' = url_queue s -> appended s' = appended s ->
  discovered_urls s' = discovered_urls s -> popped s' = popped s ->
  extends s s' [].
Proof.
  intros Hq Ha Hd Hp. unfold extends.
  rewrite Hq, Ha, Hd, Hp, !app_nil_r. cbn. split_and!; try reflexivity.
  set_solver.
Qed.

Lemma pushed_nothing d before : pushed d before [].
Proof.
  unfold pushed. cbn. split_and!.
  - constructor.
  - intros u Hu. inversion Hu.
  - constructor.
Qed.

Lemma process_link_effect d s li :
  exists new,
    extends s (link_step d s li) new /\
    pushed d (discovered_urls s) new /\
    length new <= 1.
Proof.
  unfold process_link.
  destruct (_classify_and_store_link li (sitemap s)) as [li' sm].
  destruct (bool_decide (link_type li' = internal)
            && negb (bool_decide (url li' ∈ discovered_urls s))
            && (d <? MAX_CRAWL_DEPTH cfg)) eqn:Hc.
  - exists [(url li', d + 1)].
    apply andb_prop in Hc as [Hc _]. apply andb_prop in Hc as [_ Hnew].
    apply negb_true_iff, bool_decide_eq_false in Hnew.
    unfold extends, pushed. cbn. split_and!; try reflexivity.
    + set_solver.
    + apply NoDup_singleton.
    + intros u Hu. apply list_elem_of_singleton in Hu. subst u. exact Hnew.
    + repeat constructor.
  - exists []. split_and!.
    + apply extends_nothing; reflexivity.
    + apply pushed_nothing.
    + cbn. lia.
Qed.

Lemma process_links_effect d links s :
  exists new,
    extends s (links_step d s links) new /\
    pushed d (discovered_urls s) new /\
    length new <= length links.
Proof.
  revert s. induction links as [|li rest IH]; intros s.
  - exists []. split_and!.
    + apply extends_nothing; reflexivity.
    + apply pushed_nothing.
    + cbn. lia.
  - unfold process_links. cbn [fold_left].
    destruct (process_link_effect d s li)
      as (n1 & (Hq1 & Ha1 & Hd1 & Hp1) & (Hnd1 & Hfresh1 & Hdep1) & Hlen1).
    destruct (IH (link_step d s li))
      as (n2 & (Hq2 & Ha2 & Hd2 & Hp2) & (Hnd2 & Hfresh2 & Hdep2) & Hlen2).
    unfold process_links in Hq2, Ha2, Hd2, Hp2.
    exists (n1 ++ n2). unfold extends, pushed. split_and!.
    + rewrite Hq2, Hq1. symmetry. apply app_assoc.
    + rewrite Ha2, Ha1. symmetry. apply app_assoc.
    + rewrite Hd2, Hd1, fmap_app. set_solver.
    + rewrite Hp2, Hp1. reflexivity.
    + rewrite fmap_app. apply NoDup_app. split; [exact Hnd1|]. split; [|exact Hnd2].
      intros u Hu1 Hu2. apply (Hfresh2 u Hu2). rewrite Hd1. set_solver.
    + intros u Hu. rewrite fmap_app in Hu. apply elem_of_app in Hu as [Hu|Hu].
      * exact (Hfresh1 u Hu).
      * intros Hin. apply (Hfresh2 u Hu). rewrite Hd1. set_solver.
    + apply Forall_app. split; assumption.
    + rewrite length_app. cbn [length]. lia.
Qed.

Lemma page_links_of_length base_url d tags links :
  page_links_of urljoin base_url d tags = Ok links ->
  length links <= length tags.
Proof.
  revert links. induction tags as [|a rest IH]; intros links; cbn [page_links_of].
  - intros [= <-]. reflexivity.
  - destruct (page_link urljoin base_url d a) as [l|e]; cbn [bind]; [|discriminate].
    destruct (page_links_of urljoin base_url d rest) as [ls|e];
      cbn [bind]; [|discriminate].
    intros [= <-]. specialize (IH ls eq_refl).
    destruct l; cbn [length]; lia.
Qed.

(** One iteration: the head of the queue is popped and the tasks
    [new] are appended; at most one per anchor of the fetched page. *)
Lemma loop_body_effect s s' current_url d queue' :
  url_queue s = (current_url, d) :: queue' ->
  body_of s = Ok s' ->
  exists new,
    url_queue s' = queue' ++ new /\
    appended s' = appended s ++ new /\
    discovered_urls s' = list_to_set new.*1 ∪ discovered_urls s /\
    popped s' = popped s ++ [(current_url, d)] /\
    pushed d (discovered_urls s) new /\
    (forall bound,
        (forall html tags, find_all_a html = Ok tags -> length tags <= bound) ->
        length new <= bound).
Proof.
  intros Hq. unfold loop_body. rewrite Hq.
  set (s1 := {| discovered_urls := discovered_urls s; url_queue := queue';
                sitemap := sitemap s; appended := appended s;
                popped := popped s ++ [(current_url, d)] |}).
  assert (Hskip : exists new,
             url_queue s1 = queue' ++ new /\
             appended s1 = appended s ++ new /\
             discovered_urls s1 = list_to_set new.*1 ∪ discovered_urls s /\
             popped s1 = popped s ++ [(current_url, d)] /\
             pushed d (discovered_urls s) new /\
             (forall bound,
                 (forall html tags, find_all_a html = Ok tags -> length tags <= bound) ->
                 length new <= bound)).
  { exists []. cbn. rewrite !app_nil_r. split_and!; try reflexivity.
    - set_solver.
    - apply pushed_nothing.
    - intros. lia. }
  destruct (MAX_CRAWL_DEPTH cfg <? d); [intros [= <-]; exact Hskip|].
  destruct (fetched_html cfg net current_url) as [html|];
    [|intros [= <-]; exact Hskip].
  unfold _extract_all_links_from_page.
  destruct (find_all_a html) as [tags|e] eqn:Htags; cbn [bind]; [|discriminate].
  destruct (page_links_of urljoin current_url d tags) as [links|e] eqn:Hlinks;
    cbn [bind]; [|discriminate].
  intros [= <-]. cbn.
  destruct (process_links_effect d links s1)
    as (new & (Hq2 & Ha2 & Hd2 & Hp2) & Hpushed & Hlen).
  exists new. split_and!; try assumption.
  intros bound Hbound.
  pose proof (page_links_of_length _ _ _ _ Hlinks).
  pose proof (Hbound html tags Htags). lia.
Qed.

Lemma loop_test_head s :
  test_of s = true ->
  (exists current_url d queue', url_queue s = (current_url, d) :: queue') /\
  size (discovered_urls s) < MAX_PAGES_PER_SITE cfg.
Proof.
  unfold loop_test. intros H. apply andb_prop in H as [Hq Hs].
  apply Nat.ltb_lt in Hs. split; [|exact Hs].
  apply negb_true_iff, bool_decide_eq_false in Hq.
  destruct (url_queue s) as [|[u d] q]; [contradiction|].
  exists u, d, q. reflexivity.
Qed.


(** *** First in, first out *)

Lemma fifo_invariant frontier main_url_ s :
  reach frontier main_url_ s ->
  snd frontier ++ appended s = popped s ++ url_queue s.
Proof.
  induction 1 as [|s s' Hreach IH Htest Hbody]; [reflexivity|].
  destruct (loop_test_head s Htest) as [(u & d & q & Hq) _].
  destruct (loop_body_effect s s' u d q Hq Hbody)
    as (new & Hq' & Ha' & _ & Hp' & _).
  rewrite Ha', Hp', Hq', app_assoc, IH, Hq, <- !app_assoc. reflexivity.
Qed.

(** *** No URL is appended twice *)

Lemma dedup_invariant frontier main_url_ s :
  reach frontier main_url_ s ->
  NoDup (appended s).*1 /\
  discovered_urls s = list_to_set (appended s).*1 ∪ fst frontier.
Proof.
  induction 1 as [|s s' Hreach [IHnd IHd] Htest Hbody].
  - cbn. split; [apply NoDup_singleton|set_solver].
  - destruct (loop_test_head s Htest) as [(u & d & q & Hq) _].
    destruct (loop_body_effect s s' u d q Hq Hbody)
      as (new & _ & Ha' & Hd' & _ & (Hnd & Hfresh & _) & _).
    rewrite Ha', Hd', fmap_app. split.
    + apply NoDup_app. split; [exact IHnd|]. split; [|exact Hnd].
      intros v Hv Hnew. apply (Hfresh v Hnew). rewrite IHd. set_solver.
    + rewrite IHd. set_solver.
Qed.


(** *** Breadth first *)




(** *** The page budget *)

Lemma start_size main_url_ :
  size (discovered_urls (crawl_start fresh_frontier main_url_)) = 1.
Proof. cbn. rewrite union_empty_r_L. apply size_singleton. Qed.


(** The state in which the loop ends is a reachable state. *)
Lemma crawl_loop_reach frontier main_url_ fuel s s' :
  reach frontier main_url_ s ->
  crawl_loop cfg urljoin find_all_a net fuel s = Some (Ok s') ->
  reach frontier main_url_ s' /\ test_of s' = false.
Proof.
  revert s. induction fuel as [|fuel IH]; intros s Hreach; cbn [crawl_loop].
  - destruct (test_of s) eqn:Htest; [discriminate|].
    intros [= <-]. split; assumption.
  - destruct (test_of s) eqn:Htest.
    + destruct (body_of s) as [s1|e] eqn:Hbody; [|discriminate].
      apply IH. exact (reach_step _ _ _ _ _ _ s s1 Hreach Htest Hbody).
    + intros [= <-]. split; assumption.
Qed.




(** *** A page with more links than the budget *)



(** An iteration that fetches a page and extracts its links. *)
Lemma loop_body_fetched s current_url d queue' html links :
  url_queue s = (current_url, d) :: queue' ->
  (MAX_CRAWL_DEPTH cfg <? d) = false ->
  fetched_html cfg net current_url = Some html ->
  _extract_all_links_from_page urljoin find_all_a html current_url d = Ok links ->
  let s2 :=
    links_step d {| discovered_urls := discovered_urls s;
                    url_queue := queue';
                    sitemap := sitemap s;
                    appended := appended s;
                    popped := popped s ++ [(current_url, d)] |} links in
  body_of s = Ok {|
    discovered_urls := discovered_urls s2;
    url_queue := url_queue s2;
    sitemap := update_statistics (sitemap s2) (length links) d;
    appended := appended s2;
    popped := popped s2 |}.
Proof.
  intros Hq Hdepth Hfetch Hlinks.
  unfold loop_body. rewrite Hq, Hdepth, Hfetch, Hlinks. reflexivity.
Qed.


End CrawlFacts.






(** *** A small site *)

(** The crawl of the small site after its first iteration. *)
Lemma two_link_site_first_step :
  exists s,
    reachable config Sample.urljoin two_link_site Sample.always_200
              fresh_frontier "https://example.com/" s /\
    popped s = [("https://example.com/", 0)] /\
    url_queue s = [("https://example.com/about", 1);
                   ("https://example.com/contact", 1)] /\
    loop_test config s = true.
Proof.
  pose proof (loop_body_fetched config Sample.urljoin two_link_site
                Sample.always_200
                (crawl_start fresh_frontier "https://example.com/")
                "https://example.com/" 0 [] Sample.long_body
                [bare_link "https://example.com/about" "About";
                 bare_link "https://example.com/contact" "Contact"]
                eq_refl eq_refl) as Hbody.
  specialize (Hbody ltac:(vm_compute; reflexivity) ltac:(vm_compute; reflexivity)).
  cbv zeta in Hbody.
  eexists. split_and!.
  - eapply reach_step; [apply reach_start| |exact Hbody].
    unfold loop_test. rewrite start_size. reflexivity.
  - vm_compute. reflexivity.
  - vm_compute. reflexivity.
  - vm_compute. reflexivity.
Qed.





(** The small site is crawled to the end within its three pages. *)
Example two_link_site_crawl :
  exists s sm,
    discover_all_links config Sample.urljoin two_link_site Sample.always_200
                       3 fresh_frontier "https://example.com/"
    = Some (Ok (s, sm)) /\
    total_pages sm = 3 /\
    popped s = [("https://example.com/", 0);
                ("https://example.com/about", 1);
                ("https://example.com/contact", 1)] /\
    website_structure_complexity sm = Basic.
Proof.
  eexists. eexists. split; [vm_compute; reflexivity|].
  split_and!; vm_compute; reflexivity.
Qed.

(** The main URL is appended without a look at the discovered set: a
    discoverer that already knows it queues it once more. *)
Example main_url_appended_unchecked :
  url_queue (crawl_start ({[ "https://example.com/" ]},
                          [("https://example.com/jobs", 3)])
                         "https://example.com/")
  = [("https://example.com/jobs", 3); ("https://example.com/", 0)].
Proof. reflexivity. Qed.

(** * Further properties of the crawl *)

Section CrawlMore.

Variable cfg : EnhancedAnalyzerConfig.
Variable urljoin : string -> string -> result string.
Variable find_all_a : string -> result (list Anchor).
Variable net : string -> Responses.

(** [_classify_and_store_link] touches the category lists only. *)
Lemma classify_keeps li sm :
  main_url (snd (_classify_and_store_link li sm)) = main_url sm /\
  total_links (snd (_classify_and_store_link li sm)) = total_links sm /\
  crawl_depth_reached (snd (_classify_and_store_link li sm))
  = crawl_depth_reached sm.
Proof.
  unfold _classify_and_store_link.
  destruct (String.eqb _ _); [cbn; auto|].
  destruct (existsb _ Discoverer.social_domains); [cbn; auto|].
  destruct (Py.contains "maps.google.com" (url li)
            || Py.contains "google.com/maps" (url li)); cbn; auto.
Qed.

Lemma classify_stores_one li sm :
  stored (snd (_classify_and_store_link li sm)) = S (stored sm).
Proof.
  unfold _classify_and_store_link, stored.
  destruct (String.eqb _ _); [cbn; rewrite length_app; cbn; lia|].
  destruct (existsb _ Discoverer.social_domains);
    [cbn; rewrite length_app; cbn; lia|].
  destruct (Py.contains "maps.google.com" (url li)
            || Py.contains "google.com/maps" (url li));
    cbn; rewrite length_app; cbn; lia.
Qed.

Lemma process_link_sitemap d s li :
  sitemap (process_link cfg d s li)
  = snd (_classify_and_store_link li (sitemap s)).
Proof.
  unfold process_link.
  destruct (_classify_and_store_link li (sitemap s)) as [li' sm].
  destruct (bool_decide (link_type li' = internal)
            && negb (bool_decide (url li' ∈ discovered_urls s))
            && (d <? MAX_CRAWL_DEPTH cfg)); reflexivity.
Qed.

(** What every classification step keeps, the whole page keeps. *)
Lemma process_links_sitemap_ind (P : SiteMap -> Prop) d links s :
  (forall li sm, P sm -> P (snd (_classify_and_store_link li sm))) ->
  P (sitemap s) -> P (sitemap (process_links cfg d s links)).
Proof.
  intros Hstep. revert s.
  induction links as [|li rest IH]; intros s Hs; [exact Hs|].
  unfold process_links. cbn [fold_left].
  apply IH. rewrite process_link_sitemap. apply Hstep. exact Hs.
Qed.

Lemma process_links_stored d links s :
  stored (sitemap (process_links cfg d s links))
  = stored (sitemap s) + length links.
Proof.
  revert s. induction links as [|li rest IH]; intros s; [cbn; lia|].
  unfold process_links. cbn [fold_left].
  fold (process_links cfg d (process_link cfg d s li) rest).
  rewrite IH, process_link_sitemap, classify_stores_one. cbn [length]. lia.
Qed.

(** A task appended while a page at depth [d] is processed has depth
    [d + 1], and [d] is below the depth limit. *)
Lemma process_links_appended d links s t :
  t ∈ appended (process_links cfg d s links) ->
  t ∈ appended s \/ (t.2 = d + 1 /\ d < MAX_CRAWL_DEPTH cfg).
Proof.
  revert s. induction links as [|li rest IH]; intros s; [now left|].
  unfold process_links. cbn [fold_left].
  fold (process_links cfg d (process_link cfg d s li) rest).
  intros Hin. destruct (IH _ Hin) as [Hold|Hnew]; [|now right].
  revert Hold. unfold process_link.
  destruct (_classify_and_store_link li (sitemap s)) as [li' sm].
  destruct (bool_decide (link_type li' = internal)
            && negb (bool_decide (url li' ∈ discovered_urls s))
            && (d <? MAX_CRAWL_DEPTH cfg)) eqn:Hc; cbn [appended].
  - intros Ht. apply elem_of_app in Ht as [Ht|Ht]; [now left|].
    apply list_elem_of_singleton in Ht. subst t. right.
    apply andb_prop in Hc as [_ Hd]. apply Nat.ltb_lt in Hd. split; [reflexivity|exact Hd].
  - intros Ht. now left.
Qed.

(** The two ways an iteration can end: the task is only popped (too
    deep, or no content), or its page is fetched and processed. *)
Lemma loop_body_cases s s' u d q :
  url_queue s = (u, d) :: q ->
  loop_body cfg urljoin find_all_a net s = Ok s' ->
  let s1 := {| discovered_urls := discovered_urls s;
               url_queue := q;
               sitemap := sitemap s;
               appended := appended s;
               popped := popped s ++ [(u, d)] |} in
  s' = s1 \/
  (d <= MAX_CRAWL_DEPTH cfg /\
   exists html links,
     fetched_html cfg net u = Some html /\
     _extract_all_links_from_page urljoin find_all_a html u d = Ok links /\
     s' = {| discovered_urls := discovered_urls (process_links cfg d s1 links);
             url_queue := url_queue (process_links cfg d s1 links);
             sitemap := update_statistics
                          (sitemap (process_links cfg d s1 links))
                          (length links) d;
             appended := appended (process_links cfg d s1 links);
             popped := popped (process_links cfg d s1 links) |}).
Proof.
  intros Hq. unfold loop_body. rewrite Hq.
  destruct (MAX_CRAWL_DEPTH cfg <? d) eqn:Hd; [intros [= <-]; now left|].
  apply Nat.ltb_ge in Hd.
  destruct (fetched_html cfg net u) as [html|] eqn:Hf; [|intros [= <-]; now left].
  destruct (_extract_all_links_from_page urljoin find_all_a html u d)
    as [links|e] eqn:Hx; cbn [bind]; [|discriminate].
  intros [= <-]. right. split; [exact Hd|].
  exists html, links. split_and!; (reflexivity || assumption).
Qed.

(** *** Depth *)

Lemma depth_invariant frontier main_url_ s :
  reachable cfg urljoin find_all_a net frontier main_url_ s ->
  Forall (fun t => t.2 <= MAX_CRAWL_DEPTH cfg) (appended s) /\
  crawl_depth_reached (sitemap s) <= MAX_CRAWL_DEPTH cfg.
Proof.
  induction 1 as [|s s' Hreach [IHa IHd] Htest Hbody].
  - cbn. split; [|lia]. apply Forall_singleton. cbn. lia.
  - destruct (loop_test_head cfg s Htest) as [(u & d & q & Hq) _].
    destruct (loop_body_cases s s' u d q Hq Hbody)
      as [-> | (Hd & html & links & _ & _ & ->)]; [split; assumption|].
    cbn [appended sitemap]. split.
    + apply Forall_forall. intros t Ht.
      apply process_links_appended in Ht as [Ht|[Ht Hlt]].
      * rewrite Forall_forall in IHa. exact (IHa t Ht).
      * lia.
    + cbn [update_statistics crawl_depth_reached].
      assert (crawl_depth_reached
                (sitemap (process_links cfg d
                   {| discovered_urls := discovered_urls s; url_queue := q;
                      sitemap := sitemap s; appended := appended s;
                      popped := popped s ++ [(u, d)] |} links))
              = crawl_depth_reached (sitemap s)) as ->.
      { apply (process_links_sitemap_ind
                 (fun sm => crawl_depth_reached sm = crawl_depth_reached (sitemap s))).
        - intros li sm Hsm.
          destruct (classify_keeps li sm) as (_ & _ & ->). exact Hsm.
        - reflexivity. }
      lia.
Qed.

(** X1: in a crawl started by a fresh discoverer no task deeper than
    [MAX_CRAWL_DEPTH] is ever appended, queued or dequeued, and the
    depth the site map reports stays within the limit. *)
Theorem crawl_depth_bounded main_url_ s :
  reachable cfg urljoin find_all_a net fresh_frontier main_url_ s ->
  Forall (fun t => t.2 <= MAX_CRAWL_DEPTH cfg) (appended s) /\
  Forall (fun t => t.2 <= MAX_CRAWL_DEPTH cfg) (url_queue s) /\
  Forall (fun t => t.2 <= MAX_CRAWL_DEPTH cfg) (popped s) /\
  crawl_depth_reached (sitemap s) <= MAX_CRAWL_DEPTH cfg.
Proof.
  intros Hreach.
  destruct (depth_invariant _ _ _ Hreach) as [Ha Hd].
  pose proof (fifo_invariant cfg urljoin find_all_a net _ _ _ Hreach) as Hfifo.
  cbn in Hfifo. rewrite Hfifo in Ha. apply Forall_app in Ha as [Hp Hq].
  rewrite Hfifo. split_and!; try assumption.
  apply Forall_app. split; assumption.
Qed.

(** *** Dequeued pages *)

(** While the loop goes on, the dequeued tasks are fewer than the
    discovered URLs, which are fewer than the budget. *)
Lemma popped_below_budget main_url_ s :
  reachable cfg urljoin find_all_a net fresh_frontier main_url_ s ->
  loop_test cfg s = true ->
  S (length (popped s)) < MAX_PAGES_PER_SITE cfg.
Proof.
  intros Hreach Htest.
  destruct (loop_test_head cfg s Htest) as [(u & d & q & Hq) Hlt].
  pose proof (fifo_invariant cfg urljoin find_all_a net _ _ _ Hreach) as Hfifo.
  destruct (dedup_invariant cfg urljoin find_all_a net _ _ _ Hreach) as [Hnd Hd].
  cbn in Hfifo, Hd. rewrite union_empty_r_L in Hd.
  rewrite Hd, size_list_to_set, length_fmap in Hlt by exact Hnd.
  rewrite Hfifo, Hq, length_app in Hlt. cbn [length] in Hlt. lia.
Qed.

(** X2: a crawl started by a fresh discoverer dequeues at most
    [MAX_PAGES_PER_SITE] tasks, and never the same URL twice: it
    fetches no more pages than the budget allows, each once. *)
Theorem at_most_budget_pages_dequeued main_url_ s :
  reachable cfg urljoin find_all_a net fresh_frontier main_url_ s ->
  length (popped s) <= MAX_PAGES_PER_SITE cfg /\
  NoDup (popped s).*1.
Proof.
  intros Hreach. split.
  - destruct Hreach as [|s0 s Hreach0 Htest Hbody]; [cbn; lia|].
    pose proof (popped_below_budget _ _ Hreach0 Htest) as Hlt.
    destruct (loop_test_head cfg s0 Htest) as [(u & d & q & Hq) _].
    destruct (loop_body_effect cfg urljoin find_all_a net s0 s u d q Hq Hbody)
      as (new & _ & _ & _ & Hp & _).
    rewrite Hp, length_app. cbn [length]. lia.
  - pose proof (fifo_invariant cfg urljoin find_all_a net _ _ _ Hreach) as Hfifo.
    destruct (dedup_invariant cfg urljoin find_all_a net _ _ _ Hreach) as [Hnd _].
    cbn in Hfifo. rewrite Hfifo, fmap_app in Hnd.
    apply NoDup_app in Hnd as [Hnd _]. exact Hnd.
Qed.

Lemma crawl_loop_within_budget main_url_ fuel s :
  reachable cfg urljoin find_all_a net fresh_frontier main_url_ s ->
  MAX_PAGES_PER_SITE cfg - S (length (popped s)) <= fuel ->
  crawl_loop cfg urljoin find_all_a net fuel s <> None.
Proof.
  revert s. induction fuel as [|fuel IH]; intros s Hreach Hfuel; cbn [crawl_loop].
  - destruct (loop_test cfg s) eqn:Htest; [|discriminate].
    pose proof (popped_below_budget _ _ Hreach Htest). lia.
  - destruct (loop_test cfg s) eqn:Htest; [|discriminate].
    destruct (loop_body cfg urljoin find_all_a net s) as [s1|e] eqn:Hbody;
      [|discriminate].
    apply IH; [exact (reach_step _ _ _ _ _ _ s s1 Hreach Htest Hbody)|].
    destruct (loop_test_head cfg s Htest) as [(u & d & q & Hq) _].
    destruct (loop_body_effect cfg urljoin find_all_a net s s1 u d q Hq Hbody)
      as (new & _ & _ & _ & Hp & _).
    rewrite Hp, length_app. cbn [length]. lia.
Qed.

(** X3: whatever the site, a crawl started by a fresh discoverer ends
    within [MAX_PAGES_PER_SITE - 1] iterations of its loop. *)
Theorem crawl_ends_within_budget main_url_ :
  discover_all_links cfg urljoin find_all_a net (MAX_PAGES_PER_SITE cfg - 1)
                     fresh_frontier main_url_ <> None.
Proof.
  unfold discover_all_links.
  pose proof (crawl_loop_within_budget main_url_ (MAX_PAGES_PER_SITE cfg - 1)
                (crawl_start fresh_frontier main_url_)
                (reach_start _ _ _ _ _ _)) as Hloop.
  destruct (crawl_loop cfg urljoin find_all_a net _ _) as [[s|e]|];
    [discriminate|discriminate|].
  exfalso. apply Hloop; [|reflexivity]. cbn. lia.
Qed.

(** *** The discovered set *)

Lemma main_url_discovered frontier main_url_ s :
  reachable cfg urljoin find_all_a net frontier main_url_ s ->
  main_url_ ∈ discovered_urls s /\ fst frontier ⊆ discovered_urls s.
Proof.
  induction 1 as [|s s' Hreach [IHm IHf] Htest Hbody]; [cbn; set_solver|].
  destruct (loop_test_head cfg s Htest) as [(u & d & q & Hq) _].
  destruct (loop_body_effect cfg urljoin find_all_a net s s' u d q Hq Hbody)
    as (new & _ & _ & Hd & _).
  rewrite Hd. set_solver.
Qed.

(** X4: the discovered set only grows: an iteration of the loop keeps
    every discovered URL, the main URL and the URLs the discoverer
    knew before are always in it, and the site map a crawl returns
    counts at least one page. *)
Theorem discovered_set_grows frontier main_url_ :
  (forall s,
      reachable cfg urljoin find_all_a net frontier main_url_ s ->
      main_url_ ∈ discovered_urls s /\
      fst frontier ⊆ discovered_urls s /\
      forall s',
        loop_test cfg s = true ->
        loop_body cfg urljoin find_all_a net s = Ok s' ->
        discovered_urls s ⊆ discovered_urls s') /\
  (forall fuel s sm,
      discover_all_links cfg urljoin find_all_a net fuel frontier main_url_
      = Some (Ok (s, sm)) ->
      1 <= total_pages sm /\ main_url_ ∈ discovered_urls s).
Proof.
  split.
  - intros s Hreach.
    destruct (main_url_discovered _ _ _ Hreach) as [Hm Hf].
    split_and!; [exact Hm|exact Hf|].
    intros s' Htest Hbody.
    destruct (loop_test_head cfg s Htest) as [(u & d & q & Hq) _].
    destruct (loop_body_effect cfg urljoin find_all_a net s s' u d q Hq Hbody)
      as (new & _ & _ & Hd & _).
    rewrite Hd. set_solver.
  - intros fuel s sm. unfold discover_all_links.
    destruct (crawl_loop cfg urljoin find_all_a net fuel
                (crawl_start frontier main_url_)) as [[s1|e]|] eqn:Hloop;
      [|discriminate|discriminate].
    intros [= <- <-]. cbn [finalize total_pages].
    destruct (crawl_loop_reach cfg urljoin find_all_a net _ _ _ _ _
                (reach_start _ _ _ _ _ _) Hloop) as [Hreach _].
    destruct (main_url_discovered _ _ _ Hreach) as [Hm _].
    split; [|exact Hm].
    destruct (size (discovered_urls s1)) eqn:Hsize; [|lia].
    apply size_empty_inv in Hsize. set_solver.
Qed.

(** X5: a site whose main page yields no content still gives a site
    map: one page counted, no link, the lowest complexity tier. *)
Theorem unfetched_main_page_counts_one main_url_ :
  fetched_html cfg net main_url_ = None ->
  exists s sm,
    discover_all_links cfg urljoin find_all_a net 1 fresh_frontier main_url_
    = Some (Ok (s, sm)) /\
    total_pages sm = 1 /\ total_links sm = 0 /\
    internal_links sm = [] /\ external_links sm = [] /\
    social_links sm = [] /\ contact_links sm = [] /\
    website_structure_complexity sm = Basic.
Proof.
  intros Hfetch. unfold discover_all_links. cbn [crawl_loop].
  destruct (loop_test cfg (crawl_start fresh_frontier main_url_)) eqn:Htest.
  - assert (Hbody : loop_body cfg urljoin find_all_a net
                      (crawl_start fresh_frontier main_url_)
                    = Ok {| discovered_urls := {[ main_url_ ]} ∪ ∅;
                            url_queue := [];
                            sitemap := SiteMap_new
                              (Py.replace "www." "" (Urlparse.netloc main_url_))
                              main_url_;
                            appended := [(main_url_, 0)];
                            popped := [(main_url_, 0)] |}).
    { unfold loop_body. cbn [crawl_start url_queue fresh_frontier snd app].
      assert ((MAX_CRAWL_DEPTH cfg <? 0) = false) as -> by (apply Nat.ltb_ge; lia).
      rewrite Hfetch. reflexivity. }
    rewrite Hbody.
    assert (loop_test cfg
              {| discovered_urls := {[ main_url_ ]} ∪ ∅; url_queue := [];
                 sitemap := SiteMap_new
                   (Py.replace "www." "" (Urlparse.netloc main_url_)) main_url_;
                 appended := [(main_url_, 0)];
                 popped := [(main_url_, 0)] |} = false) as -> by reflexivity.
    eexists. eexists. split; [reflexivity|].
    cbn [finalize total_pages total_links internal_links external_links
         social_links contact_links website_structure_complexity sitemap
         discovered_urls SiteMap_new].
    rewrite union_empty_r_L, size_singleton. split_and!; reflexivity.
  - eexists. eexists. split; [reflexivity|].
    cbn [finalize total_pages total_links internal_links external_links
         social_links contact_links website_structure_complexity sitemap
         discovered_urls SiteMap_new crawl_start fresh_frontier fst].
    rewrite union_empty_r_L, size_singleton. split_and!; reflexivity.
Qed.

(** *** The category stores *)

(** X6: every link extracted from a processed page is stored in
    exactly one of the four category stores: at each head of the loop
    [total_links] is the number of internal, external, social and
    direct map links stored. *)
Theorem every_link_stored_once frontier main_url_ s :
  reachable cfg urljoin find_all_a net frontier main_url_ s ->
  total_links (sitemap s) = stored (sitemap s).
Proof.
  induction 1 as [|s s' Hreach IH Htest Hbody]; [reflexivity|].
  destruct (loop_test_head cfg s Htest) as [(u & d & q & Hq) _].
  destruct (loop_body_cases s s' u d q Hq Hbody)
    as [-> | (_ & html & links & _ & _ & ->)]; [exact IH|].
  cbn [sitemap update_statistics total_links].
  change (stored (update_statistics ?sm ?n ?k)) with (stored sm).
  rewrite process_links_stored. cbn [sitemap].
  assert (total_links
            (sitemap (process_links cfg d
               {| discovered_urls := discovered_urls s; url_queue := q;
                  sitemap := sitemap s; appended := appended s;
                  popped := popped s ++ [(u, d)] |} links))
          = total_links (sitemap s)) as ->.
  { apply (process_links_sitemap_ind
             (fun sm => total_links sm = total_links (sitemap s))).
    - intros li sm Hsm. destruct (classify_keeps li sm) as (_ & -> & _). exact Hsm.
    - reflexivity. }
  lia.
Qed.

Lemma classify_keeps_sorted li sm :
  sitemap_sorted sm -> sitemap_sorted (snd (_classify_and_store_link li sm)).
Proof.
  intros (Hi & He & Hs & Hc & Hm).
  unfold _classify_and_store_link, sitemap_sorted. cbv zeta.
  destruct (String.eqb _ _).
  - destruct (any_in Discoverer.contact_keywords (Py.lower (url li))) eqn:Hhit;
      cbn [snd SiteMap_store internal_links external_links social_links
           contact_links google_maps_info maps_links];
      (split_and!; try assumption;
       [ apply Forall_app; split; [exact Hi|];
         apply Forall_singleton; reflexivity | ]).
    + apply Forall_app. split.
      * eapply Forall_impl; [exact Hc|]. cbn beta. intros x (? & ? & ?).
        split_and!; [assumption|assumption|]. apply elem_of_app. now left.
      * apply Forall_singleton.
        split_and!; [reflexivity|reflexivity|].
        apply elem_of_app. right. apply list_elem_of_singleton. reflexivity.
    + eapply Forall_impl; [exact Hc|]. cbn beta. intros x (? & ? & ?).
      split_and!; [assumption|assumption|]. apply elem_of_app. now left.
  - destruct (existsb _ Discoverer.social_domains).
    + cbn [snd SiteMap_store internal_links external_links social_links
           contact_links google_maps_info maps_links].
      split_and!; try assumption.
      apply Forall_app. split; [exact Hs|]. apply Forall_singleton. reflexivity.
    + destruct (Py.contains "maps.google.com" (url li)
                || Py.contains "google.com/maps" (url li)) eqn:Hmap;
        cbn [snd SiteMap_store internal_links external_links social_links
             contact_links google_maps_info maps_links];
        split_and!; try assumption.
      * apply Forall_app. split; [exact Hm|]. apply Forall_singleton. exact Hmap.
      * apply Forall_app. split; [exact He|]. apply Forall_singleton. reflexivity.
Qed.

(** X7: the category stores stay sorted through the crawl: the
    internal, external and social lists hold links of their own type
    only, every contact link is an internal link flagged contact that
    is also in the internal list, and every direct map link shows one
    of the two forms the crawl tests. *)
Theorem category_lists_sorted frontier main_url_ s :
  reachable cfg urljoin find_all_a net frontier main_url_ s ->
  sitemap_sorted (sitemap s).
Proof.
  induction 1 as [|s s' Hreach IH Htest Hbody].
  - cbn. unfold sitemap_sorted. cbn. split_and!; constructor.
  - destruct (loop_test_head cfg s Htest) as [(u & d & q & Hq) _].
    destruct (loop_body_cases s s' u d q Hq Hbody)
      as [-> | (_ & html & links & _ & _ & ->)]; [exact IH|].
    cbn [sitemap].
    change (sitemap_sorted (update_statistics ?sm ?n ?k)) with (sitemap_sorted sm).
    apply process_links_sitemap_ind; [|exact IH].
    intros li sm. apply classify_keeps_sorted.
Qed.

End CrawlMore.

(** *** The properties on the sample sites *)

Lemma crawl_depth_bounded_witness :
  exists s,
    url_queue s = [("https://example.com/about", 1);
                   ("https://example.com/contact", 1)] /\
    Forall (fun t => t.2 <= 45) (url_queue s) /\
    crawl_depth_reached (sitemap s) <= 45.
Proof.
  destruct two_link_site_first_step as (s & Hreach & _ & Hq & _).
  exists s. split; [exact Hq|].
  destruct (crawl_depth_bounded config Sample.urljoin two_link_site
              Sample.always_200 "https://example.com/" s Hreach)
    as (_ & Hqueue & _ & Hd).
  split; assumption.
Defined.

Lemma at_most_budget_pages_dequeued_witness :
  exists s,
    popped s = [("https://example.com/", 0)] /\
    length (popped s) <= 1000 /\ NoDup (popped s).*1.
Proof.
  destruct two_link_site_first_step as (s & Hreach & Hp & _).
  exists s. split; [exact Hp|].
  exact (at_most_budget_pages_dequeued config Sample.urljoin two_link_site
           Sample.always_200 "https://example.com/" s Hreach).
Defined.

Lemma discovered_set_grows_witness :
  exists s,
    popped s = [("https://example.com/", 0)] /\
    "https://example.com/" ∈ discovered_urls s.
Proof.
  destruct two_link_site_first_step as (s & Hreach & Hp & _).
  exists s. split; [exact Hp|].
  exact (proj1 (proj1 (discovered_set_grows config Sample.urljoin two_link_site
                         Sample.always_200 fresh_frontier "https://example.com/")
                  s Hreach)).
Defined.

Lemma unfetched_main_page_counts_one_witness :
  fetched_html config unreachable_site "https://example.com/" = None /\
  exists s sm,
    discover_all_links config Sample.urljoin two_link_site unreachable_site 1
                       fresh_frontier "https://example.com/"
    = Some (Ok (s, sm)) /\
    total_pages sm = 1 /\ total_links sm = 0.
Proof.
  split; [reflexivity|].
  destruct (unfetched_main_page_counts_one config Sample.urljoin two_link_site
              unreachable_site "https://example.com/" eq_refl)
    as (s & sm & Hrun & Hpages & Hlinks & _).
  exists s, sm. split_and!; assumption.
Defined.

Lemma every_link_stored_once_witness :
  exists s,
    popped s = [("https://example.com/", 0)] /\
    total_links (sitemap s) = stored (sitemap s).
Proof.
  destruct two_link_site_first_step as (s & Hreach & Hp & _).
  exists s. split; [exact Hp|].
  exact (every_link_stored_once config Sample.urljoin two_link_site
           Sample.always_200 fresh_frontier "https://example.com/" s Hreach).
Defined.

Lemma category_lists_sorted_witness :
  exists s,
    popped s = [("https://example.com/", 0)] /\
    sitemap_sorted (sitemap s).
Proof.
  destruct two_link_site_first_step as (s & Hreach & Hp & _).
  exists s. split; [exact Hp|].
  exact (category_lists_sorted config Sample.urljoin two_link_site
           Sample.always_200 fresh_frontier "https://example.com/" s Hreach).
Defined.

(** * Further properties of the two retry loops *)

(** ** Substrings *)

Lemma append_assoc_str (a b c : string) : (a +:+ b) +:+ c = a +:+ (b +:+ c).
Proof.
  induction a as [|x a IH]; [reflexivity|].
  change (String x ((a +:+ b) +:+ c) = String x (a +:+ (b +:+ c))).
  now rewrite IH.
Qed.

Lemma prefix_append p s :
  String.prefix p s = true <-> exists b, s = p +:+ b.
Proof.
  revert s. induction p as [|x p IH]; intros s.
  - split; [intros _; exists s; reflexivity|intros _; now destruct s].
  - destruct s as [|y s]; cbn [String.prefix].
    + split; [discriminate|]. intros [b Hb]. discriminate Hb.
    + destruct (ascii_dec x y) as [->|Hne].
      * rewrite IH. split; intros [b Hb]; exists b.
        -- change (String y s = String y (p +:+ b)). now rewrite Hb.
        -- change (String y s = String y (p +:+ b)) in Hb. now injection Hb.
      * split; [discriminate|]. intros [b Hb].
        change (String y s = String x (p +:+ b)) in Hb.
        injection Hb as Hy _. now subst.
Qed.

(** [sub in s] holds exactly when [s] is some text, [sub], some text. *)
Lemma contains_append sub s :
  Py.contains sub s = true <-> exists a b, s = a +:+ sub +:+ b.
Proof.
  split.
  - induction s as [|c s IH]; cbn [Py.contains];
      destruct (String.prefix sub _) eqn:Hp.
    + intros _. apply prefix_append in Hp as [b Hb]. exists EmptyString, b. exact Hb.
    + discriminate.
    + intros _. apply prefix_append in Hp as [b Hb]. exists EmptyString, b. exact Hb.
    + intros H. destruct (IH H) as (a & b & ->). exists (String c a), b. reflexivity.
  - intros (a & b & ->). induction a as [|c a IH].
    + change (EmptyString +:+ sub +:+ b) with (sub +:+ b).
      assert (Hp : String.prefix sub (sub +:+ b) = true)
        by (apply prefix_append; now exists b).
      destruct (sub +:+ b); cbn [Py.contains]; now rewrite Hp.
    + change (String c a +:+ sub +:+ b) with (String c (a +:+ sub +:+ b)).
      cbn [Py.contains]. rewrite IH.
      now destruct (String.prefix sub _).
Qed.

(** A text that holds [p1 + p2] holds [p2]. *)
Lemma contains_tail p1 p2 s :
  Py.contains (p1 +:+ p2) s = true -> Py.contains p2 s = true.
Proof.
  intros H. apply contains_append in H as (a & b & ->).
  apply contains_append. exists (a +:+ p1), b.
  now rewrite !append_assoc_str.
Qed.

(** ** Literal patterns *)

Lemma match_here_literal p s :
  Re.match_here false (literal p) s = String.prefix p s.
Proof.
  revert s. induction p as [|x p IH]; intros s; [now destruct s|].
  destruct s as [|y s]; [reflexivity|].
  change (literal (String x p)) with ((Re.Lit x, false) :: literal p).
  cbn [Re.match_here Re.atom_matches String.prefix].
  destruct (ascii_dec x y) as [->|Hne].
  - rewrite Ascii.eqb_refl, IH. now destruct (String.prefix p s).
  - apply Ascii.eqb_neq in Hne. now rewrite Hne.
Qed.

(** Searching for a literal pattern is substring containment. *)
Lemma search_literal p s :
  Re.search_regex false [literal p] s = Py.contains p s.
Proof.
  induction s as [|c s IH]; cbn [Re.search_regex Py.contains];
    unfold Re.match_alt; cbn [existsb]; rewrite match_here_literal, orb_false_r.
  - reflexivity.
  - now rewrite IH.
Qed.

(** What [detect_page_errors] finds, as substring tests. *)
Lemma detect_page_errors_contains html :
  detect_page_errors html
  = Py.contains "captcha" (Py.lower html)
    || Py.contains "security check" (Py.lower html).
Proof.
  rewrite detect_page_errors_lower_only. unfold Re.search.
  change (Re.compile "captcha") with [literal "captcha"].
  change (Re.compile "security check") with [literal "security check"].
  now rewrite !search_literal.
Qed.

Lemma detected_is_retryable status_code html :
  detect_page_errors html = true -> should_retry_fetch status_code html = true.
Proof.
  intros Hd. unfold should_retry_fetch. rewrite Hd.
  now destruct (existsb _ _).
Qed.

Lemma detected_error_type html :
  detect_page_errors html = true -> In (error_type_of html) detected_error_types.
Proof.
  rewrite detect_page_errors_contains. intros Hd. unfold error_type_of.
  rewrite Hd. unfold detected_error_types.
  repeat (destruct (Py.contains _ html); [cbn; tauto|]).
  cbn; tauto.
Qed.

Lemma handle_fetch_error_detected status_code html attempt max_retries :
  detect_page_errors html = true ->
  attempt < max_retries ->
  handle_fetch_error status_code html attempt max_retries
  = [EvRetryable (error_type_of html) attempt; EvSleep (2 ^ attempt) true].
Proof.
  intros Hd Hlt. unfold handle_fetch_error.
  rewrite (detected_is_retryable _ _ Hd).
  apply Nat.ltb_lt in Hlt. now rewrite Hlt.
Qed.

Lemma handle_fetch_error_no_request status_code html attempt max_retries :
  List.filter is_request (handle_fetch_error status_code html attempt max_retries)
  = [].
Proof.
  unfold handle_fetch_error.
  now destruct (should_retry_fetch status_code html && (attempt <? max_retries)).
Qed.

(** ** [fetch_with_error_handling] *)

Lemma fetch_attempts_first_clean responses max_retries len : forall start,
  match fst (fetch_attempts responses max_retries (seq start len)) with
  | (Some html, Some status_code) =>
      exists k,
        start <= k < start + len /\
        responses k = Response status_code html /\
        detect_page_errors html = false /\
        (forall j, start <= j < k -> failed_attempt (responses j) = true) /\
        requests_made (snd (fetch_attempts responses max_retries (seq start len)))
        = S (k - start)
  | (None, None) =>
      (forall j, start <= j < start + len -> failed_attempt (responses j) = true) /\
      requests_made (snd (fetch_attempts responses max_retries (seq start len)))
      = len
  | _ => False
  end.
Proof.
  induction len as [|len IH]; intros start; cbn [seq fetch_attempts].
  - cbn. split; [intros j Hj; lia|reflexivity].
  - specialize (IH (S start)).
    destruct (responses start) as [status_code html|] eqn:Hresp.
    + destruct (detect_page_errors html) eqn:Hd.
      * destruct (fetch_attempts responses max_retries (seq (S start) len))
          as [[[h|] [st|]] evs]; cbn [fst snd] in *; try exact IH.
        -- destruct IH as (k & Hk & Hr & Hc & Hbefore & Hreq).
           exists k. split_and!; [lia|lia|exact Hr|exact Hc| |].
           ++ intros j Hj. destruct (decide (j = start)) as [->|Hne].
              ** rewrite Hresp. exact Hd.
              ** apply Hbefore. lia.
           ++ unfold requests_made in *. cbn [List.filter is_request length].
              rewrite List.filter_app, handle_fetch_error_no_request.
              cbn [app]. rewrite Hreq. f_equal. lia.
        -- destruct IH as [Hall Hreq]. split.
           ++ intros j Hj. destruct (decide (j = start)) as [->|Hne].
              ** rewrite Hresp. exact Hd.
              ** apply Hall. lia.
           ++ unfold requests_made in *. cbn [List.filter is_request length].
              rewrite List.filter_app, handle_fetch_error_no_request.
              cbn [app]. now rewrite Hreq.
      * cbn [fst snd]. exists start.
        split_and!; [lia|lia|exact Hresp|exact Hd|intros j Hj; lia|].
        rewrite Nat.sub_diag. reflexivity.
    + destruct (fetch_attempts responses max_retries (seq (S start) len))
        as [[[h|] [st|]] evs]; cbn [fst snd] in *; try exact IH.
      * destruct IH as (k & Hk & Hr & Hc & Hbefore & Hreq).
        exists k. split_and!; [lia|lia|exact Hr|exact Hc| |].
        -- intros j Hj. destruct (decide (j = start)) as [->|Hne].
           ++ now rewrite Hresp.
           ++ apply Hbefore. lia.
        -- unfold requests_made in *. cbn [List.filter is_request length].
           rewrite List.filter_app.
           assert (List.filter is_request
                     (if start <? max_retries - 1
                      then [EvSleep (2 ^ start) true] else []) = []) as ->
             by now destruct (start <? max_retries - 1).
           cbn [app]. rewrite Hreq. f_equal. lia.
      * destruct IH as [Hall Hreq]. split.
        -- intros j Hj. destruct (decide (j = start)) as [->|Hne].
           ++ now rewrite Hresp.
           ++ apply Hall. lia.
        -- unfold requests_made in *. cbn [List.filter is_request length].
           rewrite List.filter_app.
           assert (List.filter is_request
                     (if start <? max_retries - 1
                      then [EvSleep (2 ^ start) true] else []) = []) as ->
             by now destruct (start <? max_retries - 1).
           cbn [app]. now rewrite Hreq.
Qed.

(** X8: [fetch_with_error_handling] returns the first response in
    which no error signature is found, with the status code that
    response carries, whatever it is, after one request per attempt up
    to it; it returns [(None, None)] exactly when each of the
    [max_retries] attempts failed or showed a signature, after
    [max_retries] requests.  No other shape of result occurs. *)
Theorem fetch_returns_first_clean_response responses max_retries :
  match fst (fetch_with_error_handling responses max_retries) with
  | (Some html, Some status_code) =>
      exists k,
        k < max_retries /\
        responses k = Response status_code html /\
        detect_page_errors html = false /\
        (forall j, j < k -> failed_attempt (responses j) = true) /\
        requests_made (snd (fetch_with_error_handling responses max_retries))
        = S k
  | (None, None) =>
      (forall j, j < max_retries -> failed_attempt (responses j) = true) /\
      requests_made (snd (fetch_with_error_handling responses max_retries))
      = max_retries
  | _ => False
  end.
Proof.
  unfold fetch_with_error_handling.
  pose proof (fetch_attempts_first_clean responses max_retries max_retries 0) as H.
  destruct (fst (fetch_attempts responses max_retries (seq 0 max_retries)))
    as [[html|] [status_code|]]; try exact H.
  - destruct H as (k & Hk & Hr & Hc & Hbefore & Hreq).
    exists k. split_and!; [lia|exact Hr|exact Hc| |].
    + intros j Hj. apply Hbefore. lia.
    + rewrite Hreq. f_equal. lia.
  - destruct H as [Hall Hreq]. split; [|exact Hreq].
    intros j Hj. apply Hall. lia.
Qed.

(** The events a loop over attempts below [max_retries] can produce. *)
Lemma fetch_attempts_events responses max_retries attempts :
  Forall (fun a => a < max_retries) attempts ->
  Forall (fun e =>
            match e with
            | EvRequest a => a < max_retries
            | EvSleep s jitter =>
                jitter = true /\ exists a, a < max_retries /\ s = 2 ^ a
            | EvRetryable error_type a =>
                a < max_retries /\ In error_type detected_error_types
            | EvPermanent _ _ => False
            end)
         (snd (fetch_attempts responses max_retries attempts)).
Proof.
  induction attempts as [|attempt rest IH]; intros Hall; [constructor|].
  apply Forall_cons in Hall as [Hlt Hrest]. specialize (IH Hrest).
  cbn [fetch_attempts].
  destruct (responses attempt) as [status_code html|].
  - destruct (detect_page_errors html) eqn:Hd.
    + destruct (fetch_attempts responses max_retries rest) as [r evs].
      cbn [snd] in *. rewrite (handle_fetch_error_detected _ _ _ _ Hd Hlt).
      repeat apply Forall_cons_2; try exact IH.
      * exact Hlt.
      * split; [exact Hlt|]. apply detected_error_type. exact Hd.
      * split; [reflexivity|]. exists attempt. split; [exact Hlt|reflexivity].
    + cbn [snd]. apply Forall_singleton. exact Hlt.
  - destruct (fetch_attempts responses max_retries rest) as [r evs].
    cbn [snd] in *. apply Forall_cons_2; [exact Hlt|].
    apply Forall_app. split; [|exact IH].
    destruct (attempt <? max_retries - 1); [|constructor].
    apply Forall_singleton. split; [reflexivity|].
    exists attempt. split; [exact Hlt|reflexivity].
Qed.

(** X9: in the loop of [fetch_with_error_handling] the handler never
    reaches its permanent branch and never names the types
    ["404 Not Found"], ["503 Service Unavailable"] or ["UNKNOWN"]:
    every event is a request, a wait of [2 ^ attempt] seconds plus
    jitter, or a retryable error of one of six types. *)
Theorem fetch_loop_never_permanent responses max_retries :
  Forall (fun e =>
            match e with
            | EvRequest a => a < max_retries
            | EvSleep s jitter =>
                jitter = true /\ exists a, a < max_retries /\ s = 2 ^ a
            | EvRetryable error_type a =>
                a < max_retries /\ In error_type detected_error_types
            | EvPermanent _ _ => False
            end)
         (snd (fetch_with_error_handling responses max_retries)).
Proof.
  unfold fetch_with_error_handling. apply fetch_attempts_events.
  apply Forall_forall. intros a Ha. apply elem_of_seq in Ha. lia.
Qed.

Lemma fetch_attempts_blocked_slept responses max_retries len : forall start,
  start + len <= max_retries ->
  (forall a, start <= a < start + len ->
     exists status_code html,
       responses a = Response status_code html /\
       detect_page_errors html = true) ->
  slept (snd (fetch_attempts responses max_retries (seq start len))) + 2 ^ start
  = 2 ^ (start + len).
Proof.
  induction len as [|len IH]; intros start Hle Hall; cbn [seq fetch_attempts].
  - cbn. now rewrite Nat.add_0_r.
  - destruct (Hall start ltac:(lia)) as (status_code & html & -> & Hd).
    rewrite Hd, (handle_fetch_error_detected _ _ _ _ Hd) by lia.
    specialize (IH (S start) ltac:(lia)).
    destruct (fetch_attempts responses max_retries (seq (S start) len)) as [r evs].
    unfold slept in *. cbn [snd app fold_right] in *.
    replace (start + S len) with (S start + len) by lia.
    rewrite <- IH by (intros a Ha; apply Hall; lia).
    rewrite Nat.pow_succ_r'. lia.
Qed.

Lemma fetch_attempts_failing_slept responses max_retries len : forall start,
  start + S len = max_retries ->
  (forall a, start <= a < max_retries -> responses a = RequestException) ->
  slept (snd (fetch_attempts responses max_retries (seq start (S len))))
  + 2 ^ start
  = 2 ^ (max_retries - 1).
Proof.
  induction len as [|len IH]; intros start Hsum Hall.
  - cbn [seq fetch_attempts]. rewrite (Hall start) by lia.
    assert ((start <? max_retries - 1) = false) as -> by (apply Nat.ltb_ge; lia).
    cbn. f_equal. lia.
  - specialize (IH (S start) ltac:(lia)).
    change (seq start (S (S len))) with (start :: seq (S start) (S len)).
    cbn [fetch_attempts]. rewrite (Hall start) by lia.
    assert ((start <? max_retries - 1) = true) as -> by (apply Nat.ltb_lt; lia).
    destruct (fetch_attempts responses max_retries (seq (S start) (S len)))
      as [r evs].
    unfold slept in *. cbn [snd app fold_right] in *.
    rewrite <- IH by (intros a Ha; apply Hall; lia).
    rewrite Nat.pow_succ_r'. lia.
Qed.

(** X10: when every attempt of [fetch_with_error_handling] shows an
    error signature, the loop waits after each of them, the last
    included, [2 ^ max_retries - 1] seconds in all (jitter apart);
    when every attempt fails with an exception it does not wait after
    the last one and sleeps [2 ^ (max_retries - 1) - 1] seconds. *)
Theorem blocked_page_waits_after_last_attempt responses max_retries :
  ((forall a, a < max_retries ->
      exists status_code html,
        responses a = Response status_code html /\
        detect_page_errors html = true) ->
   slept (snd (fetch_with_error_handling responses max_retries))
   = 2 ^ max_retries - 1) /\
  ((forall a, a < max_retries -> responses a = RequestException) ->
   slept (snd (fetch_with_error_handling responses max_retries))
   = 2 ^ (max_retries - 1) - 1).
Proof.
  unfold fetch_with_error_handling. split; intros Hall.
  - pose proof (fetch_attempts_blocked_slept responses max_retries max_retries 0
                  ltac:(lia)) as H.
    cbn [Nat.add Nat.pow] in H. rewrite <- H; [lia|].
    intros a Ha. apply Hall. lia.
  - destruct max_retries as [|n]; [reflexivity|].
    pose proof (fetch_attempts_failing_slept responses (S n) n 0 ltac:(lia)) as H.
    cbn [Nat.pow] in H. rewrite <- H; [lia|].
    intros a Ha. apply Hall. lia.
Qed.

Lemma blocked_page_waits_after_last_attempt_witness :
  slept (snd (fetch_with_error_handling
                (fun _ => Response 200 "Please solve the captcha") 3)) = 7 /\
  slept (snd (fetch_with_error_handling (fun _ => RequestException) 3)) = 3.
Proof.
  split.
  - apply (proj1 (blocked_page_waits_after_last_attempt
                    (fun _ => Response 200 "Please solve the captcha") 3)).
    intros a _. exists 200%Z, "Please solve the captcha".
    split; [reflexivity|vm_compute; reflexivity].
  - apply (proj2 (blocked_page_waits_after_last_attempt
                    (fun _ => RequestException) 3)).
    intros a _. reflexivity.
Defined.

(** X11: [handle_fetch_error] never names the type
    ["503 Service Unavailable"]: a page with that text also holds
    ["Service Unavailable"], which is tested before it. *)
Theorem error_type_503_never_named status_code html attempt max_retries :
  error_type_of html <> "503 Service Unavailable" /\
  Forall (fun e =>
            match e with
            | EvRetryable error_type _ | EvPermanent error_type _ =>
                error_type <> "503 Service Unavailable"
            | _ => True
            end)
         (handle_fetch_error status_code html attempt max_retries).
Proof.
  assert (Hty : error_type_of html <> "503 Service Unavailable").
  { unfold error_type_of.
    destruct (Py.contains "520: Web server is returning an unknown error" html);
      [discriminate|].
    destruct (Py.contains "Just a moment..." html); [discriminate|].
    destruct (Py.contains "Access Denied" html); [discriminate|].
    destruct (Py.contains "Service Unavailable" html) eqn:Hsu; [discriminate|].
    destruct (Py.contains "Cloudflare" html); [discriminate|].
    destruct (Py.contains "captcha" (Py.lower html)
              || Py.contains "security check" (Py.lower html)); [discriminate|].
    destruct (Py.contains "Not Found" html || Py.contains "Page Not Found" html
              || Py.contains "404 Error" html); [discriminate|].
    destruct (Py.contains "503 Service Unavailable" html) eqn:H503;
      [|discriminate].
    apply (contains_tail "503 " "Service Unavailable") in H503. congruence. }
  split; [exact Hty|]. unfold handle_fetch_error.
  destruct (should_retry_fetch status_code html && (attempt <? max_retries));
    repeat constructor; exact Hty.
Qed.

(** ** [get_with_retry] *)

Section HTTPClientMore.

Variable cfg : EnhancedAnalyzerConfig.

Lemma requests_made_cons_request a evs :
  requests_made (EvRequest a :: evs) = S (requests_made evs).
Proof. reflexivity. Qed.

Lemma requests_made_skip_wait (b : bool) s jitter evs :
  requests_made ((if b then [EvSleep s jitter] else []) ++ evs)
  = requests_made evs.
Proof. now destruct b. Qed.

Lemma get_attempts_first_decisive responses retries len : forall start,
  match fst (get_attempts cfg responses retries (seq start len)) with
  | (Some html, Some status_code) =>
      status_code = 200%Z /\ MIN_HTML_LENGTH cfg < String.length html /\
      exists k,
        start <= k < start + len /\
        responses k = Response 200 html /\
        (forall j, start <= j < k -> inconclusive cfg (responses j) = true) /\
        requests_made (snd (get_attempts cfg responses retries (seq start len)))
        = S (k - start)
  | (None, Some status_code) =>
      In status_code [403; 404; 500; 503]%Z /\
      exists k text,
        start <= k < start + len /\
        responses k = Response status_code text /\
        (forall j, start <= j < k -> inconclusive cfg (responses j) = true) /\
        requests_made (snd (get_attempts cfg responses retries (seq start len)))
        = S (k - start)
  | (None, None) =>
      (forall j, start <= j < start + len ->
         inconclusive cfg (responses j) = true) /\
      requests_made (snd (get_attempts cfg responses retries (seq start len)))
      = len
  | (Some _, None) => False
  end.
Proof.
  induction len as [|len IH]; intros start; cbn [seq get_attempts].
  - cbn. split; [intros j Hj; lia|reflexivity].
  - specialize (IH (S start)).
    assert (Hstep : inconclusive cfg (responses start) = true ->
      match fst (get_attempts cfg responses retries (seq (S start) len)) with
      | (Some html, Some status_code) =>
          status_code = 200%Z /\ MIN_HTML_LENGTH cfg < String.length html /\
          exists k,
            start <= k < start + S len /\
            responses k = Response 200 html /\
            (forall j, start <= j < k -> inconclusive cfg (responses j) = true) /\
            S (requests_made
                 (snd (get_attempts cfg responses retries (seq (S start) len))))
            = S (k - start)
      | (None, Some status_code) =>
          In status_code [403; 404; 500; 503]%Z /\
          exists k text,
            start <= k < start + S len /\
            responses k = Response status_code text /\
            (forall j, start <= j < k -> inconclusive cfg (responses j) = true) /\
            S (requests_made
                 (snd (get_attempts cfg responses retries (seq (S start) len))))
            = S (k - start)
      | (None, None) =>
          (forall j, start <= j < start + S len ->
             inconclusive cfg (responses j) = true) /\
          S (requests_made
               (snd (get_attempts cfg responses retries (seq (S start) len))))
          = S len
      | (Some _, None) => False
      end).
    { intros Hinc.
      assert (Hext : forall k,
                (forall j, S start <= j < k ->
                   inconclusive cfg (responses j) = true) ->
                forall j, start <= j < k ->
                  inconclusive cfg (responses j) = true).
      { intros k Hbefore j Hj. destruct (decide (j = start)) as [->|Hne];
          [exact Hinc|apply Hbefore; lia]. }
      destruct (fst (get_attempts cfg responses retries (seq (S start) len)))
        as [[html|] [status_code|]]; try exact IH.
      - destruct IH as (Hst & Hlen & k & Hk & Hr & Hbefore & Hreq).
        split_and!; [exact Hst|exact Hlen|].
        exists k. split_and!; [lia|lia|exact Hr|exact (Hext k Hbefore)|].
        rewrite Hreq. f_equal. lia.
      - destruct IH as (Hin & k & text & Hk & Hr & Hbefore & Hreq).
        split; [exact Hin|].
        exists k, text. split_and!; [lia|lia|exact Hr|exact (Hext k Hbefore)|].
        rewrite Hreq. f_equal. lia.
      - destruct IH as [Hall Hreq]. split; [|now rewrite Hreq].
        apply Hext. intros j Hj. apply Hall. lia. }
    destruct (responses start) as [status_code text|] eqn:Hresp.
    + destruct ((status_code =? 200)%Z
                && (MIN_HTML_LENGTH cfg <? String.length text)) eqn:Hgood.
      * apply andb_prop in Hgood as [Hs Hl].
        apply Z.eqb_eq in Hs. apply Nat.ltb_lt in Hl. subst status_code.
        cbn [fst snd]. split_and!; [reflexivity|exact Hl|].
        exists start. split_and!; [lia|lia|exact Hresp|intros j Hj; lia|].
        rewrite Nat.sub_diag. reflexivity.
      * destruct (existsb (Z.eqb status_code) [403; 404; 500; 503]%Z) eqn:Hend.
        -- cbn [fst snd]. split.
           ++ apply existsb_exists in Hend as (x & Hx & Heq).
              apply Z.eqb_eq in Heq. now subst.
           ++ exists start, text.
              split_and!; [lia|lia|exact Hresp|intros j Hj; lia|].
              rewrite Nat.sub_diag. reflexivity.
        -- assert (Hinc : inconclusive cfg (Response status_code text) = true)
             by (cbn [inconclusive]; now rewrite Hgood, Hend).
           specialize (Hstep Hinc).
           destruct (get_attempts cfg responses retries (seq (S start) len))
             as [r evs].
           cbn [fst snd] in *. rewrite requests_made_cons_request. exact Hstep.
    + specialize (Hstep eq_refl).
      destruct (get_attempts cfg responses retries (seq (S start) len))
        as [r evs].
      cbn [fst snd] in *.
      rewrite requests_made_cons_request, requests_made_skip_wait. exact Hstep.
Qed.

(** X12: [get_with_retry] stops at the first decisive response: a 200
    longer than [MIN_HTML_LENGTH], returned with its text, or a 403,
    404, 500 or 503, returned without text.  Every earlier attempt
    was inconclusive and one request was made per attempt; the result
    [(None, None)] comes only after [retries] inconclusive attempts
    and as many requests. *)
Theorem get_with_retry_first_decisive responses retries :
  match fst (get_with_retry cfg responses retries) with
  | (Some html, Some status_code) =>
      status_code = 200%Z /\ MIN_HTML_LENGTH cfg < String.length html /\
      exists k,
        k < retries /\
        responses k = Response 200 html /\
        (forall j, j < k -> inconclusive cfg (responses j) = true) /\
        requests_made (snd (get_with_retry cfg responses retries)) = S k
  | (None, Some status_code) =>
      In status_code [403; 404; 500; 503]%Z /\
      exists k text,
        k < retries /\
        responses k = Response status_code text /\
        (forall j, j < k -> inconclusive cfg (responses j) = true) /\
        requests_made (snd (get_with_retry cfg responses retries)) = S k
  | (None, None) =>
      (forall j, j < retries -> inconclusive cfg (responses j) = true) /\
      requests_made (snd (get_with_retry cfg responses retries)) = retries
  | (Some _, None) => False
  end.
Proof.
  unfold get_with_retry.
  pose proof (get_attempts_first_decisive responses retries retries 0) as H.
  destruct (fst (get_attempts cfg responses retries (seq 0 retries)))
    as [[html|] [status_code|]]; try exact H.
  - destruct H as (Hst & Hlen & k & Hk & Hr & Hbefore & Hreq).
    split_and!; [exact Hst|exact Hlen|].
    exists k. split_and!; [lia|exact Hr| |].
    + intros j Hj. apply Hbefore. lia.
    + rewrite Hreq. f_equal. lia.
  - destruct H as (Hin & k & text & Hk & Hr & Hbefore & Hreq).
    split; [exact Hin|].
    exists k, text. split_and!; [lia|exact Hr| |].
    + intros j Hj. apply Hbefore. lia.
    + rewrite Hreq. f_equal. lia.
  - destruct H as [Hall Hreq]. split; [|exact Hreq].
    intros j Hj. apply Hall. lia.
Qed.

Lemma get_attempts_events responses retries attempts :
  Forall (fun a => a < retries) attempts ->
  Forall (fun e =>
            match e with
            | EvRequest a => a < retries
            | EvSleep s jitter =>
                jitter = false /\
                exists a, a + 1 < retries /\ responses a = RequestException /\
                          s = DELAY_BETWEEN_REQUESTS cfg * (a + 1)
            | _ => False
            end)
         (snd (get_attempts cfg responses retries attempts)).
Proof.
  induction attempts as [|attempt rest IH]; intros Hall; [constructor|].
  apply Forall_cons in Hall as [Hlt Hrest]. specialize (IH Hrest).
  cbn [get_attempts].
  destruct (responses attempt) as [status_code text|] eqn:Hresp.
  - destruct ((status_code =? 200)%Z && (MIN_HTML_LENGTH cfg <? String.length text));
      [apply Forall_singleton; exact Hlt|].
    destruct (existsb (Z.eqb status_code) [403; 404; 500; 503]%Z);
      [apply Forall_singleton; exact Hlt|].
    destruct (get_attempts cfg responses retries rest) as [r evs].
    cbn [snd] in *. apply Forall_cons_2; [exact Hlt|exact IH].
  - destruct (get_attempts cfg responses retries rest) as [r evs].
    cbn [snd] in *. apply Forall_cons_2; [exact Hlt|].
    apply Forall_app. split; [|exact IH].
    destruct (attempt <? retries - 1) eqn:Hw; [|constructor].
    apply Nat.ltb_lt in Hw. apply Forall_singleton. split; [reflexivity|].
    exists attempt. split_and!; [lia|exact Hresp|reflexivity].
Qed.

(** X13: [get_with_retry] waits only after a request that failed with
    an exception and is not the last: [DELAY_BETWEEN_REQUESTS] times
    the attempt number, without jitter.  After a response it never
    waits, so a 429, 502 or 504 or a short page is requested again at
    once; and it logs no retryable or permanent error. *)
Theorem get_with_retry_waits_only_after_exception responses retries :
  Forall (fun e =>
            match e with
            | EvRequest a => a < retries
            | EvSleep s jitter =>
                jitter = false /\
                exists a, a + 1 < retries /\ responses a = RequestException /\
                          s = DELAY_BETWEEN_REQUESTS cfg * (a + 1)
            | _ => False
            end)
         (snd (get_with_retry cfg responses retries)).
Proof.
  unfold get_with_retry. apply get_attempts_events.
  apply Forall_forall. intros a Ha. apply elem_of_seq in Ha. lia.
Qed.

End HTTPClientMore.

(** * Further properties of link extraction *)

Lemma length_append_str (a b : string) :
  String.length (a +:+ b) = String.length a + String.length b.
Proof.
  induction a as [|c a IH]; [reflexivity|].
  change (S (String.length (a +:+ b)) = S (String.length a + String.length b)).
  now rewrite IH.
Qed.

Lemma length_take_le n s : String.length (Py.take n s) <= n.
Proof.
  unfold Py.take. revert s. induction n as [|n IH]; intros s.
  - destruct s; cbn; lia.
  - destruct s as [|c s]; cbn [substring String.length]; [lia|].
    specialize (IH s). lia.
Qed.

Section ExtractionMore.

Variable urljoin : string -> string -> result string.

(** The class patterns never leave a flagged link in the body. *)
Lemma classify_menu_body patterns css class_attr p m n f :
  Forall (fun mp => fst mp <> body /\ fst mp <> homepage) patterns ->
  (fst (fst p) <> homepage /\
   (fst (fst p) = body -> snd (fst p) = false /\ snd p = false)) ->
  classify_menu patterns css class_attr p = Ok (m, n, f) ->
  m <> homepage /\ (m = body -> n = false /\ f = false).
Proof.
  revert p. induction patterns as [|[mtype pattern] rest IH]; intros p Hpat Hp;
    cbn [classify_menu].
  - intros [= ->]. exact Hp.
  - apply Forall_cons in Hpat as [[Hb Hh] Hrest]. cbn [fst] in Hb, Hh.
    destruct p as [[menu nav] foot]. cbn [fst snd] in Hp.
    destruct (if Re.search true pattern css then Ok true
              else match class_attr with
                   | Some _ => Raise TypeError
                   | None => Ok (Re.search true pattern EmptyString)
                   end) as [hit|e]; cbn [bind]; [|discriminate].
    apply IH; [exact Hrest|].
    destruct hit; [|exact Hp].
    destruct mtype; cbn [fst snd]; split; congruence.
Qed.

Lemma context_of_length tag : String.length (context_of tag) <= 503.
Proof.
  unfold context_of.
  destruct (List.filter _ (a_parents tag)) as [|parent rest]; [cbn; lia|].
  destruct (500 <? String.length (el_text_spaced parent)) eqn:Hlong.
  - rewrite length_append_str.
    pose proof (length_take_le 500 (collapse_ws false (el_text_spaced parent))).
    cbn [String.length]. lia.
  - apply Nat.ltb_ge in Hlong. lia.
Qed.

(** A kept link is at depth 0 on the page it was found on. *)
Lemma clickable_link_depth_source base_url tag li :
  clickable_link urljoin base_url tag = Ok (Some li) ->
  depth li = 0 /\ source_page li = base_url.
Proof.
  unfold clickable_link.
  destruct (negb (Py.truthy (Py.strip (a_href tag)))
            || Py.startswith "javascript:" (Py.strip (a_href tag))
            || Py.startswith "mailto:" (Py.strip (a_href tag))
            || Py.startswith "tel:" (Py.strip (a_href tag))); [discriminate|].
  destruct (urljoin base_url (Py.strip (a_href tag))) as [joined|e];
    cbn [bind]; [|discriminate].
  destruct (negb _); [discriminate|].
  destruct (classify_menu menu_class_patterns _ _ _) as [[[m n] f]|e];
    cbn [bind]; [|discriminate].
  intros [= <-]. split; reflexivity.
Qed.

(** X14: in a link kept by [extract_clickable_links] the flags follow
    the type: a [maps] link is flagged as a map link, a [contact] link
    is flagged contact and is no map link, an [external] link has
    neither flag.  The link is at depth 0 on the page it was found on,
    its context has at most 503 characters, a link typed [homepage]
    points to the base URL, and a link left in the [body] or typed
    [homepage] is neither a navigation nor a footer link. *)
Theorem clickable_link_flags_follow_type base_url tag li :
  clickable_link urljoin base_url tag = Ok (Some li) ->
  (link_type li = maps -> is_google_maps li = true) /\
  (link_type li = contact ->
   is_contact li = true /\ is_google_maps li = false) /\
  (link_type li = external ->
   is_contact li = false /\ is_google_maps li = false) /\
  depth li = 0 /\ source_page li = base_url /\
  String.length (context li) <= 503 /\
  (menu_type li = homepage ->
   url li = base_url \/ url li = rstrip_slash base_url +:+ "/") /\
  (menu_type li = body \/ menu_type li = homepage ->
   is_navigation li = false /\ is_footer li = false).
Proof.
  unfold clickable_link.
  destruct (negb (Py.truthy (Py.strip (a_href tag)))
            || Py.startswith "javascript:" (Py.strip (a_href tag))
            || Py.startswith "mailto:" (Py.strip (a_href tag))
            || Py.startswith "tel:" (Py.strip (a_href tag))); [discriminate|].
  destruct (urljoin base_url (Py.strip (a_href tag))) as [joined|e];
    cbn [bind]; [|discriminate].
  destruct (negb _); [discriminate|].
  destruct (classify_menu menu_class_patterns _ _ _) as [[[m n] f]|e] eqn:Hmenu;
    cbn [bind]; [|discriminate].
  apply classify_menu_body in Hmenu as [Hhome Hbody].
  2: { unfold menu_class_patterns. repeat constructor; discriminate. }
  2: { unfold structural_placement.
       destruct (has_parent_named "nav" tag || has_parent_with_menu_id tag);
         [cbn; split; [discriminate|discriminate]|].
       destruct (has_parent_named "footer" tag); cbn;
         (split; [discriminate|]); [discriminate|tauto]. }
  cbv zeta. unfold link_type_of.
  generalize (keyword_hit contact_keywords (Py.lower (Py.split_head "#" joined))
                (Py.lower (a_text_spaced tag))).
  generalize (is_maps_link (Py.split_head "#" joined)).
  generalize (existsb (String.eqb (Py.replace "www." "" (Urlparse.netloc joined)))
                SOCIAL_DOMAINS).
  generalize (String.eqb (Py.replace "www." "" (Urlparse.netloc base_url))
                (Py.replace "www." "" (Urlparse.netloc joined))).
  generalize (keyword_hit about_keywords (Py.lower (Py.split_head "#" joined))
                (Py.lower (a_text_spaced tag))).
  intros ab same soc g k.
  intros [= <-].
  cbn [link_type is_google_maps is_contact depth source_page context menu_type
       url is_navigation is_footer anchor_text].
  assert (Htype :
    ((if same then internal else if soc then social else if g then maps
      else if k then contact else external) = maps -> g = true) /\
    ((if same then internal else if soc then social else if g then maps
      else if k then contact else external) = contact ->
     k = true /\ g = false) /\
    ((if same then internal else if soc then social else if g then maps
      else if k then contact else external) = external ->
     k = false /\ g = false)).
  { destruct same, soc, g, k; split_and!; intros; try discriminate;
      try split; reflexivity. }
  destruct Htype as (Hm & Hc & He).
  split; [exact Hm|]. split; [exact Hc|]. split; [exact He|].
  split; [reflexivity|]. split; [reflexivity|].
  split; [apply context_of_length|].
  destruct (String.eqb (Py.split_head "#" joined) base_url
            || String.eqb (Py.split_head "#" joined)
                 (rstrip_slash base_url +:+ "/")) eqn:Hu.
  - split.
    + intros _. apply orb_prop in Hu as [H|H]; apply String.eqb_eq in H; tauto.
    + destruct (decide (m = body)) as [E|E]; intros [H|H]; auto; congruence.
  - split; [intros E; now apply Hhome in E|].
    intros [H|H]; auto; congruence.
Qed.

Lemma clickable_links_raise base_url tags tag e :
  In tag tags ->
  clickable_link urljoin base_url tag = Raise e ->
  exists e', clickable_links urljoin base_url tags = Raise e'.
Proof.
  induction tags as [|a rest IH]; intros Hin Hraise; [destruct Hin|].
  cbn [clickable_links]. destruct Hin as [-> | Hin].
  - rewrite Hraise. now exists e.
  - destruct (clickable_link urljoin base_url a) as [l|e1]; cbn [bind];
      [|now exists e1].
    destruct (IH Hin Hraise) as [e' ->]. now exists e'.
Qed.

Variable find_all_a : string -> result (list Anchor).

(** With a [class] attribute, the first pattern that is not found in
    the joined classes is searched in the attribute's list. *)
Lemma classify_menu_raises patterns css cls mtype pattern : forall p,
  In (mtype, pattern) patterns ->
  Re.search true pattern css = false ->
  classify_menu patterns css (Some cls) p = Raise TypeError.
Proof.
  induction patterns as [|[m0 pat0] rest IH]; intros p Hin Hmiss; [destruct Hin|].
  cbn [classify_menu].
  destruct (Re.search true pat0 css) eqn:Hfound; [|reflexivity].
  cbn [bind]. destruct p as [[menu nav] foot].
  apply IH; [|exact Hmiss].
  destruct Hin as [[= -> ->]|Hin]; [congruence|exact Hin].
Qed.

(** X15: an anchor that reaches the class patterns with a [class]
    attribute in which one of the six patterns is not found makes
    [extract_clickable_links] raise, so [safe_extract_links] returns
    the empty list for the whole page, whatever its other anchors. *)
Theorem class_attribute_empties_page
    base_url html tags tag cls joined mtype pattern :
  find_all_a html = Ok tags ->
  In tag tags ->
  a_class tag = Some cls ->
  negb (Py.truthy (Py.strip (a_href tag)))
  || Py.startswith "javascript:" (Py.strip (a_href tag))
  || Py.startswith "mailto:" (Py.strip (a_href tag))
  || Py.startswith "tel:" (Py.strip (a_href tag)) = false ->
  urljoin base_url (Py.strip (a_href tag)) = Ok joined ->
  Urlparse.scheme joined = "http" \/ Urlparse.scheme joined = "https" ->
  In (mtype, pattern) menu_class_patterns ->
  Re.search true pattern (Py.join " " cls) = false ->
  clickable_link urljoin base_url tag = Raise TypeError /\
  (exists e, extract_clickable_links urljoin find_all_a base_url html = Raise e) /\
  safe_extract_links urljoin find_all_a base_url html = Ok [].
Proof.
  intros Hfind Hin Hclass Hkept Hjoin Hscheme Hpat Hmiss.
  assert (Hone : clickable_link urljoin base_url tag = Raise TypeError).
  { unfold clickable_link. rewrite Hkept, Hjoin. cbn [bind].
    assert (negb (String.eqb (Urlparse.scheme joined) "http"
                  || String.eqb (Urlparse.scheme joined) "https") = false) as ->
      by (destruct Hscheme as [-> | ->]; reflexivity).
    rewrite Hclass. cbn [default].
    now rewrite (classify_menu_raises _ _ cls mtype pattern _ Hpat Hmiss). }
  assert (Hall : exists e,
             extract_clickable_links urljoin find_all_a base_url html = Raise e).
  { unfold extract_clickable_links. rewrite Hfind. cbn [bind].
    exact (clickable_links_raise _ _ _ _ Hin Hone). }
  split; [exact Hone|]. split; [exact Hall|].
  unfold safe_extract_links. destruct Hall as [e ->].
  now destruct (negb (Py.truthy html) || detect_page_errors html).
Qed.

(** X16: every link [safe_extract_links] returns has an http or https
    URL without fragment, is at depth 0 and names the base URL as its
    source page; and it returns links only for a non-empty page in
    which no error signature is found. *)
Theorem safe_extract_links_normalised base_url html links :
  safe_extract_links urljoin find_all_a base_url html = Ok links ->
  Forall (fun li =>
            (Urlparse.scheme (url li) = "http" \/
             Urlparse.scheme (url li) = "https") /\
            Py.contains "#" (url li) = false /\
            depth li = 0 /\ source_page li = base_url) links /\
  (links <> [] -> html <> EmptyString /\ detect_page_errors html = false).
Proof.
  unfold safe_extract_links.
  destruct (negb (Py.truthy html) || detect_page_errors html) eqn:Hskip.
  - intros [= <-]. split; [constructor|]. intros H. now destruct H.
  - apply orb_false_elim in Hskip as [Hnonempty Hclean].
    destruct (extract_clickable_links urljoin find_all_a base_url html)
      as [ls|e] eqn:Hls; cbn [try_except].
    + intros [= <-]. split.
      * apply Forall_forall. intros li Hli. apply list_elem_of_In in Hli.
        destruct (extract_clickable_links_normalised _ _ _ _ _ _ Hls Hli)
          as [Hs Hh].
        unfold extract_clickable_links in Hls.
        destruct (find_all_a html) as [tags|e]; cbn [bind] in Hls; [|discriminate].
        destruct (clickable_links_member _ _ _ _ _ Hls Hli) as (tag & _ & Hc).
        destruct (clickable_link_depth_source _ _ _ Hc) as [Hd Hsrc].
        split_and!; assumption.
      * intros _. split; [|exact Hclean].
        intros ->. discriminate Hnonempty.
    + intros [= <-]. split; [constructor|]. intros H. now destruct H.
Qed.

End ExtractionMore.

Lemma clickable_link_flags_follow_type_witness :
  exists li,
    clickable_link Sample.urljoin "https://example.com/"
      (Sample.plain_anchor "https://www.google.com/maps/place/Cafe" "Find us")
    = Ok (Some li) /\
    link_type li = maps /\ is_google_maps li = true.
Proof.
  eexists. split; [vm_compute; reflexivity|].
  split; [reflexivity|].
  refine (proj1 (clickable_link_flags_follow_type Sample.urljoin
                   "https://example.com/"
                   (Sample.plain_anchor "https://www.google.com/maps/place/Cafe"
                                        "Find us") _ _) _);
    [vm_compute; reflexivity|reflexivity].
Defined.

Lemma class_attribute_empties_page_witness :
  safe_extract_links Sample.urljoin
    (fun _ => Ok [Sample.plain_anchor "/about" "About"; button_anchor])
    "https://example.com/" Sample.long_body = Ok [].
Proof.
  apply (class_attribute_empties_page Sample.urljoin
           (fun _ => Ok [Sample.plain_anchor "/about" "About"; button_anchor])
           "https://example.com/" Sample.long_body
           [Sample.plain_anchor "/about" "About"; button_anchor]
           button_anchor ["btn"] "https://example.com/pricing"
           quicklinks "quick[-_]?links").
  - reflexivity.
  - right. left. reflexivity.
  - reflexivity.
  - vm_compute. reflexivity.
  - vm_compute. reflexivity.
  - right. vm_compute. reflexivity.
  - unfold menu_class_patterns. do 5 right. left. reflexivity.
  - vm_compute. reflexivity.
Defined.

Lemma safe_extract_links_normalised_witness :
  exists links,
    safe_extract_links Sample.urljoin (fun _ => Ok contact_page_anchors)
      "https://example.com/" Sample.long_body = Ok links /\
    length links = 1 /\
    Forall (fun li => Py.contains "#" (url li) = false /\ depth li = 0) links.
Proof.
  eexists. split; [vm_compute; reflexivity|]. split; [reflexivity|].
  eapply Forall_impl.
  - refine (proj1 (safe_extract_links_normalised Sample.urljoin
                     (fun _ => Ok contact_page_anchors)
                     "https://example.com/" Sample.long_body _ _)).
    vm_compute. reflexivity.
  - cbn beta. intros li (_ & Hh & Hd & _). split; assumption.
Defined.

(** * Further properties of the page extraction of the crawl *)

Section PageExtraction.

Variable urljoin : string -> string -> result string.
Variable find_all_a : string -> result (list Anchor).

(** What [_extract_all_links_from_page] stores for an anchor it keeps. *)
Lemma page_link_inv base_url d a li :
  page_link urljoin base_url d a = Ok (Some li) ->
  urljoin base_url (a_href a) = Ok (url li) /\
  Py.truthy (a_href a) = true /\
  Py.startswith "#" (a_href a) = false /\
  Py.startswith "javascript:" (a_href a) = false /\
  existsb (fun ext => Py.endswith ext (Py.lower (url li)))
          Discoverer.excluded_extensions = false /\
  depth li = d + 1 /\ source_page li = base_url /\
  link_type li = internal /\
  is_contact li = false /\ is_about li = false /\ is_google_maps li = false /\
  String.length (context li) <= 100.
Proof.
  unfold page_link.
  destruct (Py.truthy (a_href a)) eqn:Ht; [|discriminate].
  destruct (Py.startswith "#" (a_href a)) eqn:Hh; [discriminate|].
  destruct (Py.startswith "javascript:" (a_href a)) eqn:Hj; [discriminate|].
  cbn [negb orb].
  destruct (urljoin base_url (a_href a)) as [full_url|e]; cbn [bind];
    [|discriminate].
  cbv zeta.
  destruct (existsb (fun ext => Py.endswith ext (Py.lower full_url))
                    Discoverer.excluded_extensions) eqn:Hext; [discriminate|].
  intros [= <-].
  cbn [url depth source_page link_type is_contact is_about is_google_maps context].
  split_and!; try reflexivity; try assumption.
  unfold _get_link_context.
  destruct (a_parents a); [cbn; lia|apply length_take_le].
Qed.

Lemma page_links_of_member base_url d tags links li :
  page_links_of urljoin base_url d tags = Ok links ->
  In li links ->
  exists a, In a tags /\ page_link urljoin base_url d a = Ok (Some li).
Proof.
  revert links.
  induction tags as [|a rest IH]; intros links; cbn [page_links_of].
  - intros [= <-] [].
  - destruct (page_link urljoin base_url d a) as [l|e] eqn:Hl;
      cbn [bind]; [|discriminate].
    destruct (page_links_of urljoin base_url d rest) as [ls|e];
      cbn [bind]; [|discriminate].
    intros [= <-] Hin.
    destruct l as [l|].
    + destruct Hin as [<- | Hin].
      * exists a. split; [now left|exact Hl].
      * destruct (IH ls eq_refl Hin) as (t & Ht & Hc).
        exists t. split; [now right|exact Hc].
    + destruct (IH ls eq_refl Hin) as (t & Ht & Hc).
      exists t. split; [now right|exact Hc].
Qed.

(** X17: [_extract_all_links_from_page] returns at most one link per
    anchor of the page.  Each link is the join of the page URL with
    the [href] of an anchor whose [href] is not empty and starts
    neither with [#] nor with [javascript:]; it is at the depth of the
    page plus one, names the page as its source, is typed [internal]
    with no flag set until the crawl classifies it, its URL does not
    end, in lower case, with an excluded extension, and its context
    has at most 100 characters. *)
Theorem page_extraction_links html base_url d links :
  _extract_all_links_from_page urljoin find_all_a html base_url d = Ok links ->
  exists tags,
    find_all_a html = Ok tags /\
    length links <= length tags /\
    Forall (fun li =>
              (exists a,
                 In a tags /\
                 urljoin base_url (a_href a) = Ok (url li) /\
                 a_href a <> EmptyString /\
                 Py.startswith "#" (a_href a) = false /\
                 Py.startswith "javascript:" (a_href a) = false) /\
              existsb (fun ext => Py.endswith ext (Py.lower (url li)))
                      Discoverer.excluded_extensions = false /\
              depth li = d + 1 /\ source_page li = base_url /\
              link_type li = internal /\
              is_contact li = false /\ is_about li = false /\
              is_google_maps li = false /\
              String.length (context li) <= 100) links.
Proof.
  unfold _extract_all_links_from_page.
  destruct (find_all_a html) as [tags|e]; cbn [bind]; [|discriminate].
  intros Hl. exists tags. split; [reflexivity|].
  split; [exact (page_links_of_length urljoin _ _ _ _ Hl)|].
  apply Forall_forall. intros li Hli. apply list_elem_of_In in Hli.
  destruct (page_links_of_member _ _ _ _ _ Hl Hli) as (a & Ha & Hlink).
  destruct (page_link_inv _ _ _ _ Hlink)
    as (Hj & Ht & Hh & Hjs & Hext & Hd & Hs & Hty & Hc & Hab & Hg & Hctx).
  split_and!; try assumption.
  exists a. split_and!; try assumption.
  intros E. rewrite E in Ht. discriminate Ht.
Qed.

End PageExtraction.

Lemma page_extraction_links_witness :
  exists (links : list LinkInfo) (tags : list Anchor),
    _extract_all_links_from_page Sample.urljoin
      (fun _ => Ok contact_page_anchors)
      Sample.long_body "https://example.com/" 0 = Ok links /\
    length links = 2 /\
    length links <= length tags /\
    Forall (fun li => depth li = 1 /\ link_type li = internal) links.
Proof.
  eexists.
  destruct (page_extraction_links Sample.urljoin
              (fun _ => Ok contact_page_anchors)
              Sample.long_body "https://example.com/" 0 _
              ltac:(vm_compute; reflexivity))
    as (tags & _ & Hlen & Hall).
  exists tags. split; [reflexivity|]. split; [reflexivity|].
  split; [exact Hlen|].
  eapply Forall_impl; [exact Hall|].
  cbn beta. intros li (_ & _ & Hd & _ & Hty & _). split; assumption.
Defined.

(** * Further properties of map links *)

Lemma lower_append (a b : string) :
  Py.lower (a +:+ b) = Py.lower a +:+ Py.lower b.
Proof.
  induction a as [|c a IH]; [reflexivity|].
  change (String (Py.lower_char c) (Py.lower (a +:+ b))
          = String (Py.lower_char c) (Py.lower a +:+ Py.lower b)).
  now rewrite IH.
Qed.

(** A text that holds [p] holds, in lower case, [p] in lower case. *)
Lemma contains_lower p s :
  Py.contains p s = true -> Py.contains (Py.lower p) (Py.lower s) = true.
Proof.
  intros H. apply contains_append in H as (a & b & ->).
  apply contains_append. exists (Py.lower a), (Py.lower b).
  now rewrite !lower_append.
Qed.

(** X18: a link the crawl types [maps] is a map link for
    [extract_clickable_links] too: its URL passes [is_maps_link]; it
    is flagged as a map link and its URL is appended to the direct map
    links of the site map, the other category lists being left as they
    are. *)
Theorem crawl_map_link_is_maps_link li sm :
  link_type (fst (_classify_and_store_link li sm)) = maps ->
  is_maps_link (url li) = true /\
  is_google_maps (fst (_classify_and_store_link li sm)) = true /\
  url (fst (_classify_and_store_link li sm)) = url li /\
  maps_links (google_maps_info (snd (_classify_and_store_link li sm)))
  = maps_links (google_maps_info sm) ++ [url li] /\
  internal_links (snd (_classify_and_store_link li sm)) = internal_links sm /\
  external_links (snd (_classify_and_store_link li sm)) = external_links sm /\
  social_links (snd (_classify_and_store_link li sm)) = social_links sm.
Proof.
  unfold _classify_and_store_link. cbv zeta.
  destruct (String.eqb _ _); [discriminate|].
  destruct (existsb _ Discoverer.social_domains); [discriminate|].
  destruct (Py.contains "maps.google.com" (url li)
            || Py.contains "google.com/maps" (url li)) eqn:Hmap; [|discriminate].
  intros _. split_and!; try reflexivity.
  unfold is_maps_link.
  apply orb_prop in Hmap as [H|H]; apply contains_lower in H;
    change (Py.lower "maps.google.com") with "maps.google.com" in H;
    change (Py.lower "google.com/maps") with "google.com/maps" in H;
    rewrite H; [now rewrite !orb_true_r|reflexivity].
Qed.

Lemma crawl_map_link_is_maps_link_witness :
  is_maps_link "https://www.google.com/maps/place/Cafe" = true /\
  maps_links (google_maps_info
                (snd (_classify_and_store_link place_link
                        (SiteMap_new "example.com" "https://example.com/"))))
  = ["https://www.google.com/maps/place/Cafe"].
Proof.
  destruct (crawl_map_link_is_maps_link place_link
              (SiteMap_new "example.com" "https://example.com/")
              ltac:(vm_compute; reflexivity))
    as (Hm & _ & _ & Hl & _).
  split; [exact Hm|exact Hl].
Defined.

(** ** The primary link and the order of the list *)

Lemma first_link_with_existsb pattern links :
  match first_link_with pattern links with
  | Some link => In link links /\ pattern_in_link pattern link = true
  | None => True
  end /\
  (existsb (pattern_in_link pattern) links = false <->
   first_link_with pattern links = None).
Proof.
  induction links as [|l rest [IH1 IH2]]; cbn [first_link_with existsb];
    [split; [exact I|split; reflexivity]|].
  destruct (pattern_in_link pattern l) eqn:Hm; cbn [orb].
  - split; [split; [now left|exact Hm]|split; discriminate].
  - split; [|exact IH2].
    destruct (first_link_with pattern rest); [|exact I].
    destruct IH1 as [Hin Hp]. split; [now right|exact Hp].
Qed.

Lemma first_priority_match_find patterns links :
  match List.find (fun pattern => existsb (pattern_in_link pattern) links)
                  patterns with
  | Some pattern =>
      exists link, first_priority_match patterns links = Some link /\
                   pattern_in_link pattern link = true
  | None => first_priority_match patterns links = None
  end.
Proof.
  induction patterns as [|p rest IH]; cbn [List.find first_priority_match];
    [reflexivity|].
  destruct (first_link_with_existsb p links) as [Hsome Hnone].
  destruct (existsb (pattern_in_link p) links) eqn:Hex.
  - destruct (first_link_with p links) as [link|].
    + exists link. split; [reflexivity|exact (proj2 Hsome)].
    + destruct Hnone as [_ Hnone]. discriminate (Hnone eq_refl).
  - rewrite (proj1 Hnone eq_refl). exact IH.
Qed.

Lemma existsb_permutation {A : Type} (f : A -> bool) (l l' : list A) :
  Permutation l l' -> existsb f l = existsb f l'.
Proof.
  intros Hperm.
  destruct (existsb f l) eqn:H1; destruct (existsb f l') eqn:H2; try reflexivity.
  - apply existsb_exists in H1 as (x & Hx & Hfx).
    assert (existsb f l' = true) as H
      by (apply existsb_exists; exists x; split;
          [exact (Permutation_in x Hperm Hx)|exact Hfx]).
    congruence.
  - apply existsb_exists in H2 as (x & Hx & Hfx).
    assert (existsb f l = true) as H
      by (apply existsb_exists; exists x; split;
          [exact (Permutation_in x (Permutation_sym Hperm) Hx)|exact Hfx]).
    congruence.
Qed.

Lemma best_pattern_permutation l l' :
  Permutation l l' -> best_pattern l = best_pattern l'.
Proof.
  intros Hperm. unfold best_pattern.
  induction priority_patterns as [|p rest IH]; cbn [List.find]; [reflexivity|].
  rewrite (existsb_permutation (pattern_in_link p) l l' Hperm).
  now rewrite IH.
Qed.

Lemma primary_has_best_pattern l p :
  best_pattern l = Some p ->
  pattern_in_link p (_select_primary_maps_link l) = true.
Proof.
  unfold best_pattern. intros Hbest.
  pose proof (first_priority_match_find priority_patterns l) as H.
  rewrite Hbest in H. destruct H as (link & Hlink & Hp).
  unfold _select_primary_maps_link.
  destruct l as [|first rest]; [discriminate Hlink|].
  now rewrite Hlink.
Qed.

(** X19: the order in which the set of map links is listed does not
    change the rank of the primary link: two listings of the same
    links have the same best priority pattern, the primary link chosen
    from either one contains it, and when no link contains a priority
    pattern the primary link is the first of the listing. *)
Theorem primary_link_rank_order_independent l l' :
  Permutation l l' ->
  best_pattern l = best_pattern l' /\
  (forall p, best_pattern l = Some p ->
     pattern_in_link p (_select_primary_maps_link l) = true /\
     pattern_in_link p (_select_primary_maps_link l') = true) /\
  (best_pattern l = None ->
   _select_primary_maps_link l = default EmptyString (head l) /\
   _select_primary_maps_link l' = default EmptyString (head l')).
Proof.
  intros Hperm.
  pose proof (best_pattern_permutation l l' Hperm) as Hsame.
  split; [exact Hsame|]. split.
  - intros p Hp. split; apply primary_has_best_pattern; congruence.
  - intros Hnone.
    assert (Hfallback : forall k, best_pattern k = None ->
              _select_primary_maps_link k = default EmptyString (head k)).
    { intros k Hk. unfold best_pattern in Hk.
      pose proof (first_priority_match_find priority_patterns k) as H.
      rewrite Hk in H. unfold _select_primary_maps_link.
      destruct k as [|first rest]; [reflexivity|]. now rewrite H. }
    split; apply Hfallback; congruence.
Qed.

Lemma primary_link_rank_order_independent_witness :
  best_pattern ["https://goo.gl/maps/abc";
                "https://www.google.com/maps/place/Cafe"]
  = best_pattern ["https://www.google.com/maps/place/Cafe";
                  "https://goo.gl/maps/abc"].
Proof.
  apply (primary_link_rank_order_independent
           ["https://goo.gl/maps/abc"; "https://www.google.com/maps/place/Cafe"]
           ["https://www.google.com/maps/place/Cafe"; "https://goo.gl/maps/abc"]).
  apply perm_swap.
Defined.

(** ** Links detected in anchors and frames *)

Section DetectionFacts.

Variable urljoin : string -> string -> result string.

Lemma direct_test_is_maps_link full_url :
  existsb (fun pattern => Py.contains pattern (Py.lower full_url))
          ["maps.google.com"; "google.com/maps"; "goo.gl/maps"; "maps.app.goo.gl"]
  = is_maps_link full_url.
Proof.
  unfold is_maps_link. cbn [existsb].
  destruct (Py.contains "maps.google.com" (Py.lower full_url)),
           (Py.contains "google.com/maps" (Py.lower full_url)),
           (Py.contains "goo.gl/maps" (Py.lower full_url)),
           (Py.contains "maps.app.goo.gl" (Py.lower full_url)); reflexivity.
Qed.

Lemma _detect_direct_links_inv base_url anchors : forall links,
  _detect_direct_links urljoin base_url anchors = Ok links ->
  length links <= length anchors /\
  Forall (fun u => is_maps_link u = true /\
                   exists a, In a anchors /\ urljoin base_url (a_href a) = Ok u)
         links.
Proof.
  induction anchors as [|a rest IH]; intros links; cbn [_detect_direct_links].
  - intros [= <-]. split; [reflexivity|constructor].
  - destruct (urljoin base_url (a_href a)) as [full_url|e] eqn:Hj; cbn [bind];
      [|discriminate].
    destruct (_detect_direct_links urljoin base_url rest) as [found|e];
      cbn [bind]; [|discriminate].
    destruct (IH found eq_refl) as [Hlen Hall].
    assert (Hrest : Forall (fun u => is_maps_link u = true /\
                       exists a0, In a0 (a :: rest) /\
                                  urljoin base_url (a_href a0) = Ok u) found).
    { eapply Forall_impl; [exact Hall|]. cbn beta.
      intros u [Hm (a0 & Ha0 & Hu)]. split; [exact Hm|].
      exists a0. split; [now right|exact Hu]. }
    rewrite direct_test_is_maps_link.
    destruct (is_maps_link full_url) eqn:Hm; intros [= <-].
    + split; [cbn [length]; lia|]. apply Forall_cons_2; [|exact Hrest].
      split; [exact Hm|]. exists a. split; [now left|exact Hj].
    + split; [cbn [length]; lia|exact Hrest].
Qed.

Lemma _detect_iframe_embeds_inv base_url srcs : forall embeds,
  _detect_iframe_embeds urljoin base_url srcs = Ok embeds ->
  length embeds <= length srcs /\
  Forall (fun u => Py.contains "maps.google.com" (Py.lower u)
                   || Py.contains "google.com/maps" (Py.lower u) = true)
         embeds.
Proof.
  induction srcs as [|src rest IH]; intros embeds; cbn [_detect_iframe_embeds].
  - intros [= <-]. split; [reflexivity|constructor].
  - destruct (urljoin base_url src) as [full_url|e]; cbn [bind]; [|discriminate].
    destruct (_detect_iframe_embeds urljoin base_url rest) as [found|e];
      cbn [bind]; [|discriminate].
    destruct (IH found eq_refl) as [Hlen Hall].
    cbn [existsb]. rewrite orb_false_r.
    destruct (Py.contains "maps.google.com" (Py.lower full_url)
              || Py.contains "google.com/maps" (Py.lower full_url)) eqn:Hm;
      intros [= <-].
    + split; [cbn [length]; lia|]. apply Forall_cons_2; [exact Hm|exact Hall].
    + split; [cbn [length]; lia|exact Hall].
Qed.

(** A listing that holds a link with one of the two generic forms
    never falls back to its first link. *)
Lemma generic_link_has_rank listed u :
  In u listed ->
  Py.contains "maps.google.com" (Py.lower u)
  || Py.contains "google.com/maps" (Py.lower u) = true ->
  exists p, best_pattern listed = Some p.
Proof.
  intros Hin Hgen. unfold best_pattern.
  destruct (List.find _ priority_patterns) as [p|] eqn:Hfind; [now exists p|].
  exfalso. apply orb_prop in Hgen as [H|H].
  - pose proof (find_none _ _ Hfind "maps.google.com") as Hno.
    cbn beta in Hno.
    rewrite (proj2 (existsb_exists _ _)) in Hno;
      [discriminate Hno; unfold priority_patterns; cbn; tauto|].
    exists u. split; [exact Hin|exact H].
  - pose proof (find_none _ _ Hfind "google.com/maps") as Hno.
    cbn beta in Hno.
    rewrite (proj2 (existsb_exists _ _)) in Hno;
      [discriminate Hno; unfold priority_patterns; cbn; tauto|].
    exists u. split; [exact Hin|exact H].
Qed.

(** X20: every link [_detect_direct_links] returns is the join of an
    anchor's [href] with the page URL and passes [is_maps_link]; every
    embed [_detect_iframe_embeds] returns shows one of the two generic
    forms, so it passes [is_maps_link] too, and a listing that holds
    such an embed gets its primary link by a priority pattern, never
    by the fallback to the first link.  Neither returns more links
    than the page has elements. *)
Theorem detected_links_are_map_links base_url anchors srcs links embeds :
  _detect_direct_links urljoin base_url anchors = Ok links ->
  _detect_iframe_embeds urljoin base_url srcs = Ok embeds ->
  length links <= length anchors /\
  length embeds <= length srcs /\
  Forall (fun u => is_maps_link u = true /\
                   exists a, In a anchors /\ urljoin base_url (a_href a) = Ok u)
         links /\
  Forall (fun u => is_maps_link u = true) embeds /\
  (forall listed u,
     In u embeds -> In u listed ->
     exists p, In p priority_patterns /\
               pattern_in_link p (_select_primary_maps_link listed) = true).
Proof.
  intros Hlinks Hembeds.
  destruct (_detect_direct_links_inv _ _ _ Hlinks) as [Hl1 Hl2].
  destruct (_detect_iframe_embeds_inv _ _ _ Hembeds) as [He1 He2].
  split_and!; [exact Hl1|exact He1|exact Hl2| |].
  - eapply Forall_impl; [exact He2|]. cbn beta. intros u Hu.
    unfold is_maps_link.
    apply orb_prop in Hu as [-> | ->]; [now rewrite !orb_true_r|reflexivity].
  - intros listed u Hu Hin.
    rewrite Forall_forall in He2.
    destruct (generic_link_has_rank listed u Hin
                (He2 u (proj2 (list_elem_of_In _ _) Hu))) as [p Hp].
    exists p. split; [|exact (primary_has_best_pattern _ _ Hp)].
    unfold best_pattern in Hp. apply find_some in Hp. exact (proj1 Hp).
Qed.

End DetectionFacts.

Lemma detected_links_are_map_links_witness :
  exists links embeds,
    _detect_direct_links Sample.urljoin "https://example.com/"
      [Sample.plain_anchor "/about" "About";
       Sample.plain_anchor "https://goo.gl/maps/abc" "Map"] = Ok links /\
    _detect_iframe_embeds Sample.urljoin "https://example.com/"
      ["https://www.google.com/maps/embed?pb=1"] = Ok embeds /\
    length links = 1 /\ length embeds = 1 /\
    Forall (fun u => is_maps_link u = true) (links ++ embeds).
Proof.
  eexists. eexists.
  split; [vm_compute; reflexivity|]. split; [vm_compute; reflexivity|].
  split; [reflexivity|]. split; [reflexivity|].
  destruct (detected_links_are_map_links Sample.urljoin "https://example.com/"
              [Sample.plain_anchor "/about" "About";
               Sample.plain_anchor "https://goo.gl/maps/abc" "Map"]
              ["https://www.google.com/maps/embed?pb=1"] _ _
              ltac:(vm_compute; reflexivity) ltac:(vm_compute; reflexivity))
    as (_ & _ & Hl & He & _).
  apply Forall_app. split; [|exact He].
  eapply Forall_impl; [exact Hl|]. cbn beta. intros u [Hu _]. exact Hu.
Defined.

(** ** Map links from structured data *)

(** A one-character pattern is in a text when the character is. *)
Lemma contains_char_cons c x s :
  Py.contains (String c EmptyString) (String x s)
  = if Ascii.eqb c x then true else Py.contains (String c EmptyString) s.
Proof.
  cbn [Py.contains String.prefix].
  destruct (ascii_dec c x) as [->|Hne].
  - rewrite Ascii.eqb_refl. now destruct s.
  - apply Ascii.eqb_neq in Hne. now rewrite Hne.
Qed.

Lemma contains_char_append c a b :
  Py.contains (String c EmptyString) (a +:+ b)
  = Py.contains (String c EmptyString) a || Py.contains (String c EmptyString) b.
Proof.
  induction a as [|x a IH]; [reflexivity|].
  change (String x a +:+ b) with (String x (a +:+ b)).
  rewrite !contains_char_cons, IH. now destruct (Ascii.eqb c x).
Qed.

(** [s.replace(' ', '+')] leaves no space. *)
Lemma replace_space_no_space s :
  Py.contains " " (Py.replace " " "+" s) = false.
Proof.
  unfold Py.replace. induction s as [|x s IH]; [reflexivity|].
  cbn [Py.replace_from String.length Nat.sub].
  destruct (String.prefix " " (String x s)) eqn:Hp.
  - change ("+" +:+ Py.replace_from " " "+" 0 s)
      with (String "+" (Py.replace_from " " "+" 0 s)).
    rewrite contains_char_cons. exact IH.
  - rewrite contains_char_cons, IH.
    cbn [String.prefix] in Hp.
    destruct (ascii_dec " " x) as [<-|Hne]; [now destruct s|].
    apply Ascii.eqb_neq in Hne. now rewrite Hne.
Qed.

Section StructuredDataFacts.

Variable Value : Type.
Variable as_dict : Value -> option (string -> option Value).
Variable py_str : Value -> string.
Variable py_truthy : Value -> bool.

Lemma location_url_shape data u :
  location_url Value as_dict py_str data = Some u ->
  exists rest, u = "https://www.google.com/maps?q=" +:+ rest.
Proof.
  unfold location_url.
  destruct (data "location") as [location|]; [|discriminate].
  destruct (as_dict location) as [loc|]; [|discriminate].
  destruct (loc "geo") as [geo|]; [|discriminate].
  destruct (as_dict geo) as [g|]; [|discriminate].
  destruct (g "latitude") as [lat|]; [|discriminate].
  destruct (g "longitude") as [lng|]; [|discriminate].
  intros [= <-]. now eexists.
Qed.

Lemma address_url_shape data u :
  address_url Value as_dict py_str data = Some u ->
  exists parts,
    parts <> [] /\
    u = "https://www.google.com/maps/search/"
        +:+ Py.replace " " "+" (Py.join ", " parts).
Proof.
  unfold address_url.
  destruct (data "address") as [address|]; [|discriminate].
  destruct (as_dict address) as [addr|]; [|discriminate].
  cbv zeta.
  destruct (omap _ _) as [|part parts] eqn:Hparts; [discriminate|].
  intros [= <-]. exists (part :: parts). split; [discriminate|reflexivity].
Qed.

(** X21: [_extract_maps_from_structured_data] gives [hasMap] the
    priority: when the key is present its value is returned as it is,
    whatever the location and the address say, and
    [_detect_structured_data_maps] drops the entry when that value is
    falsy, without looking at them.  A URL the method builds itself is
    never empty and passes [is_maps_link]; the one built from the
    address holds no space. *)
Theorem structured_data_map_links :
  (forall data d has_map,
     as_dict data = Some d ->
     d "hasMap" = Some has_map ->
     _extract_maps_from_structured_data Value as_dict py_str data
     = Some (inl has_map) /\
     (py_truthy has_map = false ->
      _detect_structured_data_maps Value as_dict py_str py_truthy [data] = [])) /\
  (forall data u,
     _extract_maps_from_structured_data Value as_dict py_str data
     = Some (inr u) ->
     Py.truthy u = true /\ is_maps_link u = true /\
     (Py.startswith "https://www.google.com/maps/search/" u = true ->
      Py.contains " " u = false)).
Proof.
  split.
  - intros data d has_map Hd Hkey.
    assert (Hres : _extract_maps_from_structured_data Value as_dict py_str data
                   = Some (inl has_map))
      by (unfold _extract_maps_from_structured_data; now rewrite Hd, Hkey).
    split; [exact Hres|]. intros Hfalsy.
    cbn [_detect_structured_data_maps]. rewrite Hd, Hres.
    cbn [maps_url_truthy]. now rewrite Hfalsy.
  - intros data u. unfold _extract_maps_from_structured_data.
    destruct (as_dict data) as [d|]; [|discriminate].
    destruct (d "hasMap"); [discriminate|].
    destruct (location_url Value as_dict py_str d) as [u1|] eqn:Hloc.
    + intros [= <-]. apply location_url_shape in Hloc as [rest ->].
      split_and!; [reflexivity| |discriminate].
      unfold is_maps_link.
      assert (Py.contains "google.com/maps"
                (Py.lower ("https://www.google.com/maps?q=" +:+ rest)) = true)
        as ->; [|reflexivity].
      apply contains_append. exists "https://www.", ("?q=" +:+ Py.lower rest).
      rewrite lower_append. reflexivity.
    + destruct (address_url Value as_dict py_str d) as [u2|] eqn:Haddr;
        [|discriminate].
      intros [= <-]. apply address_url_shape in Haddr as (parts & _ & ->).
      split_and!; [reflexivity| |].
      * unfold is_maps_link.
        assert (Py.contains "google.com/maps"
                  (Py.lower ("https://www.google.com/maps/search/"
                             +:+ Py.replace " " "+" (Py.join ", " parts))) = true)
          as ->; [|reflexivity].
        apply contains_append.
        exists "https://www.",
               ("/search/" +:+ Py.lower (Py.replace " " "+" (Py.join ", " parts))).
        rewrite lower_append. reflexivity.
      * intros _. rewrite contains_char_append, replace_space_no_space.
        reflexivity.
Qed.

End StructuredDataFacts.

Lemma structured_data_map_links_witness :
  _detect_structured_data_maps SampleJson sample_as_dict sample_str
    sample_truthy [cafe_json]
  = [inr "https://www.google.com/maps/search/1+Main+Street,+Springfield"] /\
  Py.contains " " "https://www.google.com/maps/search/1+Main+Street,+Springfield"
  = false.
Proof.
  split; [vm_compute; reflexivity|].
  apply (proj2 (structured_data_map_links SampleJson sample_as_dict sample_str
                  sample_truthy)
           cafe_json
           "https://www.google.com/maps/search/1+Main+Street,+Springfield").
  - vm_compute. reflexivity.
  - vm_compute. reflexivity.
Defined.

(** * Properties of the scores *)

(** X22: the firmographic score needs no clamp: the points it adds up
    are a multiple of five between 0 and 100, so [min(100, score)]
    never changes them; the score is 100 exactly when all nine tests
    succeed and 0 exactly when none does. *)
Theorem firmographic_score_range metrics contact_info :
  _calculate_firmographic_score metrics contact_info
  = firmographic_points metrics contact_info /\
  _calculate_firmographic_score metrics contact_info <= 100 /\
  _calculate_firmographic_score metrics contact_info mod 5 = 0 /\
  (_calculate_firmographic_score metrics contact_info = 100 <->
   opt_truthy (brand_name contact_info)
   && negb (String.eqb (industry metrics) "Unknown")
   && opt_truthy (founded_year metrics)
   && opt_truthy (address contact_info)
   && opt_truthy (email contact_info)
   && opt_truthy (company_phone contact_info)
   && existsb (fun item => opt_truthy (snd item)) (social_media contact_info)
   && opt_truthy (employees metrics)
   && opt_truthy (annual_revenue metrics) = true) /\
  (_calculate_firmographic_score metrics contact_info = 0 <->
   opt_truthy (brand_name contact_info)
   || negb (String.eqb (industry metrics) "Unknown")
   || opt_truthy (founded_year metrics)
   || opt_truthy (address contact_info)
   || opt_truthy (email contact_info)
   || opt_truthy (company_phone contact_info)
   || existsb (fun item => opt_truthy (snd item)) (social_media contact_info)
   || opt_truthy (employees metrics)
   || opt_truthy (annual_revenue metrics) = false).
Proof.
  unfold _calculate_firmographic_score, firmographic_points.
  assert (Hsocial :
    match social_media contact_info with [] => false | _ => true end
    && existsb (fun item => opt_truthy (snd item)) (social_media contact_info)
    = existsb (fun item => opt_truthy (snd item)) (social_media contact_info))
    by now destruct (social_media contact_info).
  rewrite Hsocial. clear Hsocial.
  destruct (opt_truthy (brand_name contact_info)),
           (negb (String.eqb (industry metrics) "Unknown")),
           (opt_truthy (founded_year metrics)),
           (opt_truthy (address contact_info)),
           (opt_truthy (email contact_info)),
           (opt_truthy (company_phone contact_info)),
           (existsb (fun item => opt_truthy (snd item))
                    (social_media contact_info)),
           (opt_truthy (employees metrics)),
           (opt_truthy (annual_revenue metrics));
    vm_compute;
    (split; [reflexivity|]); (split; [repeat constructor|]);
    (split; [reflexivity|]);
    split; split; intros H; (reflexivity || discriminate H).
Qed.

Lemma engagement_points_bound pages_data contact_info sitemap :
  engagement_points pages_data contact_info sitemap <= 100 /\
  engagement_points pages_data contact_info sitemap mod 5 = 0.
Proof.
  unfold engagement_points.
  assert (Hsocial : exists k, k <= 6 /\
            match social_media contact_info with
            | [] => 0
            | _ => 0 + Nat.min 30 (active_platforms contact_info * 5)
            end = 5 * k).
  { destruct (social_media contact_info) as [|item items] eqn:Hs;
      [exists 0; split; [lia|reflexivity]|].
    destruct (Nat.le_gt_cases 6 (active_platforms contact_info)).
    - exists 6. split; [lia|]. lia.
    - exists (active_platforms contact_info). split; [lia|]. lia. }
  destruct Hsocial as (k & Hk & ->).
  generalize (foldr N.add 0%N (page_word_count <$> pages_data)). intros words.
  destruct k as [|[|[|[|[|[|[|k]]]]]]]; [| | | | | | | exfalso; lia];
  destruct (10000 <? words)%N, (5000 <? words)%N, (1000 <? words)%N,
           (20 <? total_pages sitemap), (10 <? total_pages sitemap),
           (5 <? total_pages sitemap),
           (google_maps_integration contact_info);
    destruct pages_data as [|first rest];
    try destruct (Py.startswith "https://" (page_url first));
    cbv zeta;
    (split; [lia|reflexivity]).
Qed.

(** X23: the engagement score needs no clamp either: its points are
    a multiple of five, at most 100 (30 for the platforms, 25 for the
    words, 25 for the pages, 10 for a map, 10 for https), and at most
    90 unless the first analysed page has an [https://] URL. *)
Theorem engagement_score_range pages_data contact_info sitemap :
  _calculate_engagement_score pages_data contact_info sitemap
  = engagement_points pages_data contact_info sitemap /\
  _calculate_engagement_score pages_data contact_info sitemap <= 100 /\
  _calculate_engagement_score pages_data contact_info sitemap mod 5 = 0 /\
  (Py.startswith "https://" (default EmptyString (page_url <$> head pages_data))
   = false ->
   _calculate_engagement_score pages_data contact_info sitemap <= 90).
Proof.
  destruct (engagement_points_bound pages_data contact_info sitemap)
    as [Hle Hmod].
  unfold _calculate_engagement_score.
  rewrite Nat.min_r by exact Hle.
  split_and!; [reflexivity|exact Hle|exact Hmod|].
  intros Hhttp. unfold engagement_points.
  assert (Hsocial :
            match social_media contact_info with
            | [] => 0
            | _ => 0 + Nat.min 30 (active_platforms contact_info * 5)
            end <= 30)
    by (destruct (social_media contact_info); lia).
  revert Hsocial.
  generalize (match social_media contact_info with
              | [] => 0
              | _ => 0 + Nat.min 30 (active_platforms contact_info * 5)
              end).
  intros social Hsocial.
  generalize (foldr N.add 0%N (page_word_count <$> pages_data)). intros words.
  destruct pages_data as [|first rest];
    [|change (Py.startswith "https://" (page_url first) = false) in Hhttp;
      rewrite Hhttp];
    destruct (10000 <? words)%N, (5000 <? words)%N, (1000 <? words)%N,
             (20 <? total_pages sitemap), (10 <? total_pages sitemap),
             (5 <? total_pages sitemap),
             (google_maps_integration contact_info);
    cbv zeta; lia.
Qed.

Lemma engagement_score_range_witness :
  _calculate_engagement_score
    [{| page_url := "http://example.com/"; page_title := None;
        page_description := None; page_html := None;
        page_text_content := None; page_status_code := Some 200%Z;
        page_word_count := 12000; page_is_contact_page := false;
        page_type := "general" |}]
    {| brand_name := None; email := None; mobile_phone := None;
       corporate_phone := None; support_phone := None; company_phone := None;
       address := None; company_city := None; company_state := None;
       google_map := None; all_google_maps_links := [];
       google_maps_integration := NotFound; social_media := [] |}
    (SiteMap_new "example.com" "http://example.com/") <= 90.
Proof.
  apply (proj2 (proj2 (proj2 (engagement_score_range _ _ _)))).
  reflexivity.
Defined.

(** X24: more pages never lower the complexity tier of a site nor its
    engagement score, and the tier assessed is never [Unknown]. *)
Theorem more_pages_never_lower pages_data contact_info sm sm' :
  total_pages sm <= total_pages sm' ->
  complexity_rank (_assess_website_complexity sm)
  <= complexity_rank (_assess_website_complexity sm') /\
  1 <= complexity_rank (_assess_website_complexity sm) /\
  _calculate_engagement_score pages_data contact_info sm
  <= _calculate_engagement_score pages_data contact_info sm'.
Proof.
  intros Hle. split_and!.
  - unfold _assess_website_complexity. cbv zeta.
    destruct (50 <=? total_pages sm) eqn:H1, (20 <=? total_pages sm) eqn:H2,
             (6 <=? total_pages sm) eqn:H3,
             (50 <=? total_pages sm') eqn:H1', (20 <=? total_pages sm') eqn:H2',
             (6 <=? total_pages sm') eqn:H3';
      cbn [complexity_rank]; try lia;
      repeat match goal with
             | H : (_ <=? _) = true |- _ => apply Nat.leb_le in H
             | H : (_ <=? _) = false |- _ => apply Nat.leb_gt in H
             end; lia.
  - unfold _assess_website_complexity. cbv zeta.
    destruct (50 <=? total_pages sm), (20 <=? total_pages sm),
             (6 <=? total_pages sm); cbn [complexity_rank]; lia.
  - unfold _calculate_engagement_score. apply Nat.min_le_compat_l.
    unfold engagement_points.
    generalize (match social_media contact_info with
                | [] => 0
                | _ => 0 + Nat.min 30 (active_platforms contact_info * 5)
                end).
    intros social.
    generalize (foldr N.add 0%N (page_word_count <$> pages_data)). intros words.
    destruct (10000 <? words)%N, (5000 <? words)%N, (1000 <? words)%N,
             (google_maps_integration contact_info);
      destruct pages_data as [|first rest];
      try destruct (Py.startswith "https://" (page_url first));
      cbv zeta;
      destruct (20 <? total_pages sm) eqn:H1, (10 <? total_pages sm) eqn:H2,
               (5 <? total_pages sm) eqn:H3,
               (20 <? total_pages sm') eqn:H1', (10 <? total_pages sm') eqn:H2',
               (5 <? total_pages sm') eqn:H3';
      try lia;
      repeat match goal with
             | H : (_ <? _) = true |- _ => apply Nat.ltb_lt in H
             | H : (_ <? _) = false |- _ => apply Nat.ltb_ge in H
             end; lia.
Qed.

Lemma more_pages_never_lower_witness :
  complexity_rank (_assess_website_complexity (sitemap_of_pages 5))
  <= complexity_rank (_assess_website_complexity (sitemap_of_pages 60)) /\
  _calculate_engagement_score [] empty_contact (sitemap_of_pages 5)
  <= _calculate_engagement_score [] empty_contact (sitemap_of_pages 60).
Proof.
  destruct (more_pages_never_lower [] empty_contact
              (sitemap_of_pages 5) (sitemap_of_pages 60))
    as (Hc & _ & He).
  - cbn. lia.
  - split; [exact Hc|exact He].
Defined.

(** X25: when the map information of the site map is the one
    [detect_all_google_maps] compiled from the listed links, the
    contact record gets these links, the status is [Integrated]
    exactly when there is a link, and the map link of the record is
    then one of the listed links, the one the priority selects; with
    no link the record keeps its defaults. *)
Theorem contact_map_is_listed sm maps_info listed :
  google_maps_info sm = compile_maps_info maps_info listed ->
  match contact_maps_fields sm with
  | (link, links, status) =>
      links = listed /\
      (status = Integrated <-> listed <> []) /\
      match link with
      | Some u => In u listed /\ u = _select_primary_maps_link listed
      | None => listed = []
      end
  end.
Proof.
  intros Hinfo. unfold contact_maps_fields. rewrite Hinfo.
  cbn [compile_maps_info all_maps_links primary_maps_link
       maps_integration_status].
  destruct listed as [|first rest].
  - split; [reflexivity|]. split; [|reflexivity].
    split; [discriminate|intros H; now destruct H].
  - split; [reflexivity|]. split.
    + split; [discriminate|reflexivity].
    + split; [|reflexivity].
      apply primary_link_is_member. discriminate.
Qed.

Lemma contact_map_is_listed_witness :
  contact_maps_fields
    (sitemap_with_maps
       (compile_maps_info GoogleMapsInfo_default
          ["https://goo.gl/maps/abc";
           "https://www.google.com/maps/place/Cafe"]))
  = (Some "https://www.google.com/maps/place/Cafe",
     ["https://goo.gl/maps/abc"; "https://www.google.com/maps/place/Cafe"],
     Integrated) /\
  In "https://www.google.com/maps/place/Cafe"
     ["https://goo.gl/maps/abc"; "https://www.google.com/maps/place/Cafe"].
Proof.
  pose proof (contact_map_is_listed
                (sitemap_with_maps
                   (compile_maps_info GoogleMapsInfo_default
                      ["https://goo.gl/maps/abc";
                       "https://www.google.com/maps/place/Cafe"]))
                GoogleMapsInfo_default
                ["https://goo.gl/maps/abc";
                 "https://www.google.com/maps/place/Cafe"] eq_refl) as H.
  assert (Hfields :
    contact_maps_fields
      (sitemap_with_maps
         (compile_maps_info GoogleMapsInfo_default
            ["https://goo.gl/maps/abc";
             "https://www.google.com/maps/place/Cafe"]))
    = (Some "https://www.google.com/maps/place/Cafe",
       ["https://goo.gl/maps/abc"; "https://www.google.com/maps/place/Cafe"],
       Integrated)) by (vm_compute; reflexivity).
  rewrite Hfields in H. destruct H as (_ & _ & Hin & _).
  split; [exact Hfields|exact Hin].
Defined.

Lemma active_platforms_none contact_info :
  active_platforms contact_info = 0 <->
  existsb (fun item => opt_truthy (snd item)) (social_media contact_info) = false.
Proof.
  unfold active_platforms.
  induction (social_media contact_info) as [|item items IH];
    cbn [List.filter existsb length]; [split; reflexivity|].
  destruct (opt_truthy (snd item)); cbn [length orb]; [|exact IH].
  split; discriminate.
Qed.

(** X26: the two assessments agree with the firmographic score.  The
    digital presence is ["Limited"] exactly when no platform is
    active, and the score then misses the points for social media; a
    contact accessibility of ["Limited"] means that no e-mail, no
    phone and no address was found, so the score is at most 70, and at
    most 60 when both assessments are ["Limited"]. *)
Theorem limited_assessments_cap_score metrics contact_info sitemap :
  (_assess_digital_presence sitemap contact_info = "Limited" <->
   active_platforms contact_info = 0) /\
  (_assess_digital_presence sitemap contact_info = "Limited" ->
   _calculate_firmographic_score metrics contact_info <= 90) /\
  (_assess_contact_accessibility contact_info sitemap = "Limited" ->
   opt_truthy (email contact_info) = false /\
   opt_truthy (company_phone contact_info) = false /\
   opt_truthy (mobile_phone contact_info) = false /\
   opt_truthy (address contact_info) = false /\
   opt_truthy (google_map contact_info) = false /\
   contact_links sitemap = [] /\
   _calculate_firmographic_score metrics contact_info <= 70 /\
   (_assess_digital_presence sitemap contact_info = "Limited" ->
    _calculate_firmographic_score metrics contact_info <= 60)).
Proof.
  assert (Hpresence : _assess_digital_presence sitemap contact_info = "Limited" <->
                      active_platforms contact_info = 0).
  { unfold _assess_digital_presence. cbv zeta.
    destruct (5 <=? active_platforms contact_info) eqn:H5;
      [split; [discriminate|intros E; rewrite E in H5; discriminate]|].
    destruct (3 <=? active_platforms contact_info) eqn:H3;
      [split; [discriminate|intros E; rewrite E in H3; discriminate]|].
    destruct (1 <=? active_platforms contact_info) eqn:H1;
      [split; [discriminate|intros E; rewrite E in H1; discriminate]|].
    apply Nat.leb_gt in H1. split; [lia|reflexivity]. }
  assert (Hscore : forall social,
            existsb (fun item => opt_truthy (snd item))
                    (social_media contact_info) = social ->
            forall e p a,
              opt_truthy (email contact_info) = e ->
              opt_truthy (company_phone contact_info) = p ->
              opt_truthy (address contact_info) = a ->
              _calculate_firmographic_score metrics contact_info
              <= 40 + (if a then 10 else 0) + (if e then 10 else 0)
                 + (if p then 10 else 0) + (if social then 10 else 0) + 20).
  { intros social Hs e p a He Hp Ha.
    unfold _calculate_firmographic_score, firmographic_points.
    rewrite Hs, He, Hp, Ha.
    etransitivity; [apply Nat.le_min_r|].
    destruct (social_media contact_info) as [|item items];
      [cbn [existsb] in Hs; subst social|];
      destruct (opt_truthy (brand_name contact_info)),
               (negb (String.eqb (industry metrics) "Unknown")),
               (opt_truthy (founded_year metrics)),
               (opt_truthy (employees metrics)),
               (opt_truthy (annual_revenue metrics)), a, e, p;
      try destruct social; cbn; lia. }
  split; [exact Hpresence|]. split.
  - intros Hlim. apply Hpresence, active_platforms_none in Hlim.
    pose proof (Hscore false Hlim _ _ _ eq_refl eq_refl eq_refl) as H.
    revert H.
    destruct (opt_truthy (address contact_info)),
             (opt_truthy (email contact_info)),
             (opt_truthy (company_phone contact_info)); cbv iota beta; lia.
  - unfold _assess_contact_accessibility. cbv zeta.
    destruct (opt_truthy (email contact_info)) eqn:He,
             (opt_truthy (company_phone contact_info)) eqn:Hp,
             (opt_truthy (mobile_phone contact_info)) eqn:Hm,
             (opt_truthy (address contact_info)) eqn:Ha,
             (opt_truthy (google_map contact_info)) eqn:Hg,
             (0 <? length (contact_links sitemap)) eqn:Hl;
      cbn [Nat.add Nat.leb orb]; try discriminate.
    intros _. apply Nat.ltb_ge in Hl.
    split_and!; try reflexivity.
    + destruct (contact_links sitemap); [reflexivity|cbn in Hl; lia].
    + pose proof (Hscore _ eq_refl false false false eq_refl eq_refl eq_refl) as H.
      revert H. destruct (existsb _ _); cbv iota beta; lia.
    + intros Hlim. apply Hpresence, active_platforms_none in Hlim.
      pose proof (Hscore false Hlim false false false eq_refl eq_refl eq_refl) as H.
      cbv iota beta in H. lia.
Qed.

Lemma limited_assessments_cap_score_witness :
  _calculate_firmographic_score
    {| industry := "Technology"; employees := Some "50";
       annual_revenue := Some "$5M"; founded_year := Some "1999";
       firmographic_score := 0; engagement_score := 0;
       segmentation := "Unknown"; metrics_structure_complexity := Unknown;
       digital_presence_strength := "Unknown";
       contact_accessibility := "Unknown" |}
    empty_contact <= 60.
Proof.
  refine (proj2 (proj2 (proj2 (proj2 (proj2 (proj2 (proj2
            (proj2 (proj2 (limited_assessments_cap_score _ empty_contact
                             (sitemap_of_pages 1)))
               _))))))) _); reflexivity.
Defined.

(** * Page types *)

Lemma contact_page_keyword url_ text_content :
  _determine_page_type url_ text_content = "contact" ->
  any_in Discoverer.contact_keywords (Py.lower url_) = true.
Proof.
  unfold _determine_page_type. cbv zeta.
  destruct (any_in ["about"; "story"; "company"] (Py.lower url_)); [discriminate|].
  destruct (any_in ["contact"; "reach"; "touch"] (Py.lower url_)) eqn:Hc.
  - intros _. unfold any_in, Discoverer.contact_keywords in *.
    cbn [existsb] in *.
    destruct (Py.contains "contact" (Py.lower url_)); [reflexivity|].
    destruct (Py.contains "reach" (Py.lower url_));
      [now rewrite !orb_true_r|].
    destruct (Py.contains "touch" (Py.lower url_));
      [now rewrite !orb_true_r|discriminate Hc].
  - destruct (any_in ["product"; "service"; "solution"] (Py.lower url_));
      [discriminate|].
    destruct (any_in ["blog"; "news"; "article"] (Py.lower url_)); [discriminate|].
    destruct (any_in ["team"; "staff"; "people"] (Py.lower url_)); discriminate.
Qed.

(** X27: the page type is one of six and agrees with the flags of the
    crawl: a URL that holds [about] in lower case is typed ["about"];
    a page typed ["contact"] holds one of the contact keywords of the
    crawl, so that the crawl, meeting a link to it on the site, flags
    the link as contact and appends it to the contact links of the
    site map. *)
Theorem page_type_agrees_with_crawl url_ text_content :
  In (_determine_page_type url_ text_content)
     ["about"; "contact"; "product"; "blog"; "team"; "general"] /\
  (Py.contains "about" (Py.lower url_) = true ->
   _determine_page_type url_ text_content = "about") /\
  (_determine_page_type url_ text_content = "contact" ->
   forall li sm,
     url li = url_ ->
     same_site (main_url sm) (url li) = true ->
     is_contact (fst (_classify_and_store_link li sm)) = true /\
     contact_links (snd (_classify_and_store_link li sm))
     = contact_links sm ++ [fst (_classify_and_store_link li sm)]).
Proof.
  split_and!.
  - unfold _determine_page_type. cbv zeta.
    destruct (any_in ["about"; "story"; "company"] (Py.lower url_));
      [cbn; tauto|].
    destruct (any_in ["contact"; "reach"; "touch"] (Py.lower url_));
      [cbn; tauto|].
    destruct (any_in ["product"; "service"; "solution"] (Py.lower url_));
      [cbn; tauto|].
    destruct (any_in ["blog"; "news"; "article"] (Py.lower url_));
      [cbn; tauto|].
    destruct (any_in ["team"; "staff"; "people"] (Py.lower url_)); cbn; tauto.
  - intros Habout. unfold _determine_page_type, any_in. cbv zeta.
    cbn [existsb]. now rewrite Habout.
  - intros Htype li sm Hurl Hsame.
    apply contact_page_keyword in Htype. rewrite <- Hurl in Htype.
    unfold same_site in Hsame. unfold _classify_and_store_link. cbv zeta.
    rewrite Hsame, Htype. split; reflexivity.
Qed.

Lemma page_type_agrees_with_crawl_witness :
  _determine_page_type "https://example.com/get-in-touch" "Write to us"
  = "contact" /\
  is_contact
    (fst (_classify_and_store_link
            (bare_link "https://example.com/get-in-touch" "Write to us")
            (SiteMap_new "example.com" "https://example.com/"))) = true.
Proof.
  split; [vm_compute; reflexivity|].
  refine (proj1 (proj2 (proj2 (page_type_agrees_with_crawl
                                 "https://example.com/get-in-touch"
                                 "Write to us"))
                   _ (bare_link "https://example.com/get-in-touch" "Write to us")
                   (SiteMap_new "example.com" "https://example.com/") _ _));
    vm_compute; reflexivity.
Defined.

(** * The analysis of one page *)

Section PageAnalysisFacts.

Variable cfg : EnhancedAnalyzerConfig.
Variable net : string -> Responses.
Variable selenium : string -> result string.
Variable parse : string -> result ParsedPage.

(** X28: a page record returned by [_analyze_single_page_enhanced]
    always has the status code 200 and a non-empty [html]: either the
    text [get_with_retry] returned, which is longer than
    [MIN_HTML_LENGTH], so that the test of its length never sends a
    fetched page to the browser, or, when [get_with_retry] returned no
    text, the page source of the browser.  The URL was not processed
    before and is marked processed by the call, with or without a
    record, so that a second call for it returns nothing. *)
Theorem analysed_page_has_status_200 processed_urls url_ :
  (forall page processed',
     _analyze_single_page_enhanced cfg net selenium parse processed_urls url_
     = (Some page, processed') ->
     (url_ ∉ processed_urls) /\
     page_url page = url_ /\
     page_status_code page = Some 200%Z /\
     exists html,
       page_html page = Some html /\ html <> EmptyString /\
       ((fst (fst (get_with_retry cfg (net url_) (MAX_RETRIES cfg))) = Some html /\
         MIN_HTML_LENGTH cfg < String.length html) \/
        (opt_truthy (fst (fst (get_with_retry cfg (net url_) (MAX_RETRIES cfg))))
         = false /\
         selenium url_ = Ok html))) /\
  url_ ∈ snd (_analyze_single_page_enhanced cfg net selenium parse
                processed_urls url_) /\
  processed_urls
  ⊆ snd (_analyze_single_page_enhanced cfg net selenium parse
           processed_urls url_) /\
  fst (_analyze_single_page_enhanced cfg net selenium parse
         (snd (_analyze_single_page_enhanced cfg net selenium parse
                 processed_urls url_)) url_) = None.
Proof.
  assert (Hmarked :
    url_ ∈ snd (_analyze_single_page_enhanced cfg net selenium parse
                  processed_urls url_) /\
    processed_urls
    ⊆ snd (_analyze_single_page_enhanced cfg net selenium parse
             processed_urls url_)).
  { unfold _analyze_single_page_enhanced.
    destruct (bool_decide (url_ ∈ processed_urls)) eqn:Hseen;
      [apply bool_decide_eq_true in Hseen; cbn [snd]; split; set_solver|].
    destruct (fst (get_with_retry cfg (net url_) (MAX_RETRIES cfg)))
      as [html status_code].
    destruct (negb (opt_truthy html)
              || (String.length (default EmptyString html)
                  <? MIN_HTML_LENGTH cfg)).
    - destruct (selenium url_) as [page_source|e]; [|cbn [snd]; split; set_solver].
      destruct (negb (opt_truthy (Some page_source)));
        [cbn [snd]; split; set_solver|].
      destruct (parse _); cbn [snd]; split; set_solver.
    - destruct (negb (opt_truthy html)); [cbn [snd]; split; set_solver|].
      destruct (parse _); cbn [snd]; split; set_solver. }
  destruct Hmarked as [Hin Hsub].
  split_and!; [|exact Hin|exact Hsub|].
  - intros page processed'. unfold _analyze_single_page_enhanced.
    destruct (bool_decide (url_ ∈ processed_urls)) eqn:Hseen; [discriminate|].
    apply bool_decide_eq_false in Hseen.
    destruct (get_with_retry cfg (net url_) (MAX_RETRIES cfg))
      as [[html status_code] evs] eqn:Hget.
    cbn [fst].
    destruct html as [html|].
    + destruct (get_with_retry_content cfg _ _ _ _ _ Hget) as (-> & Hlen & _).
      assert (Htruthy : Py.truthy html = true)
        by (destruct html; [cbn in Hlen; lia|reflexivity]).
      change (default EmptyString (Some html)) with html.
      cbn [opt_truthy]. rewrite Htruthy.
      assert ((String.length html <? MIN_HTML_LENGTH cfg) = false) as ->
        by (apply Nat.ltb_ge; lia).
      cbn [negb orb].
      change (default EmptyString (Some html)) with html.
      cbn [opt_truthy]. rewrite Htruthy. cbn [negb].
      destruct (parse html) as [parsed|e]; [|discriminate].
      intros [= <- <-]. cbn [page_url page_status_code page_html].
      split_and!; [exact Hseen|reflexivity|reflexivity|].
      exists html. split_and!; [reflexivity| |left; split; [reflexivity|exact Hlen]].
      intros ->. discriminate Htruthy.
    + cbn [opt_truthy negb orb].
      destruct (selenium url_) as [page_source|e] eqn:Hsel; [|discriminate].
      cbn [opt_truthy].
      destruct (Py.truthy page_source) eqn:Htruthy; cbn [negb]; [|discriminate].
      change (default EmptyString (Some page_source)) with page_source.
      destruct (parse page_source) as [parsed|e]; [|discriminate].
      intros [= <- <-]. cbn [page_url page_status_code page_html].
      split_and!; [exact Hseen|reflexivity|reflexivity|].
      exists page_source.
      split_and!; [reflexivity| |right; split; reflexivity].
      intros ->. discriminate Htruthy.
  - unfold _analyze_single_page_enhanced at 1.
    now rewrite (bool_decide_eq_true_2 _ Hin).
Qed.

End PageAnalysisFacts.

Lemma analysed_page_has_status_200_witness :
  exists page processed',
    _analyze_single_page_enhanced config Sample.always_200 no_browser
      welcome_parser ∅ "https://example.com/" = (Some page, processed') /\
    page_status_code page = Some 200%Z.
Proof.
  destruct (_analyze_single_page_enhanced config Sample.always_200 no_browser
              welcome_parser ∅ "https://example.com/")
    as [[page|] processed'] eqn:Hrun.
  - exists page, processed'. split; [reflexivity|].
    exact (proj1 (proj2 (proj2
             (proj1 (analysed_page_has_status_200 config Sample.always_200
                       no_browser welcome_parser ∅ "https://example.com/")
                page processed' Hrun)))).
  - exfalso. revert Hrun. unfold _analyze_single_page_enhanced.
    rewrite bool_decide_eq_false_2 by set_solver.
    assert (fst (get_with_retry config (Sample.always_200 "https://example.com/")
                   (MAX_RETRIES config))
            = (Some Sample.long_body, Some 200%Z)) as ->
      by (vm_compute; reflexivity).
    assert (negb (opt_truthy (Some Sample.long_body))
            || (String.length (default EmptyString (Some Sample.long_body))
                <? MIN_HTML_LENGTH config) = false) as ->
      by (vm_compute; reflexivity).
    assert (negb (opt_truthy (Some Sample.long_body)) = false) as ->
      by (vm_compute; reflexivity).
    discriminate.
Defined.
